(** * pciSeq scenarios dashboard: run resolution, comparison state,
      colour lookup, Sankey fallback and the spatial viewer

    A shallow embedding of the dashboard script and of the spatial viewer
    modules (spatial-state.js, spatial-loader.js, spatial-colors.js,
    spatial-rendering.js), followed by the properties proved about them.

    Conventions of the embedding.
    - A JavaScript object used as a dictionary is a [gmap] with string keys;
      where the enumeration order of its entries is observable
      ([Object.entries]) it is an association list in insertion order.
    - An [async] function is cut at its [await]: the part before it is one
      atomic step, the continuation is a second atomic step fed with the
      outcome of the fetch.  The page is single threaded, so nothing
      interleaves inside a step.
    - A function that can raise returns a [completion]; console output,
      alerts and reads of the run table are recorded as a list of [effect]s.
    - Hyperparameter values are decimal numbers with their JavaScript
      printing; cell coordinates, planes and gene counts are exact rationals
      (rounding of doubles is not modelled).
    - Writes to the document and the drawing of charts are left out; where
      one of them can raise inside a handler, the handler takes its outcome
      as an argument.  Calls into deck.gl are recorded as [call]s.
    - The dashboard's [DEBUG] is an argument of the functions that test it;
      in the viewer modules the lines guarded by [window.DEBUG] are left
      out.  Keys that name members of [Object.prototype] are not
      considered. *)

From Stdlib Require Import ZArith QArith Qminmax Qround Ascii String List Bool Lia.
From Stdlib Require Import DecimalString.
From Stdlib Require Import Reals Lra Qreals.
From Stdlib Require Import Sorted Permutation.
From Stdlib Require Lqa.
From stdpp Require Import base option list strings gmap.

Import ListNotations.
#[local] Open Scope list_scope.
#[local] Open Scope string_scope.
#[local] Open Scope Z_scope.

(* ================================================================== *)
(** ** Completions and effects *)

Inductive completion (A : Type) : Type :=
| Normal (a : A)
| Throw (what : string).
Arguments Normal {A} a.
Arguments Throw {A} what.

Inductive effect : Type :=
| TableRead (key : string)          (* RUN_MAPPING[key] *)
| ConsoleLog (msg : string)
| ConsoleWarn (msg : string)
| ConsoleError (msg : string)
| Alert (msg : string)
| LoadSpatialRun (runId : string).  (* syncSpatialRun -> loader.loadRunData *)

Definition is_TableRead (e : effect) : bool :=
  match e with TableRead _ => true | _ => false end.

Definition is_console (e : effect) : bool :=
  match e with
  | ConsoleLog _ | ConsoleWarn _ | ConsoleError _ => true
  | _ => false
  end.

(** Effects that end nothing: console lines and reads of the table. *)
Definition benign (e : effect) : bool := is_console e || is_TableRead e.

(** [if (DEBUG) console.xxx(...)] *)
Definition when_debug (DEBUG : bool) (e : effect) : list effect :=
  if DEBUG then [e] else [].

(** How a [fetch] followed by [response.json()] can end. *)
Inductive fetched (A : Type) : Type :=
| NetworkError                      (* fetch rejects *)
| HttpError (statusText : string)   (* !response.ok *)
| BadJSON                           (* response.json() rejects *)
| Fetched (a : A).
Arguments NetworkError {A}.
Arguments HttpError {A} statusText.
Arguments BadJSON {A}.
Arguments Fetched {A} a.

(** [loadJSON(path)] raises in the first three cases. *)
Definition loadJSON {A : Type} (r : fetched A) : completion A :=
  match r with
  | NetworkError => Throw "TypeError: Failed to fetch"
  | HttpError _ => Throw "Failed to load"
  | BadJSON => Throw "SyntaxError"
  | Fetched a => Normal a
  end.

(* ================================================================== *)
(** ** JavaScript numbers, as far as the parameter values need them *)

Module JSNumber.

(** A finite number is [m * 10^e].  Every value the dashboard handles is a
    short decimal literal, for which the double nearest to the literal
    prints back as the literal's own digits, so the decimal stands for the
    double. *)
Inductive number : Type :=
| NaN
| Inf (negative : bool)
| Num (m e : Z).

(** Trailing zeros of the mantissa move into the exponent. *)
Fixpoint strip10 (fuel : nat) (m e : Z) : Z * Z :=
  match fuel with
  | O => (m, e)
  | S f => if (m mod 10 =? 0) && negb (m =? 0)
           then strip10 f (m / 10) (e + 1) else (m, e)
  end.

Definition mkNum (m e : Z) : number :=
  if m =? 0 then Num 0 0
  else let '(m', e') := strip10 (Z.to_nat (Z.log2_up (Z.abs m))) m e in
       Num m' e'.

(** [a === b] on numbers: numeric equality, false on NaN. *)
Definition strict_eq (a b : number) : bool :=
  match a, b with
  | Num m e, Num m' e' =>
      let lo := Z.min e e' in
      m * 10 ^ (e - lo) =? m' * 10 ^ (e' - lo)
  | Inf s, Inf s' => Bool.eqb s s'
  | _, _ => false
  end.

Definition strict_neq (a b : number) : bool := negb (strict_eq a b).

(** *** Number to string (the conversion a template literal applies) *)

Definition digits (n : Z) : string :=
  NilZero.string_of_uint (N.to_uint (Z.to_N n)).

Definition zeros (n : Z) : string :=
  string_of_list_ascii (repeat "0"%char (Z.to_nat n)).

Definition sub (from len : Z) (s : string) : string :=
  substring (Z.to_nat from) (Z.to_nat len) s.

Definition ToString (x : number) : string :=
  match x with
  | NaN => "NaN"
  | Inf false => "Infinity"
  | Inf true => "-Infinity"
  | Num m0 e0 =>
      match mkNum m0 e0 with
      | Num m e =>
          if m =? 0 then "0" else
          let sgn := if m <? 0 then "-" else "" in
          let ds := digits (Z.abs m) in
          let k := Z.of_nat (String.length ds) in
          let n := k + e in
          sgn ++
          (if (k <=? n) && (n <=? 21) then ds ++ zeros (n - k)
           else if (0 <? n) && (n <=? 21) then sub 0 n ds ++ "." ++ sub n (k - n) ds
           else if (-6 <? n) && (n <=? 0) then "0." ++ zeros (- n) ++ ds
           else
             let ex := n - 1 in
             let es := (if ex <? 0 then "-" else "+") ++ digits (Z.abs ex) in
             if k =? 1 then ds ++ "e" ++ es
             else sub 0 1 ds ++ "." ++ sub 1 (k - 1) ds ++ "e" ++ es)
      | _ => "NaN"
      end
  end.

(** *** String to number: [Number(s)] on a decimal token *)

Definition digit_of (c : ascii) : option Z :=
  let n := Z.of_N (N_of_ascii c) in
  if (48 <=? n) && (n <=? 57) then Some (n - 48) else None.

(** Reads a run of digits: value so far, how many, and the rest. *)
Fixpoint take_digits (cs : list ascii) (acc len : Z) : Z * Z * list ascii :=
  match cs with
  | c :: cs' =>
      match digit_of c with
      | Some d => take_digits cs' (10 * acc + d) (len + 1)
      | None => (acc, len, cs)
      end
  | [] => (acc, len, [])
  end.

Definition is_space (c : ascii) : bool :=
  let n := N_of_ascii c in
  ((n =? 32) || (n =? 9) || (n =? 10) || (n =? 13) || (n =? 11) || (n =? 12))%N.

Fixpoint drop_spaces (cs : list ascii) : list ascii :=
  match cs with
  | c :: cs' => if is_space c then drop_spaces cs' else cs
  | [] => []
  end.

Definition trim (cs : list ascii) : list ascii :=
  rev (drop_spaces (rev (drop_spaces cs))).

Definition take_sign (cs : list ascii) : bool * list ascii :=
  match cs with
  | "-"%char :: cs' => (true, cs')
  | "+"%char :: cs' => (false, cs')
  | _ => (false, cs)
  end.

(** The exponent part, when there is one: [e] or [E], a sign, digits. *)
Definition take_exponent (cs : list ascii) : option (Z * list ascii) :=
  match cs with
  | c :: cs' =>
      if (Ascii.eqb c "e" || Ascii.eqb c "E")%bool then
        let '(neg, cs2) := take_sign cs' in
        let '(v, len, rest) := take_digits cs2 0 0 in
        if len =? 0 then None
        else Some (if neg then - v else v, rest)
      else Some (0, cs)
  | [] => Some (0, [])
  end.

(** [Number(s)] for the decimal grammar (blank is 0, surrounding white
    space is dropped, anything left over gives NaN).  Tokens in another
    radix ([0x..], [0b..], [0o..]) are outside this model. *)
Definition Number (s : string) : number :=
  let cs := trim (list_ascii_of_string s) in
  match cs with
  | [] => Num 0 0
  | _ =>
      let '(neg, cs1) := take_sign cs in
      if String.eqb (string_of_list_ascii cs1) "Infinity" then Inf neg
      else
        let '(ip, ilen, cs2) := take_digits cs1 0 0 in
        let '(fp, flen, cs3) :=
          match cs2 with
          | "."%char :: cs' => take_digits cs' 0 0
          | _ => (0, 0, cs2)
          end in
        if (ilen + flen =? 0) then NaN
        else
          match take_exponent cs3 with
          | Some (ex, []) =>
              let m := ip * 10 ^ flen + fp in
              mkNum (if neg then - m else m) (ex - flen)
          | _ => NaN
          end
  end.

(** [parseFloat(s)]: the longest prefix that is a decimal literal; an
    exponent marker without digits is not part of it. *)
Definition parseFloat (s : string) : number :=
  let '(neg, cs1) := take_sign (drop_spaces (list_ascii_of_string s)) in
  if String.prefix "Infinity" (string_of_list_ascii cs1) then Inf neg
  else
    let '(ip, ilen, cs2) := take_digits cs1 0 0 in
    let '(fp, flen, cs3) :=
      match cs2 with
      | "."%char :: cs' => take_digits cs' 0 0
      | _ => (0, 0, cs2)
      end in
    if (ilen + flen =? 0) then NaN
    else
      let ex := match take_exponent cs3 with Some (ex, _) => ex | None => 0 end in
      let m := ip * 10 ^ flen + fp in
      mkNum (if neg then - m else m) (ex - flen).

End JSNumber.

Import JSNumber.

(* ================================================================== *)
(** ** Config registry and run resolution (dashboard script) *)

Module Config.

(** const DEBUG = false; the functions below take the flag as an argument
    so that both settings are covered. *)
Definition DEBUG : bool := false.

Record ParamDescriptor : Type := {
  default : number;
  values : list number;
  displayName : string
}.

Definition PARAM_CONFIG : gmap string ParamDescriptor :=
  list_to_map [
    ("inefficiency",
      {| default := Num 1 (-1);
         values := [Num 1 (-3); Num 5 (-3); Num 1 (-2); Num 5 (-2);
                    Num 1 (-1); Num 5 (-1); Num 1 0];
         displayName := "Inefficiency" |});
    ("misreadDensity",
      {| default := Num 1 (-5);
         values := [Num 1 (-6); Num 5 (-6); Num 1 (-5); Num 5 (-5); Num 1 (-4)];
         displayName := "MisreadDensity" |});
    ("spotReg",
      {| default := Num 1 (-1);
         values := [Num 1 (-3); Num 1 (-2); Num 1 (-1); Num 5 (-1); Num 1 0];
         displayName := "SpotReg" |});
    ("rSpot",
      {| default := Num 2 0;
         values := [Num 5 (-1); Num 1 0; Num 2 0; Num 5 0; Num 1 1];
         displayName := "rSpot" |})
  ].

(** The entries of RUN_MAPPING, in source order. *)
Definition RUN_MAPPING_entries : list (string * string) := [
  ("default", "run_0");
  ("inefficiency:0.001", "run_6");
  ("inefficiency:0.005", "run_5");
  ("inefficiency:0.01", "run_4");
  ("inefficiency:0.05", "run_3");
  ("inefficiency:0.5", "run_1");
  ("inefficiency:1.0", "run_2");
  ("misreadDensity:1e-06", "run_8");
  ("misreadDensity:5e-06", "run_7");
  ("misreadDensity:5e-05", "run_9");
  ("misreadDensity:1e-04", "run_10");
  ("spotReg:0.001", "run_11");
  ("spotReg:0.01", "run_12");
  ("spotReg:0.5", "run_13");
  ("spotReg:1.0", "run_14");
  ("rSpot:0.5", "run_15");
  ("rSpot:1.0", "run_16");
  ("rSpot:5.0", "run_17");
  ("rSpot:10.0", "run_18")
].

Definition RUN_MAPPING : gmap string string := list_to_map RUN_MAPPING_entries.

(** The run identifiers the table can name. *)
Definition run_ids : list string := map snd RUN_MAPPING_entries.

(** A JavaScript string is truthy when it is not empty. *)
Definition truthy_string (s : string) : bool := negb (String.eqb s "").

(** Template literal [`${name}:${value}`]. *)
Definition key_of (name value : string) : string := name ++ ":" ++ value.

(** The four radio groups, in the order [getCurrentConfig] fills the
    object; [None] is "no radio checked". *)
Definition config4 (inefficiency misreadDensity spotReg rSpot : number)
  : list (string * number) :=
  [("inefficiency", inefficiency); ("misreadDensity", misreadDensity);
   ("spotReg", spotReg); ("rSpot", rSpot)].

Definition radio_value (name : string) (checked : option string) : number :=
  match checked with
  | Some v => parseFloat v
  | None => match PARAM_CONFIG !! name with
            | Some d => default d
            | None => NaN
            end
  end.

Definition getCurrentConfig (inefficiencyRadio misreadDensityRadio
                             spotRegRadio rSpotRadio : option string)
  : list (string * number) :=
  config4 (radio_value "inefficiency" inefficiencyRadio)
          (radio_value "misreadDensity" misreadDensityRadio)
          (radio_value "spotReg" spotRegRadio)
          (radio_value "rSpot" rSpotRadio).

(** The body of the [forEach] over [Object.keys(config)]:
    [PARAM_CONFIG[paramName].default] raises on an unknown name. *)
Definition pushNonDefault (acc : completion (list (string * number)))
                          (entry : string * number)
  : completion (list (string * number)) :=
  match acc with
  | Throw e => Throw e
  | Normal nd =>
      let '(paramName, paramValue) := entry in
      match PARAM_CONFIG !! paramName with
      | None => Throw "TypeError"
      | Some d =>
          if strict_neq paramValue (default d)
          then Normal (nd ++ [(paramName, paramValue)])%list
          else Normal nd
      end
  end.

Definition nonDefaultParams (config : list (string * number))
  : completion (list (string * number)) :=
  fold_left pushNonDefault config (Normal []).

(** [getRunIdForConfig(config)]: the effects it performs and how it
    completes. *)
Definition getRunIdForConfig (debug : bool) (config : list (string * number))
  : list effect * completion string :=
  match nonDefaultParams config with
  | Throw e => ([], Throw e)
  | Normal [] => ([], Normal "run_0")
  | Normal [(name, value)] =>
      let key := key_of name (ToString value) in
      let lookup := (when_debug debug (ConsoleLog "Lookup key:") ++ [TableRead key])%list in
      match RUN_MAPPING !! key with
      | Some runId =>
          if truthy_string runId then (lookup, Normal runId)
          else (lookup ++ when_debug debug (ConsoleWarn "Mapping not found for"),
                Normal "run_0")
      | None =>
          (lookup ++ when_debug debug (ConsoleWarn "Mapping not found for"),
           Normal "run_0")
      end%list
  | Normal _ =>
      (when_debug debug (ConsoleWarn "Multiple non-default parameters detected:"),
       Normal "run_0")
  end.

(** The "Determine run mapping" block of [onParameterChange]: the key is
    built from the string the radio input carries. *)
Definition determineRunMapping (debug : bool) (paramName paramValueStr : string)
  : list effect * string :=
  let isDefault :=
    match PARAM_CONFIG !! paramName with
    | Some d => strict_eq (Number paramValueStr) (default d)
    | None => false
    end in
  if isDefault then
    (when_debug debug (ConsoleLog "Default selected for"), "run_0")
  else
    let lookupKey := key_of paramName paramValueStr in
    let lookup := (when_debug debug (ConsoleLog "Lookup key:") ++ [TableRead lookupKey])%list in
    match RUN_MAPPING !! lookupKey with
    | Some runId =>
        if truthy_string runId then (lookup, runId)
        else (lookup ++ when_debug debug (ConsoleWarn "Mapping not found for")
                     ++ when_debug debug (ConsoleLog "Resetting to base run"),
              "run_0")
    | None =>
        (lookup ++ when_debug debug (ConsoleWarn "Mapping not found for")
                ++ when_debug debug (ConsoleLog "Resetting to base run"),
         "run_0")
    end%list.

(** Is this entry of a configuration away from its descriptor default. *)
Definition nonDefault (entry : string * number) : bool :=
  match PARAM_CONFIG !! fst entry with
  | Some d => strict_neq (snd entry) (default d)
  | None => false
  end.

(** Modelled from the spec: the [value] attributes of the radio inputs (the
    page markup is not among the sources).  The selection UI offers one
    discrete choice per allowed value; each token is written the way the
    keys of RUN_MAPPING and the literals of PARAM_CONFIG write that value. *)
Definition radioTokens : list (string * list string) := [
  ("inefficiency", ["0.001"; "0.005"; "0.01"; "0.05"; "0.1"; "0.5"; "1.0"]);
  ("misreadDensity", ["1e-06"; "5e-06"; "1e-05"; "5e-05"; "1e-04"]);
  ("spotReg", ["0.001"; "0.01"; "0.1"; "0.5"; "1.0"]);
  ("rSpot", ["0.5"; "1.0"; "2.0"; "5.0"; "10.0"])
].

End Config.

(* ================================================================== *)
(** ** The dashboard script: colours, Sankey projection, comparison state *)

Module Dashboard.

(** *** Run datasets *)

Record Population : Type := {
  hg_purity : Q;
  hg_cell_type_counts : option (list (string * Z))
}.

Record RegionData : Type := {
  purity : Q;
  cell_type_counts : option (list (string * Z));   (* in Object.entries order *)
  high_gene_count : option Population
}.

Record Transition : Type := { from : string; to : string; count : Z }.

Record RunData : Type := {
  regions : gmap string RegionData;
  transitions : option (gmap string (gmap string (list Transition)))
}.

(** A loaded dataset is an object: [ref] is its identity ([===] compares
    it), [source] the run whose file it was parsed from. *)
Record Dataset : Type := { ref : nat; source : string; content : RunData }.

Record Metadata : Type := {
  base_run : string;
  runs : list string;                 (* the ids of the alternative runs *)
  min_gene_counts : option Q
}.

Record State : Type := {
  metadata : option Metadata;
  baseData : option Dataset;
  altData : option Dataset;
  currentRun : option string;
  currentRegion : string;
  currentFilter : string;
  cellColors : option (gmap string string)
}.

Definition state0 : State :=
  {| metadata := None; baseData := None; altData := None; currentRun := None;
     currentRegion := "ca1"; currentFilter := "all"; cellColors := None |}.

(** *** Colour lookup *)

Definition SIMPLE_CLASS_COLORS : gmap string string :=
  list_to_map [
    ("CA1", "#d62728"); ("CA2", "#ff7f0e"); ("CA3", "#9467bd");
    ("DG", "#2ca02c"); ("Astro", "#17becf"); ("Oligo", "#8c564b");
    ("L5", "#1f77b4"); ("L6", "#2c3e50"); ("Other", "#999999");
    ("Zero", "#000000")
  ].

Definition sankeyMapping : gmap string string :=
  list_to_map [
    ("CA1", "016 CA1-ProS Glut"); ("CA2", "025 CA2-FC-IG Glut");
    ("CA3", "017 CA3 Glut"); ("DG", "037 DG Glut")
  ].

(** [o[k] || d] on a dictionary of strings. *)
Definition lookup_or (o : gmap string string) (k d : string) : string :=
  match o !! k with
  | Some v => if Config.truthy_string v then v else d
  | None => d
  end.

Definition getSimplifiedColor (simpleName : string) : string :=
  lookup_or SIMPLE_CLASS_COLORS simpleName "#1f77b4".

Definition getCellColor (scheme : option (gmap string string)) (cellType : string)
  : string :=
  if String.eqb cellType "Zero" then "#000000"
  else if String.eqb cellType "Other" then "#999999"
  else
    let lookupName := lookup_or sankeyMapping cellType cellType in
    let fromScheme :=
      match scheme with
      | Some colours => lookup_or colours lookupName ""
      | None => ""
      end in
    if Config.truthy_string fromScheme then fromScheme
    else
      let fromPalette := lookup_or SIMPLE_CLASS_COLORS cellType "" in
      if Config.truthy_string fromPalette then fromPalette
      else "#1f77b4".

(** *** Sankey projection *)

Definition simplifyClassLabel (label : string) : string :=
  if String.eqb label "" then "Other"
  else if String.prefix "016 CA1" label then "CA1"
  else if String.prefix "025 CA2" label then "CA2"
  else if String.prefix "017 CA3" label then "CA3"
  else if String.prefix "037 DG Glut" label || String.prefix "038 DG-PIR" label then "DG"
  else if String.prefix "319 Astro" label then "Astro"
  else if String.prefix "327 Oligo" label then "Oligo"
  else if String.prefix "005 L5 IT" label || String.prefix "022 L5 ET" label
          || String.prefix "032 L5 NP" label then "L5"
  else if String.prefix "030 L6 CT" label || String.prefix "004 L6 IT" label
          || String.prefix "029 L6b CTX" label then "L6"
  else if String.prefix "Zero" label then "Zero"
  else "Other".

(** The rules of [simplifyClassLabel] as a table: a label that starts with
    the prefix goes to the class. *)
Definition prefixRules : list (string * string) :=
  [("016 CA1", "CA1"); ("025 CA2", "CA2"); ("017 CA3", "CA3");
   ("037 DG Glut", "DG"); ("038 DG-PIR", "DG"); ("319 Astro", "Astro");
   ("327 Oligo", "Oligo"); ("005 L5 IT", "L5"); ("022 L5 ET", "L5");
   ("032 L5 NP", "L5"); ("030 L6 CT", "L6"); ("004 L6 IT", "L6");
   ("029 L6b CTX", "L6"); ("Zero", "Zero")].

(** [simpCounts[s] = (simpCounts[s] || 0) + count] on an object whose
    entries keep their insertion order. *)
Fixpoint bump (s : string) (n : Z) (o : list (string * Z)) : list (string * Z) :=
  match o with
  | [] => [(s, 0 + n)]
  | (k, v) :: rest =>
      if String.eqb k s then (k, (if v =? 0 then 0 else v) + n) :: rest
      else (k, v) :: bump s n rest
  end.

Definition simplifyCounts (counts : list (string * Z)) : list (string * Z) :=
  fold_left (fun acc lc => bump (simplifyClassLabel (fst lc)) (snd lc) acc) counts [].

Definition identityTransitions (counts : list (string * Z)) : list Transition :=
  map (fun sc => {| from := fst sc; to := fst sc; count := snd sc |})
      (simplifyCounts counts).

Definition SIMPLIFIED_CLASSES : list string :=
  ["Astro"; "CA1"; "CA2"; "CA3"; "DG"; "L5"; "L6"; "Oligo"; "Other"; "Zero"].

Definition nodeLabels : list string :=
  (map (fun c => (c ++ " (Base)")%string) SIMPLIFIED_CLASSES
   ++ map (fun c => (c ++ " (Alt)")%string) SIMPLIFIED_CLASSES)%list.

Definition classToBeforeIdx : gmap string nat :=
  list_to_map (imap (fun i c => (c, i)) SIMPLIFIED_CLASSES).

Definition classToAfterIdx : gmap string nat :=
  list_to_map (imap (fun i c => (c, (i + length SIMPLIFIED_CLASSES)%nat))
                    SIMPLIFIED_CLASSES).

Definition CLASS_PALETTE : gmap string string :=
  list_to_map [
    ("Astro", "#17becf"); ("CA1", "#1f77b4"); ("CA2", "#ff7f0e");
    ("CA3", "#9467bd"); ("DG", "#2ca02c"); ("L5", "#e377c2");
    ("L6", "#bcbd22"); ("Oligo", "#8c564b"); ("Other", "#7f7f7f");
    ("Zero", "#000000")
  ].

Definition nodeColors : list string :=
  let colour := map (fun cls => lookup_or CLASS_PALETTE cls "#FFFFFF")
                    SIMPLIFIED_CLASSES in
  (colour ++ colour)%list.

Record SankeyPlot : Type := {
  label : list string;
  color : list string;
  link_source : list nat;
  link_target : list nat;
  link_value : list Z
}.

(** The links kept are those whose two ends are simplified classes. *)
Definition link_of (t : Transition) : option (nat * nat * Z) :=
  match classToBeforeIdx !! from t, classToAfterIdx !! to t with
  | Some s, Some d => Some (s, d, count t)
  | _, _ => None
  end.

Definition filterKey_sankey (st : State) : string :=
  if String.eqb (currentFilter st) "high_gene" then "high_gene" else "all".

(** The transitions the chart is drawn from: the alternate dataset's own,
    or identity flows derived from the base counts. *)
Definition sankeyTransitions (st : State) : completion (list Transition) :=
  let region := currentRegion st in
  let filterKey := filterKey_sankey st in
  let own :=
    alt ← altData st;
    tr ← transitions (content alt);
    byRegion ← tr !! region;
    byRegion !! filterKey in
  match own with
  | Some ts => Normal ts
  | None =>
      match baseData st with
      | None => Throw "TypeError"
      | Some base =>
          match regions (content base) !! region with
          | None => Throw "TypeError"
          | Some data =>
              if String.eqb filterKey "high_gene" then
                match high_gene_count data with
                | None => Throw "TypeError"
                | Some hg =>
                    Normal (identityTransitions
                              (default [] (hg_cell_type_counts hg)))
                end
              else Normal (identityTransitions
                             (default [] (cell_type_counts data)))
          end
      end
  end.

Definition renderSankeyChart (st : State) : completion SankeyPlot :=
  match sankeyTransitions st with
  | Throw e => Throw e
  | Normal ts =>
      let links := omap link_of ts in
      Normal {| label := nodeLabels;
                color := nodeColors;
                link_source := map (fun l => fst (fst l)) links;
                link_target := map (fun l => snd (fst l)) links;
                link_value := map snd links |}
  end.

(** The sum of the counts of the labels that simplify to [s]. *)
Definition totalFor (s : string) (counts : list (string * Z)) : Z :=
  fold_right Z.add 0%Z
    (map snd (List.filter (fun lc => String.eqb (simplifyClassLabel (fst lc)) s) counts)).

(** What an object holds under key [k] (0 when it has no such key). *)
Definition valueAt (k : string) (o : list (string * Z)) : Z :=
  fold_right Z.add 0%Z (map snd (List.filter (fun kv => String.eqb (fst kv) k) o)).

(** The alternate dataset has a transitions entry for the current region
    and filter mode. *)
Definition hasTransitions (st : State) : Prop :=
  ∃ alt tr byRegion ts,
    altData st = Some alt ∧ transitions (content alt) = Some tr
    ∧ tr !! currentRegion st = Some byRegion
    ∧ byRegion !! filterKey_sankey st = Some ts.

(** *** The comparison state and the operations that change it *)

Definition with_metadata (md : Metadata) (st : State) : State :=
  {| metadata := Some md; baseData := baseData st; altData := altData st;
     currentRun := currentRun st; currentRegion := currentRegion st;
     currentFilter := currentFilter st; cellColors := cellColors st |}.

Definition with_baseData (d : Dataset) (st : State) : State :=
  {| metadata := metadata st; baseData := Some d; altData := altData st;
     currentRun := currentRun st; currentRegion := currentRegion st;
     currentFilter := currentFilter st; cellColors := cellColors st |}.

Definition with_cellColors (c : gmap string string) (st : State) : State :=
  {| metadata := metadata st; baseData := baseData st; altData := altData st;
     currentRun := currentRun st; currentRegion := currentRegion st;
     currentFilter := currentFilter st; cellColors := Some c |}.

(** [state.altData = d; state.currentRun = runId;] (two adjacent
    assignments, nothing can run between them). *)
Definition with_run (d : option Dataset) (runId : string) (st : State) : State :=
  {| metadata := metadata st; baseData := baseData st; altData := d;
     currentRun := Some runId; currentRegion := currentRegion st;
     currentFilter := currentFilter st; cellColors := cellColors st |}.

Definition with_region (r : string) (st : State) : State :=
  {| metadata := metadata st; baseData := baseData st; altData := altData st;
     currentRun := currentRun st; currentRegion := r;
     currentFilter := currentFilter st; cellColors := cellColors st |}.

Definition with_filter (f : string) (st : State) : State :=
  {| metadata := metadata st; baseData := baseData st; altData := altData st;
     currentRun := currentRun st; currentRegion := currentRegion st;
     currentFilter := f; cellColors := cellColors st |}.

(** The page: the state object, the counter naming the next parsed object,
    and the run files whose [loadJSON] is in flight. *)
Record World : Type := {
  state : State;
  next_ref : nat;
  pending : list string
}.

Definition world0 : World := {| state := state0; next_ref := 0; pending := [] |}.

Definition load_failed (runId : string) : list effect :=
  [ConsoleError ("Failed to load run " ++ runId);
   Alert ("Failed to load data for " ++ runId)].

Definition init_failed : list effect :=
  [ConsoleError "Failed to initialize dashboard:";
   Alert "Failed to load dashboard data. Please ensure data files are generated."].

(** [init()], given how its three fetches end and whether the first
    rendering of the charts raises.  The listeners are attached before the
    default view is set, so no other handler runs before it returns. *)
Definition init (meta : fetched Metadata) (base : fetched RunData)
                (colours : fetched (gmap string string))
                (dom_render : completion unit) : World * list effect :=
  match loadJSON meta with
  | Throw _ => (world0, init_failed)
  | Normal md =>
      let st1 := with_metadata md state0 in
      match loadJSON base with
      | Throw _ => ({| state := st1; next_ref := 0; pending := [] |}, init_failed)
      | Normal data =>
          let d := {| ref := 0; source := base_run md; content := data |} in
          let st2 := with_baseData d st1 in
          match loadJSON colours with
          | Throw _ => ({| state := st2; next_ref := 1; pending := [] |}, init_failed)
          | Normal c =>
              let st3 := with_cellColors c st2 in
              let st4 := with_run (baseData st3) (base_run md) st3 in
              let w := {| state := st4; next_ref := 2; pending := [] |} in
              match dom_render with
              | Throw _ => (w, init_failed)
              | Normal _ => (w, [LoadSpatialRun (base_run md)])
              end
          end
      end
  end.

Inductive event : Type :=
(** a radio input changes; [dom_reset], [dom_show], [dom_render] say whether
    resetOtherParameters, showNoDataMessage and the chart updates raise *)
| ParameterChange (paramName paramValueStr : string)
                  (dom_reset dom_show dom_render : completion unit)
(** the [k]-th pending [loadJSON] settles *)
| FetchSettled (k : nat) (result : fetched RunData) (dom_render : completion unit)
| RegionChange (value : string) (dom_render : completion unit)
| FilterClick (selected : string) (dom_render : completion unit).

Definition set_state (st : State) (w : World) : World :=
  {| state := st; next_ref := next_ref w; pending := pending w |}.

(** [onParameterChange] up to its [await]. *)
Definition onParameterChange (debug : bool) (paramName paramValueStr : string)
    (dom_reset dom_show dom_render : completion unit) (w : World)
  : World * list effect * completion unit :=
  let changed := when_debug debug (ConsoleLog "Parameter changed:") in
  match dom_reset with
  | Throw e => (w, changed, Throw e)
  | Normal _ =>
      let '(mapping, runId) :=
        Config.determineRunMapping debug paramName paramValueStr in
      let eff := changed ++ mapping ++ when_debug debug (ConsoleLog "Mapped to run:") in
      if String.eqb runId "run_0" then
        let eff1 :=
          eff ++ when_debug debug (ConsoleLog "Base selected: rendering base vs base") in
        match dom_show with
        | Throw e => (w, eff1, Throw e)
        | Normal _ =>
            let w' := set_state (with_run (baseData (state w)) runId (state w)) w in
            match dom_render with
            | Throw e => (w', eff1, Throw e)
            | Normal _ => (w', eff1 ++ [LoadSpatialRun runId], Normal tt)
            end
        end
      else if negb (bool_decide (currentRun (state w) = Some runId)) then
        let eff1 := eff ++ when_debug debug (ConsoleLog "Loading run") in
        match dom_show with
        | Throw _ => (w, eff1 ++ load_failed runId, Normal tt)
        | Normal _ =>
            ({| state := state w; next_ref := next_ref w;
                pending := pending w ++ [runId] |}, eff1, Normal tt)
        end
      else (w, eff ++ when_debug debug (ConsoleLog "Run already loaded, skipping:")
                  ++ [LoadSpatialRun runId], Normal tt)
  end%list.

(** The rest of [onParameterChange], once the awaited [loadJSON] for
    [runId] has settled. *)
Definition onParameterChange_resume (debug : bool) (runId : string)
    (result : fetched RunData) (dom_render : completion unit) (w : World)
  : World * list effect * completion unit :=
  match loadJSON result with
  | Throw _ => (w, load_failed runId, Normal tt)
  | Normal data =>
      let d := {| ref := next_ref w; source := runId; content := data |} in
      let w' := {| state := with_run (Some d) runId (state w);
                   next_ref := S (next_ref w); pending := pending w |} in
      let loaded := when_debug debug (ConsoleLog "Loaded") in
      match dom_render with
      | Throw _ => (w', loaded ++ load_failed runId, Normal tt)
      | Normal _ =>
          (w', loaded ++ when_debug debug (ConsoleLog "Updating charts...")
                      ++ [LoadSpatialRun runId]
                      ++ when_debug debug (ConsoleLog "Done loading and rendering"),
           Normal tt)
      end
  end%list.

Definition step (debug : bool) (w : World) (e : event)
  : World * list effect * completion unit :=
  match e with
  | ParameterChange paramName paramValueStr dom_reset dom_show dom_render =>
      onParameterChange debug paramName paramValueStr dom_reset dom_show dom_render w
  | FetchSettled k result dom_render =>
      match pending w !! k with
      | None => (w, [], Normal tt)
      | Some runId =>
          onParameterChange_resume debug runId result dom_render
            {| state := state w; next_ref := next_ref w;
               pending := delete k (pending w) |}
      end
  | RegionChange value dom_render =>
      (set_state (with_region value (state w)) w, [],
       match dom_render with Throw e => Throw e | Normal _ => Normal tt end)
  | FilterClick selected dom_render =>
      (set_state (with_filter selected (state w)) w, [],
       match dom_render with Throw e => Throw e | Normal _ => Normal tt end)
  end.

(** Handlers run one after the other; an exception that leaves a handler
    ends that handler only. *)
Definition run (debug : bool) (w : World) (es : list event) : World :=
  fold_left (fun w e => fst (fst (step debug w e))) es w.

(** The comparison state is consistent: the alternate dataset is the one
    parsed from the file of the current run, and when that run is the base
    run it is the very object held as base dataset.  Objects parsed so far
    have references below [next_ref], so a later parse is never that
    object. *)
Definition consistent (w : World) : Prop :=
  ∃ md base alt,
    metadata (state w) = Some md
    ∧ baseData (state w) = Some base
    ∧ source base = base_run md
    ∧ altData (state w) = Some alt
    ∧ currentRun (state w) = Some (source alt)
    ∧ (source alt = base_run md → alt = base)
    ∧ (ref base < next_ref w)%nat
    ∧ (ref alt < next_ref w)%nat.

(** What the handlers maintain when the metadata names run_0 as base run:
    the consistency above, and no load of run_0's file in flight. *)
Definition settled (w : World) : Prop :=
  ∃ md base alt,
    metadata (state w) = Some md
    ∧ base_run md = "run_0"
    ∧ baseData (state w) = Some base
    ∧ source base = "run_0"
    ∧ altData (state w) = Some alt
    ∧ currentRun (state w) = Some (source alt)
    ∧ (source alt = "run_0" → alt = base)
    ∧ (ref base < next_ref w)%nat
    ∧ (ref alt < next_ref w)%nat
    ∧ Forall (fun runId => runId ≠ "run_0") (pending w).

(** A whole run selection, from the radio change to the end of the load it
    may start: [result] is how that load's fetch ends. *)
Definition selectRun (debug : bool) (paramName paramValueStr : string)
    (dom_reset dom_show dom_render : completion unit)
    (result : fetched RunData) (w : World)
  : World * list effect * completion unit :=
  let '(w1, eff1, c1) :=
    onParameterChange debug paramName paramValueStr dom_reset dom_show dom_render w in
  if (length (pending w) <? length (pending w1))%nat then
    let '(w2, eff2, c2) :=
      step debug w1 (FetchSettled (length (pending w)) result dom_render) in
    (w2, (eff1 ++ eff2)%list, c2)
  else (w1, eff1, c1).

End Dashboard.

(* ================================================================== *)
(** ** The spatial viewer (spatial-state, -colors, -loader, -rendering,
       its controls, and the handlers of the dashboard script that drive it) *)

Module SpatialViewer.

#[local] Open Scope Q_scope.

Record Cell : Type := {
  id : option Z;
  x : Q;
  y : Q;
  z : option Q;
  r : option Q;
  class : string;
  gene_counts : option Q
}.

(** The content of [data/<run>_cells.json]. *)
Record CellsFile : Type := {
  file_cells : option (list Cell);
  z_values : option (list Q);
  default_radius : option Q
}.

Record Geom : Type := {
  ready : bool;
  is3D : bool;
  zValues : list Q;
  defaultRadius : Q
}.

(** The zoom handed to deck.gl.  [MinLog2 a b] is
    [Math.min(Math.log2(a), Math.log2(b))]: the two ratios are computed
    exactly, the logarithm is read in the reals by [zoom_value]. *)
Inductive Zoom : Type :=
| Fixed (level : Q)
| MinLog2 (ratioX ratioY : Q).

Record ViewState : Type := {
  target : Q * Q * Q;
  zoom : Zoom;
  transitionDuration : Z
}.

Definition log2 (a : R) : R := (ln a / ln 2)%R.

Definition zoom_value (zm : Zoom) : R :=
  match zm with
  | Fixed q => Q2R q
  | MinLog2 a b => Rmin (log2 (Q2R a)) (log2 (Q2R b))
  end.

(** What the viewer asks of its collaborators. *)
Inductive call : Type :=
| NewDeck                           (* new DeckGL({...}) *)
| SetLayers (data : list Cell)      (* deckgl.setProps({layers: [layer]}) *)
| SetView (v : ViewState)           (* deckgl.setProps({initialViewState}) *)
| Log (msg : string)
| Warn (msg : string)
| Error (msg : string)
| NoData (runId : string)           (* showNoDataMessage(runId) *)
| Notice (msg : string).            (* showUserNotice(message) *)

Definition is_SetView (c : call) : bool :=
  match c with SetView _ => true | _ => false end.

Record state : Type := {
  cells : list Cell;
  numCells : nat;
  currentRun : option string;
  cellClassColors : gmap string (Z * Z * Z);
  cellClassCounts : gmap string nat;
  cellClassVisible : gmap string bool;
  deckgl : bool;                      (* is there a deck.gl instance *)
  geom : Geom;
  viewFitted : bool;
  planeFilterEnabled : bool;
  selectedPlane : option Q;
  useGeneFilter : bool;
  minGeneCount : Q;
  legendFilter : string;
  yaoColorScheme : option (gmap string string)  (* module variable of spatial-colors *)
}.

Definition state0 : state :=
  {| cells := []; numCells := 0; currentRun := None;
     cellClassColors := ∅; cellClassCounts := ∅; cellClassVisible := ∅;
     deckgl := false;
     geom := {| ready := false; is3D := false; zValues := []; defaultRadius := 6 |};
     viewFitted := false; planeFilterEnabled := false; selectedPlane := None;
     useGeneFilter := false; minGeneCount := 40; legendFilter := "";
     yaoColorScheme := None |}.

(** *** spatial-state.js *)

Definition countClass (m : gmap string nat) (c : Cell) : gmap string nat :=
  <[class c := (default 0 (m !! class c) + 1)%nat]> m.

(** [if (!(className in state.cellClassVisible)) ... = true] *)
Definition initVisible (m : gmap string bool) (c : Cell) : gmap string bool :=
  match m !! class c with
  | Some _ => m
  | None => <[class c := true]> m
  end.

Definition set_counts_visible (counts : gmap string nat) (vis : gmap string bool)
                              (s : state) : state :=
  {| cells := cells s; numCells := numCells s; currentRun := currentRun s;
     cellClassColors := cellClassColors s; cellClassCounts := counts;
     cellClassVisible := vis; deckgl := deckgl s; geom := geom s;
     viewFitted := viewFitted s; planeFilterEnabled := planeFilterEnabled s;
     selectedPlane := selectedPlane s; useGeneFilter := useGeneFilter s;
     minGeneCount := minGeneCount s; legendFilter := legendFilter s;
     yaoColorScheme := yaoColorScheme s |}.

Definition updateCellClassCounts (s : state) : state :=
  match cells s with
  | [] => s
  | _ => set_counts_visible (fold_left countClass (cells s) ∅)
                            (fold_left initVisible (cells s) (cellClassVisible s)) s
  end.

(** *** spatial-rendering.js: the filters *)

(** [state.cellClassVisible[className]] as a condition. *)
Definition isVisible_of (vis : gmap string bool) (className : string) : bool :=
  default false (vis !! className).

Definition isVisible (s : state) (c : Cell) : bool :=
  isVisible_of (cellClassVisible s) (class c).

Definition planeActive (s : state) : bool :=
  planeFilterEnabled s && is3D (geom s) && bool_decide (is_Some (selectedPlane s)).

(** [(typeof cell.z === 'number') ? cell.z : 0] *)
Definition cellZ (c : Cell) : Q := default 0 (z c).

Definition onPlane (s : state) (c : Cell) : bool :=
  match selectedPlane s with
  | Some p => Qeq_bool (cellZ c) p
  | None => false
  end.

(** [Number(state.minGeneCount) || 0] *)
Definition thr (s : state) : Q :=
  if Qeq_bool (minGeneCount s) 0 then 0 else minGeneCount s.

Definition geneOk (s : state) (c : Cell) : bool :=
  match gene_counts c with
  | Some g => Qle_bool (thr s) g
  | None => false
  end.

Definition visibleCells (s : state) : list Cell :=
  let v0 := List.filter (isVisible s) (cells s) in
  let v1 := if planeActive s then List.filter (onPlane s) v0 else v0 in
  if useGeneFilter s then List.filter (geneOk s) v1 else v1.

Definition getLegendFilteredCells (s : state) : list Cell :=
  let c1 := if planeActive s then List.filter (onPlane s) (cells s) else cells s in
  if useGeneFilter s then List.filter (geneOk s) c1 else c1.

(** The [counts] object of [updateLegend]. *)
Definition legendCounts (s : state) : gmap string nat :=
  fold_left countClass (getLegendFilteredCells s) ∅.

(** *** The filters as the specification words them *)

(** (i) the cell's class is marked visible *)
Definition classShown (s : state) (c : Cell) : bool :=
  bool_decide (cellClassVisible s !! class c = Some true).

(** (ii) with the plane filter on, 3D data and a selected plane, the
    cell's z (0 when it has none) is that plane *)
Definition planeMatches (s : state) (c : Cell) : bool :=
  if planeFilterEnabled s && is3D (geom s) then
    match selectedPlane s with
    | Some p => Qeq_bool (default 0 (z c)) p
    | None => true
    end
  else true.

(** (iii) with the gene filter on, the cell's gene count reaches the
    minimum *)
Definition geneMatches (s : state) (c : Cell) : bool :=
  if useGeneFilter s then
    match gene_counts c with
    | Some g => Qle_bool (minGeneCount s) g
    | None => false
    end
  else true.

(** How many cells of a list are of a class. *)
Definition countOf (className : string) (l : list Cell) : nat :=
  length (List.filter (fun c => String.eqb (class c) className) l).

(** *** spatial-rendering.js: auto-fit *)

Definition positive (q : Q) : bool := negb (Qle_bool q 0).

(** [Math.min(Infinity, v)] is [v], so each bound starts from the first
    cell. *)
Definition boundsOf (first : Cell) (rest : list Cell) : Q * Q * Q * Q :=
  (fold_left (fun m c => Qmin m (x c)) rest (x first),
   fold_left (fun m c => Qmax m (x c)) rest (x first),
   fold_left (fun m c => Qmin m (y c)) rest (y first),
   fold_left (fun m c => Qmax m (y c)) rest (y first)).

Definition fitBounds (bounds : Q * Q * Q * Q) (container : option (Q * Q))
  : ViewState :=
  let '(minX, maxX, minY, maxY) := bounds in
  let width := maxX - minX in
  let height := maxY - minY in
  let paddedMinX := minX - width * (1 # 10) in
  let paddedMinY := minY - height * (1 # 10) in
  let paddedMaxX := maxX + width * (1 # 10) in
  let paddedMaxY := maxY + height * (1 # 10) in
  let centerX := (paddedMinX + paddedMaxX) / 2 in
  let centerY := (paddedMinY + paddedMaxY) / 2 in
  let containerWidth := match container with Some (w, _) => w | None => 0 end in
  let containerHeight := match container with Some (_, h) => h | None => 0 end in
  let dataWidth := paddedMaxX - paddedMinX in
  let dataHeight := paddedMaxY - paddedMinY in
  if positive containerWidth && positive containerHeight
     && positive dataWidth && positive dataHeight
  then {| target := (centerX, centerY, 0);
          zoom := MinLog2 (containerWidth / dataWidth) (containerHeight / dataHeight);
          transitionDuration := 1000 |}
  else {| target := (centerX, centerY, 0);
          zoom := Fixed (-1);
          transitionDuration := 0 |}.

(** [container] is the size of [spatialDeckContainer] when the function
    runs, [None] when the element is missing.  [render] calls it only
    behind its guard, so a deck.gl instance exists. *)
Definition autoFitView (s : state) (container : option (Q * Q)) : list call :=
  match cells s with
  | [] => []
  | first :: rest =>
      [Log "Bounds:"; SetView (fitBounds (boundsOf first rest) container)]
  end.

Definition set_viewFitted (b : bool) (s : state) : state :=
  {| cells := cells s; numCells := numCells s; currentRun := currentRun s;
     cellClassColors := cellClassColors s; cellClassCounts := cellClassCounts s;
     cellClassVisible := cellClassVisible s; deckgl := deckgl s; geom := geom s;
     viewFitted := b; planeFilterEnabled := planeFilterEnabled s;
     selectedPlane := selectedPlane s; useGeneFilter := useGeneFilter s;
     minGeneCount := minGeneCount s; legendFilter := legendFilter s;
     yaoColorScheme := yaoColorScheme s |}.

(** Does [render] get past its guard. *)
Definition canRender (s : state) : bool :=
  deckgl s && negb (bool_decide (cells s = [])).

Definition render (container : option (Q * Q)) (s : state) : state * list call :=
  if canRender s then
    if viewFitted s then (s, [SetLayers (visibleCells s)])
    else (set_viewFitted true s,
          SetLayers (visibleCells s) :: autoFitView s container)
  else (s, [Warn "render() skipped"]).

(** *** spatial-colors.js *)

Definition hexdigit_of (c : ascii) : option Z :=
  let n := Z.of_N (N_of_ascii c) in
  if (48 <=? n)%Z && (n <=? 57)%Z then Some (n - 48)%Z
  else if (97 <=? n)%Z && (n <=? 102)%Z then Some (n - 87)%Z
  else if (65 <=? n)%Z && (n <=? 70)%Z then Some (n - 55)%Z
  else None.

Fixpoint take_hex (cs : list ascii) (acc : option Z) : option Z :=
  match cs with
  | c :: cs' =>
      match hexdigit_of c with
      | Some d => take_hex cs' (Some (16 * default 0%Z acc + d)%Z)
      | None => acc
      end
  | [] => acc
  end.

(** [parseInt(s, 16)]: white space, a sign, an optional [0x], then the
    longest run of hexadecimal digits; [None] is NaN. *)
Definition parseInt16 (s : string) : option Z :=
  let '(neg, cs) := take_sign (drop_spaces (list_ascii_of_string s)) in
  let cs' := match cs with
             | "0"%char :: "x"%char :: rest => rest
             | "0"%char :: "X"%char :: rest => rest
             | _ => cs
             end in
  (fun v => if neg then (- v)%Z else v) <$> take_hex cs' None.

(** [hex.replace(/^#/, '')] *)
Definition dropHash (hex : string) : string :=
  match hex with
  | String "#"%char rest => rest
  | _ => hex
  end.

(** The bitwise operators read NaN as 0. *)
Definition hexToRgb (hex : string) : Z * Z * Z :=
  let bigint := default 0%Z (parseInt16 (dropHash hex)) in
  (Z.land (Z.shiftr bigint 16) 255,
   Z.land (Z.shiftr bigint 8) 255,
   Z.land bigint 255).

Definition getColorForClass (s : state) (className : string) : Z * Z * Z :=
  default (128, 128, 128)%Z (cellClassColors s !! className).

(** [[...new Set(names)].sort()]: first occurrences, then the default
    sort, which compares strings by code unit. *)
Fixpoint insertSorted (a : string) (l : list string) : list string :=
  match l with
  | [] => [a]
  | b :: l' => if String.leb a b then a :: l else b :: insertSorted a l'
  end.

Definition classNamesOf (cs : list Cell) : list string :=
  fold_right insertSorted [] (remove_dups (map class cs)).

Definition set_colors (colors : gmap string (Z * Z * Z))
                      (scheme : option (gmap string string)) (s : state) : state :=
  {| cells := cells s; numCells := numCells s; currentRun := currentRun s;
     cellClassColors := colors; cellClassCounts := cellClassCounts s;
     cellClassVisible := cellClassVisible s; deckgl := deckgl s; geom := geom s;
     viewFitted := viewFitted s; planeFilterEnabled := planeFilterEnabled s;
     selectedPlane := selectedPlane s; useGeneFilter := useGeneFilter s;
     minGeneCount := minGeneCount s; legendFilter := legendFilter s;
     yaoColorScheme := scheme |}.

Section WithD3.

(** [hslToRgb(h, s, l)], which rounds what d3 computes. *)
Variable hslToRgb : Q -> Q -> Q -> Z * Z * Z.

Definition Qmod (a b : Q) : Q := a - b * inject_Z (Qfloor (a / b)).

Definition fallbackColor (n i : nat) : Z * Z * Z :=
  let hueStep := 360 / inject_Z (Z.max (Z.of_nat n) 10) in
  let hue := Qmod (inject_Z (Z.of_nat i) * hueStep) 360 in
  let saturation := 70 + inject_Z (Z.of_nat (i mod 3)) * 10 in
  let lightness := 50 + inject_Z (Z.of_nat (i mod 2)) * 10 in
  hslToRgb hue saturation lightness.

(** The [forEach] of [generateColorPalette], once the scheme is settled. *)
Definition assignColors (scheme : option (gmap string string))
                        (classNames : list string)
                        (colors : gmap string (Z * Z * Z))
  : gmap string (Z * Z * Z) :=
  fold_left
    (fun acc ic =>
       let '(i, className) := ic in
       let hexColor := match scheme with
                       | Some sc => default "" (sc !! className)
                       | None => ""
                       end in
       if Config.truthy_string hexColor
       then <[className := hexToRgb hexColor]> acc
       else <[className := fallbackColor (length classNames) i]> acc)
    (imap (fun i c => (i, c)) classNames) colors.

(** *** spatial-loader.js *)

(** The assignments of [loadRunData] between the two awaits. *)
Definition installRun (runId : string) (data : CellsFile) (s : state) : state :=
  let cs := default [] (file_cells data) in
  let zs := default [] (z_values data) in
  let radius := match default_radius data with
                | Some q => if Qeq_bool q 0 then 6 else q
                | None => 6
                end in
  {| cells := cs; numCells := length cs; currentRun := Some runId;
     cellClassColors := cellClassColors s; cellClassCounts := cellClassCounts s;
     cellClassVisible := cellClassVisible s; deckgl := deckgl s;
     geom := {| ready := true; is3D := (1 <? length zs)%nat; zValues := zs;
                defaultRadius := radius |};
     viewFitted := false; planeFilterEnabled := false; selectedPlane := None;
     useGeneFilter := useGeneFilter s; minGeneCount := minGeneCount s;
     legendFilter := legendFilter s; yaoColorScheme := yaoColorScheme s |}.

(** The viewer and the loads that wait for the colour scheme: for each,
    the class names it will colour. *)
Record World : Type := {
  st : state;
  awaiting : list (list string)
}.

(** The console lines of that loop: with a scheme loaded, one for each
    class the scheme does not colour. *)
Definition paletteLogs (scheme : option (gmap string string))
                       (classNames : list string) : list call :=
  match scheme with
  | None => []
  | Some sc =>
      flat_map (fun className =>
                  if Config.truthy_string (default "" (sc !! className)) then []
                  else [Log ("No Yao color for " ++ className)])
               classNames
  end.

(** What follows [await generateColorPalette(classNames)]: colours, the
    counts, the legend (which writes nothing back) and a render. *)
Definition finishLoad (container : option (Q * Q)) (classNames : list string)
                      (s : state) : state * list call :=
  let s1 := set_colors (assignColors (yaoColorScheme s) classNames (cellClassColors s))
                       (yaoColorScheme s) s in
  let rendered := render container (updateCellClassCounts s1) in
  (fst rendered, (paletteLogs (yaoColorScheme s) classNames ++ snd rendered)%list).

(** [loadRunData(runId)] from the moment its fetch settles.  With the
    scheme already loaded nothing is awaited for real and the function runs
    to its end; otherwise it stops at the fetch of the scheme. *)
Definition loadRunData (container : option (Q * Q)) (runId : string)
                       (result : fetched CellsFile) (w : World)
  : World * list call * bool :=
  match loadJSON result with
  | Throw _ =>
      (w, [Error ("Failed to load spatial data for " ++ runId); NoData runId], false)
  | Normal data =>
      let s1 := installRun runId data (st w) in
      let classNames := classNamesOf (cells s1) in
      match yaoColorScheme s1 with
      | Some _ =>
          let '(s2, calls) := finishLoad container classNames s1 in
          ({| st := s2; awaiting := awaiting w |}, calls, true)
      | None =>
          ({| st := s1; awaiting := (awaiting w ++ [classNames])%list |}, [], true)
      end
  end.

(** [loadYaoColorScheme] settles for the [k]-th waiting load. *)
Definition schemeSettled (container : option (Q * Q)) (k : nat)
                         (result : fetched (gmap string string)) (w : World)
  : World * list call :=
  match awaiting w !! k with
  | None => (w, [])
  | Some classNames =>
      let '(scheme, warned) :=
        match result with
        | Fetched sc => (Some sc, [])
        | HttpError _ =>
            (yaoColorScheme (st w),
             [Warn "Could not load Yao color scheme, will use fallback"])
        | NetworkError | BadJSON =>
            (yaoColorScheme (st w), [Warn "Error loading Yao color scheme:"])
        end in
      let s1 := set_colors (cellClassColors (st w)) scheme (st w) in
      let '(s2, calls) := finishLoad container classNames s1 in
      ({| st := s2; awaiting := delete k (awaiting w) |}, (warned ++ calls)%list)
  end.

(** *** Controls and the dashboard handlers that reach the viewer *)

Definition set_visible (vis : gmap string bool) (s : state) : state :=
  set_counts_visible (cellClassCounts s) vis s.

Definition set_plane (enabled : bool) (plane : option Q) (s : state) : state :=
  {| cells := cells s; numCells := numCells s; currentRun := currentRun s;
     cellClassColors := cellClassColors s; cellClassCounts := cellClassCounts s;
     cellClassVisible := cellClassVisible s; deckgl := deckgl s; geom := geom s;
     viewFitted := viewFitted s; planeFilterEnabled := enabled;
     selectedPlane := plane; useGeneFilter := useGeneFilter s;
     minGeneCount := minGeneCount s; legendFilter := legendFilter s;
     yaoColorScheme := yaoColorScheme s |}.

Definition set_gene (use : bool) (threshold : Q) (s : state) : state :=
  {| cells := cells s; numCells := numCells s; currentRun := currentRun s;
     cellClassColors := cellClassColors s; cellClassCounts := cellClassCounts s;
     cellClassVisible := cellClassVisible s; deckgl := deckgl s; geom := geom s;
     viewFitted := viewFitted s; planeFilterEnabled := planeFilterEnabled s;
     selectedPlane := selectedPlane s; useGeneFilter := use;
     minGeneCount := threshold; legendFilter := legendFilter s;
     yaoColorScheme := yaoColorScheme s |}.

Definition set_legendFilter (text : string) (s : state) : state :=
  {| cells := cells s; numCells := numCells s; currentRun := currentRun s;
     cellClassColors := cellClassColors s; cellClassCounts := cellClassCounts s;
     cellClassVisible := cellClassVisible s; deckgl := deckgl s; geom := geom s;
     viewFitted := viewFitted s; planeFilterEnabled := planeFilterEnabled s;
     selectedPlane := selectedPlane s; useGeneFilter := useGeneFilter s;
     minGeneCount := minGeneCount s; legendFilter := text;
     yaoColorScheme := yaoColorScheme s |}.

Definition set_deckgl (s : state) : state :=
  {| cells := cells s; numCells := numCells s; currentRun := currentRun s;
     cellClassColors := cellClassColors s; cellClassCounts := cellClassCounts s;
     cellClassVisible := cellClassVisible s; deckgl := true; geom := geom s;
     viewFitted := viewFitted s; planeFilterEnabled := planeFilterEnabled s;
     selectedPlane := selectedPlane s; useGeneFilter := useGeneFilter s;
     minGeneCount := minGeneCount s; legendFilter := legendFilter s;
     yaoColorScheme := yaoColorScheme s |}.

Definition initializeDeck (container : option (Q * Q)) (s : state)
  : state * list call :=
  let '(s', calls) := render container (set_deckgl s) in (s', NewDeck :: calls).

Definition toggleClassVisibility (container : option (Q * Q)) (className : string)
                                 (s : state) : state * list call :=
  render container
    (set_visible (<[className := negb (isVisible_of (cellClassVisible s) className)]>
                    (cellClassVisible s)) s).

Definition showAllClasses (container : option (Q * Q)) (s : state)
  : state * list call :=
  render container (set_visible ((fun _ => true) <$> cellClassVisible s) s).

Definition hideAllClasses (container : option (Q * Q)) (s : state)
  : state * list call :=
  render container (set_visible ((fun _ => false) <$> cellClassVisible s) s).

(** [setPlaneFilter(enabled)] of the controls; the slider exists. *)
Definition setPlaneFilter (container : option (Q * Q)) (enabled : bool) (s : state)
  : state * list call :=
  if enabled then
    match zValues (geom s) with
    | [] => (set_plane false (selectedPlane s) s,
             [Notice "No plane data available for this run."])
    | z0 :: zs =>
        let minP := fold_left Qmin zs z0 in
        let maxP := fold_left Qmax zs z0 in
        let plane := match selectedPlane s with
                     | None => inject_Z (Qfloor ((minP + maxP) / 2))
                     | Some p => p
                     end in
        render container (set_plane true (Some plane) s)
    end
  else render container (set_plane false None s).

Definition planeToggleClick (container : option (Q * Q)) (s : state)
  : state * list call :=
  if negb (is3D (geom s)) || bool_decide (zValues (geom s) = [])
  then (s, [Notice "Plane filter is available only for 3D data."])
  else setPlaneFilter container (negb (planeFilterEnabled s)) s.

(** The filter buttons of the dashboard, as far as the viewer goes.  The
    listener first marks the buttons, sets [state.currentFilter] and calls
    [updateAllCharts()], outside any [try]: [charts] says whether that part
    raises, in which case the listener ends there and the viewer is not
    reached. *)
Definition filterButtonClick (container : option (Q * Q)) (selected : string)
                             (min_gene_counts : option Q) (charts : completion unit)
                             (s : state)
  : state * list call :=
  match charts with
  | Throw _ => (s, [])
  | Normal _ =>
      render container
        (set_gene (String.eqb selected "high_gene") (default 40 min_gene_counts) s)
  end.

(** The animation-frame callback of [switchTab]. *)
Definition switchTab (container : option (Q * Q)) (tabId : string) (s : state)
  : state * list call :=
  if String.eqb tabId "flowchartSpatial"
  then render container (set_viewFitted false s)
  else (s, []).

Inductive event : Type :=
| InitializeDeck
| LoadSettled (runId : string) (result : fetched CellsFile)
| SchemeSettled (k : nat) (result : fetched (gmap string string))
| ToggleClass (className : string)
| ShowAll
| HideAll
| PlaneToggle
| PlaneSlider (value : Z)
| FilterButton (selected : string) (min_gene_counts : option Q)
               (charts : completion unit)
| TabSwitch (tabId : string)
| LegendFilterInput (text : string).

Definition on_state (f : state -> state * list call) (w : World)
  : World * list call :=
  let '(s, calls) := f (st w) in ({| st := s; awaiting := awaiting w |}, calls).

(** One handler, run with the container at the size it has then. *)
Definition step (w : World) (ce : option (Q * Q) * event) : World * list call :=
  let '(container, e) := ce in
  match e with
  | InitializeDeck => on_state (initializeDeck container) w
  | LoadSettled runId result => fst (loadRunData container runId result w)
  | SchemeSettled k result => schemeSettled container k result w
  | ToggleClass className => on_state (toggleClassVisibility container className) w
  | ShowAll => on_state (showAllClasses container) w
  | HideAll => on_state (hideAllClasses container) w
  | PlaneToggle => on_state (planeToggleClick container) w
  | PlaneSlider value =>
      on_state (fun s => render container
                           (set_plane (planeFilterEnabled s) (Some (inject_Z value)) s)) w
  | FilterButton selected mgc charts =>
      on_state (filterButtonClick container selected mgc charts) w
  | TabSwitch tabId => on_state (switchTab container tabId) w
  | LegendFilterInput text => on_state (fun s => (set_legendFilter text s, [])) w
  end.

Definition run (w : World) (es : list (option (Q * Q) * event)) : World * list call :=
  fold_left (fun acc ce =>
               let '(w', calls) := step (fst acc) ce in (w', (snd acc ++ calls)%list))
            es (w, []).

(** The events after which [render] fits the view anew. *)
Definition resets (e : event) : bool :=
  match e with
  | LoadSettled _ (Fetched _) => true
  | TabSwitch tabId => String.eqb tabId "flowchartSpatial"
  | _ => false
  end.

Definition fits (calls : list call) : nat := length (List.filter is_SetView calls).

(** The two steps of a geometry load. *)
Definition isLoad (e : event) : bool :=
  match e with
  | LoadSettled _ _ | SchemeSettled _ _ => true
  | _ => false
  end.

End WithD3.

Definition world0 : World := {| st := state0; awaiting := [] |}.

End SpatialViewer.

(* ================================================================== *)
(** ** More of the dashboard script: escaping, colours with alpha, the
       chart projections, the legacy run selector *)

Module Charts.

Import Dashboard.

(** *** [Array.prototype.sort] with the comparator [(a, b) => b[1] - a[1]]

    The sort is stable, so its result is determined: larger counts first,
    entries with equal counts in their original order.  [weight] reads the
    count of an entry. *)
Section SortDesc.

Context {A : Type} (weight : A -> Z).

Fixpoint insertDesc (e : A) (l : list A) : list A :=
  match l with
  | [] => [e]
  | h :: t => if (weight e <? weight h)%Z then h :: insertDesc e t else e :: l
  end.

Definition sortDesc (l : list A) : list A := fold_right insertDesc [] l.

(** [a] may stand before [b] in the sorted array. *)
Definition above (a b : A) : Prop := (weight b <= weight a)%Z.

End SortDesc.

(** *** The links of the Sankey chart *)

(** The transitions both of whose ends are simplified classes. *)
Definition drawable (t : Transition) : bool :=
  bool_decide (In (from t) SIMPLIFIED_CLASSES)
  && bool_decide (In (to t) SIMPLIFIED_CLASSES).

(** *** escapeHTML *)

(** [s.replace(/c/g, by)] for a single character [c]. *)
Fixpoint replaceAll (c : ascii) (by_ : string) (s : string) : string :=
  match s with
  | EmptyString => EmptyString
  | String a rest =>
      if Ascii.eqb a c then (by_ ++ replaceAll c by_ rest)%string
      else String a (replaceAll c by_ rest)
  end.

(** [None] is [null] or [undefined]. *)
Definition escapeHTML (str : option string) : string :=
  match str with
  | None => EmptyString
  | Some s =>
      replaceAll "'"%char "&#039;"
        (replaceAll "034"%char "&quot;"
           (replaceAll ">"%char "&gt;"
              (replaceAll "<"%char "&lt;"
                 (replaceAll "&"%char "&amp;" s))))
  end.

(** The characters the function is there to remove. *)
Definition isMarkup (a : ascii) : bool :=
  Ascii.eqb a "<" || Ascii.eqb a ">" || Ascii.eqb a "034" || Ascii.eqb a "'".

Fixpoint occurs (p : ascii -> bool) (s : string) : bool :=
  match s with
  | EmptyString => false
  | String a rest => p a || occurs p rest
  end.

(** What one pass over the string would write for a character. *)
Definition escapeChar (a : ascii) : string :=
  if Ascii.eqb a "&" then "&amp;"
  else if Ascii.eqb a "<" then "&lt;"
  else if Ascii.eqb a ">" then "&gt;"
  else if Ascii.eqb a "034" then "&quot;"
  else if Ascii.eqb a "'" then "&#039;"
  else String a EmptyString.

Fixpoint escapeOnce (s : string) : string :=
  match s with
  | EmptyString => EmptyString
  | String a rest => (escapeChar a ++ escapeOnce rest)%string
  end.

(** *** hexToRgba *)

(** The hexadecimal digits and their values. *)
Definition hexDigits : list ascii := list_ascii_of_string "0123456789abcdefABCDEF".

Definition hexValue (c : ascii) : Z := default 0%Z (SpatialViewer.hexdigit_of c).

Definition hex6 (c1 c2 c3 c4 c5 c6 : ascii) : string :=
  String c1 (String c2 (String c3 (String c4 (String c5 (String c6 EmptyString))))).

(** [s.replace('#', '')]: the first [#], wherever it is. *)
Fixpoint removeFirstHash (s : string) : string :=
  match s with
  | EmptyString => EmptyString
  | String a rest => if Ascii.eqb a "#" then rest else String a (removeFirstHash rest)
  end.

(** [h.split('').map(c => c + c).join('')] *)
Fixpoint doubleChars (s : string) : string :=
  match s with
  | EmptyString => EmptyString
  | String a rest => String a (String a (doubleChars rest))
  end.

(** The three [parseInt(h.slice(..), 16)]; [None] is NaN. *)
Definition hexChannels (hex : string) : option Z * option Z * option Z :=
  let h0 := removeFirstHash hex in
  let h := if (String.length h0 =? 3)%nat then doubleChars h0 else h0 in
  (SpatialViewer.parseInt16 (substring 0 2 h),
   SpatialViewer.parseInt16 (substring 2 2 h),
   SpatialViewer.parseInt16 (substring 4 2 h)).

Definition showChannel (c : option Z) : string :=
  match c with
  | None => "NaN"
  | Some n => ToString (Num n 0)
  end.

Definition hexToRgba (hex : string) (alpha : number) : string :=
  let '(r, g, b) := hexChannels hex in
  ("rgba(" ++ showChannel r ++ ", " ++ showChannel g ++ ", " ++ showChannel b
          ++ ", " ++ ToString alpha ++ ")")%string.

(** *** Purity chart and metrics table *)

Definition regionKeys : list string := ["ca1"; "ca2"; "ca3"; "dg"].

(** [filterKey ? data[filterKey].purity : data.purity] for
    [data = dataset.regions[region]]; a missing object raises. *)
Definition purityOf (high_gene : bool) (d : option Dataset) (region : string)
  : completion Q :=
  match d with
  | None => Throw "TypeError"
  | Some ds =>
      match regions (content ds) !! region with
      | None => Throw "TypeError"
      | Some data =>
          if high_gene then
            match high_gene_count data with
            | Some hg => Normal (hg_purity hg)
            | None => Throw "TypeError"
            end
          else Normal (purity data)
      end
  end.

(** [regions.map(f)] where [f] can raise. *)
Fixpoint mapM {A B : Type} (f : A -> completion B) (l : list A) : completion (list B) :=
  match l with
  | [] => Normal []
  | a :: rest =>
      match f a with
      | Throw e => Throw e
      | Normal b =>
          match mapM f rest with
          | Throw e => Throw e
          | Normal bs => Normal (b :: bs)
          end
      end
  end.

Definition isHighGene (st : State) : bool := String.eqb (currentFilter st) "high_gene".

Record PurityChart : Type := {
  baseValues : list Q;
  altValues : list Q;
  yMin : Q;
  yMax : Q
}.

(** [Math.min(...values)]; the lists here are never empty. *)
Definition minOf (values : list Q) : Q :=
  match values with
  | [] => 0
  | v :: rest => fold_left Qmin rest v
  end.

Definition maxOf (values : list Q) : Q :=
  match values with
  | [] => 0
  | v :: rest => fold_left Qmax rest v
  end.

Definition renderPurityChart (st : State) : completion PurityChart :=
  match mapM (purityOf (isHighGene st) (baseData st)) regionKeys with
  | Throw e => Throw e
  | Normal bases =>
      match mapM (purityOf (isHighGene st) (altData st)) regionKeys with
      | Throw e => Throw e
      | Normal alts =>
          let allValues := (bases ++ alts)%list in
          let minValue := minOf allValues in
          let maxValue := maxOf allValues in
          let range := (maxValue - minValue)%Q in
          match metadata st with          (* name: state.metadata.base_run *)
          | None => Throw "TypeError"
          | Some _ =>
              Normal {| baseValues := bases; altValues := alts;
                        yMin := Qmax 0 (minValue - range * (1 # 10));
                        yMax := Qmin 100 (maxValue + range * (1 # 10)) |}
          end
      end
  end.

(** A row of the metrics table before its numbers are printed. *)
Record MetricsRow : Type := {
  row_region : string;
  basePurity : Q;
  altPurity : Q;
  change : Q;
  changeClass : string
}.

Definition classOfChange (change : Q) : string :=
  if negb (Qle_bool change 0) then "positive"
  else if negb (Qle_bool 0 change) then "negative"
  else "neutral".

Definition metricsRow (st : State) (region : string) : completion MetricsRow :=
  match purityOf (isHighGene st) (baseData st) region with
  | Throw e => Throw e
  | Normal bp =>
      match purityOf (isHighGene st) (altData st) region with
      | Throw e => Throw e
      | Normal ap =>
          Normal {| row_region := region; basePurity := bp; altPurity := ap;
                    change := (ap - bp)%Q;
                    changeClass := classOfChange (ap - bp) |}
      end
  end.

(** The header of the table reads [state.metadata.base_run]. *)
Definition renderMetricsTable (st : State) : completion (list MetricsRow) :=
  match metadata st with
  | None => Throw "TypeError"
  | Some _ => mapM (metricsRow st) regionKeys
  end.

(** *** Counts bar chart *)

Record BarChart : Type := {
  bar_x : list string;
  bar_y : list Z;
  bar_color : list string
}.

Definition renderBarChart (scheme : option (gmap string string))
                          (counts : list (string * Z)) : BarChart :=
  let sorted := take 15 (sortDesc snd counts) in
  let labels := map fst sorted in
  {| bar_x := labels;
     bar_y := map snd sorted;
     bar_color := map (getCellColor scheme) labels |}.

(** *** onRunChange (the handler of the former run selector) *)

Definition with_no_run (st : State) : State :=
  {| metadata := metadata st; baseData := baseData st; altData := None;
     currentRun := None; currentRegion := currentRegion st;
     currentFilter := currentFilter st; cellColors := cellColors st |}.

(** The whole handler; [result] is how the fetch it may start ends,
    [dom_before] and [dom_after] whether the writes to the document before
    and after the assignments raise.  After the assignments the handler
    reads [state.metadata.runs], which raises without metadata. *)
Definition onRunChange (runId : string) (result : fetched RunData)
    (dom_before dom_after : completion unit) (w : World)
  : World * list effect * completion unit :=
  if String.eqb runId "" then
    (set_state (with_no_run (state w)) w, [],
     match dom_after with Throw e => Throw e | Normal _ => Normal tt end)
  else
    match dom_before with
    | Throw _ => (w, load_failed runId, Normal tt)
    | Normal _ =>
        match loadJSON result with
        | Throw _ => (w, load_failed runId, Normal tt)
        | Normal data =>
            let d := {| ref := next_ref w; source := runId; content := data |} in
            let w' := {| state := with_run (Some d) runId (state w);
                         next_ref := S (next_ref w); pending := pending w |} in
            match metadata (state w), dom_after with
            | Some _, Normal _ => (w', [], Normal tt)
            | _, _ => (w', load_failed runId, Normal tt)
            end
        end
    end.

End Charts.

(* ================================================================== *)
(** ** The legend of the spatial viewer, and what its handlers keep true *)

Module Legend.

Import SpatialViewer.

(** [counts[cell.class] = (counts[cell.class] || 0) + 1] on an object
    whose entries keep their insertion order (class names that are array
    indices, which JavaScript lists first, are not considered). *)
Fixpoint bumpCount (k : string) (o : list (string * nat)) : list (string * nat) :=
  match o with
  | [] => [(k, (0 + 1)%nat)]
  | (k', n) :: rest =>
      if String.eqb k' k then (k', (n + 1)%nat) :: rest
      else (k', n) :: bumpCount k rest
  end.

(** [Object.entries(counts)] of [updateLegend]. *)
Definition legendEntries (s : state) : list (string * nat) :=
  fold_left (fun o c => bumpCount (class c) o) (getLegendFilteredCells s) [].

(** [toLowerCase] on the letters A to Z. *)
Definition lowerChar (a : ascii) : ascii :=
  let n := N_of_ascii a in
  if ((65 <=? n) && (n <=? 90))%N then ascii_of_N (n + 32) else a.

Fixpoint toLowerCase (s : string) : string :=
  match s with
  | EmptyString => EmptyString
  | String a rest => String (lowerChar a) (toLowerCase rest)
  end.

Fixpoint includes (needle s : string) : bool :=
  String.prefix needle s
  || match s with
     | EmptyString => false
     | String _ rest => includes needle rest
     end.

(** [(state.legendFilter || '').trim().toLowerCase()] *)
Definition filterText (s : state) : string :=
  toLowerCase (string_of_list_ascii (trim (list_ascii_of_string (legendFilter s)))).

Record Chip : Type := {
  chip_class : string;
  chip_count : nat;
  chip_dim : bool
}.

(** The chips [updateLegend] appends, in order (the legend element
    exists). *)
Definition updateLegend (s : state) : list Chip :=
  let entries := legendEntries s in
  let text := filterText s in
  let kept := if String.eqb text "" then entries
              else List.filter (fun e => includes text (toLowerCase (fst e))) entries in
  map (fun e => {| chip_class := fst e; chip_count := snd e;
                   chip_dim := negb (isVisible_of (cellClassVisible s) (fst e)) |})
      (Charts.sortDesc (fun e => Z.of_nat (snd e)) kept).

(** What the counting loop of [updateLegend] holds after the cells [l]:
    one entry for each class met, with the number of its cells. *)
Definition counted (o : list (string * nat)) (l : list Cell) : Prop :=
  List.NoDup (map fst o)
  ∧ (∀ k n, In (k, n) o → n = countOf k l ∧ (0 < n)%nat)
  ∧ (∀ c, In c l → In (class c) (map fst o))
  ∧ list_sum (map snd o) = length l.

(** Every class of the loaded cells has a visibility flag. *)
Definition flagsCover (s : state) : Prop :=
  ∀ c, In c (cells s) → is_Some (cellClassVisible s !! class c).

(** The cell carries a gene count of at least [threshold]. *)
Definition enoughGenes (threshold : Q) (c : Cell) : bool :=
  match gene_counts c with
  | Some g => Qle_bool threshold g
  | None => false
  end.

(** With the plane filter on, the data is 3D and a plane is selected. *)
Definition planeReady (s : state) : Prop :=
  planeFilterEnabled s = true →
  is3D (geom s) = true ∧ is_Some (selectedPlane s) ∧ zValues (geom s) ≠ [].

(** [cellClassCounts] counts the loaded cells. *)
Definition countsMatch (s : state) : Prop :=
  ∀ k, default 0%nat (cellClassCounts s !! k) = countOf k (cells s).

(** A load that waits for the colour scheme will colour the class [k]. *)
Definition awaited (w : World) (k : string) : Prop :=
  ∃ names, In names (awaiting w) ∧ In k names.

(** What the handlers keep true of the viewer. *)
Definition coherent (w : World) : Prop :=
  numCells (st w) = length (cells (st w))
  ∧ is3D (geom (st w)) = (1 <? length (zValues (geom (st w))))%nat
  ∧ planeReady (st w)
  ∧ (awaiting w = [] → flagsCover (st w))
  ∧ (awaiting w = [] → cells (st w) ≠ [] → countsMatch (st w))
  ∧ (∀ c, In c (cells (st w)) →
       is_Some (cellClassColors (st w) !! class c) ∨ awaited w (class c)).

(** [s'] differs from [s] at most in the flags it adds or flips, in the
    filters and in [viewFitted]. *)
Definition keeps (s s' : state) : Prop :=
  cells s' = cells s ∧ numCells s' = numCells s ∧ geom s' = geom s
  ∧ cellClassCounts s' = cellClassCounts s
  ∧ cellClassColors s' = cellClassColors s
  ∧ (∀ k, is_Some (cellClassVisible s !! k) → is_Some (cellClassVisible s' !! k)).

End Legend.

(* ================================================================== *)
(** ** Sample data used by the closed statements below *)

Definition reservedCell (className : string) : SpatialViewer.Cell :=
  {| SpatialViewer.id := None; SpatialViewer.x := 0; SpatialViewer.y := 0;
     SpatialViewer.z := None; SpatialViewer.r := None;
     SpatialViewer.class := className; SpatialViewer.gene_counts := None |}.

Definition reservedFile : SpatialViewer.CellsFile :=
  {| SpatialViewer.file_cells := Some [reservedCell "Zero"; reservedCell "Other"];
     SpatialViewer.z_values := None; SpatialViewer.default_radius := None |}.

Definition reservedScheme : gmap string string :=
  list_to_map [("Zero", "#ff0000"); ("Other", "#00ff00")].

(** A base dataset whose region ca1 counts 50 cells of "016 CA1-ProS Glut"
    and 10 of "999 Unknown", and carries no transitions table. *)
Definition sankeyBaseData : Dashboard.RunData :=
  {| Dashboard.regions :=
       {[ "ca1" := {| Dashboard.purity := 0;
                      Dashboard.cell_type_counts :=
                        Some [("016 CA1-ProS Glut", 50%Z); ("999 Unknown", 10%Z)];
                      Dashboard.high_gene_count := None |} ]};
     Dashboard.transitions := None |}.

Definition sankeyMetadata : Dashboard.Metadata :=
  {| Dashboard.base_run := "run_0"; Dashboard.runs := ["run_1"];
     Dashboard.min_gene_counts := None |}.

(** Metadata that names another run as base run. *)
Definition otherBaseMetadata : Dashboard.Metadata :=
  {| Dashboard.base_run := "run_1"; Dashboard.runs := ["run_0"; "run_2"];
     Dashboard.min_gene_counts := None |}.

(** The page after [init] with that dataset. *)
Definition sankeyWorld : Dashboard.World :=
  fst (Dashboard.init (Fetched sankeyMetadata) (Fetched sankeyBaseData)
                      (Fetched ∅) (Normal tt)).

(** A stand-in for d3's conversion, where a closed statement needs one. *)
Definition greyHsl (h sat l : Q) : Z * Z * Z := (128, 128, 128)%Z.

(** Two cells that span the box from (0, 0) to (100, 50). *)
Definition cornerCell (cx cy : Q) : SpatialViewer.Cell :=
  {| SpatialViewer.id := None; SpatialViewer.x := cx; SpatialViewer.y := cy;
     SpatialViewer.z := None; SpatialViewer.r := None;
     SpatialViewer.class := "A"; SpatialViewer.gene_counts := None |}.

Definition boxFile : SpatialViewer.CellsFile :=
  {| SpatialViewer.file_cells := Some [cornerCell 0 0; cornerCell 100 50];
     SpatialViewer.z_values := None; SpatialViewer.default_radius := None |}.

Definition boxState : SpatialViewer.state :=
  SpatialViewer.installRun "run_0" boxFile SpatialViewer.state0.

(** Seven cells of three classes on planes 1 and 2, and a session that
    hides class A, selects plane 2 and asks for at least 10 genes. *)
Definition planeCell (n : Z) (className : string) (plane : option Q)
                     (genes : option Q) : SpatialViewer.Cell :=
  {| SpatialViewer.id := Some n; SpatialViewer.x := inject_Z n;
     SpatialViewer.y := 0; SpatialViewer.z := plane; SpatialViewer.r := None;
     SpatialViewer.class := className; SpatialViewer.gene_counts := genes |}.

Definition planeFile : SpatialViewer.CellsFile :=
  {| SpatialViewer.file_cells :=
       Some [planeCell 1 "A" (Some 2%Q) (Some 12%Q);
             planeCell 2 "A" (Some 2%Q) (Some 5%Q);
             planeCell 3 "A" (Some 1%Q) (Some 20%Q);
             planeCell 4 "B" (Some 2%Q) (Some 15%Q);
             planeCell 5 "B" (Some 2%Q) (Some 3%Q);
             planeCell 6 "B" None (Some 50%Q);
             planeCell 7 "C" (Some 2%Q) None];
     SpatialViewer.z_values := Some [1%Q; 2%Q];
     SpatialViewer.default_radius := None |}.

Definition planeSession : list (option (Q * Q) * SpatialViewer.event) :=
  [(None, SpatialViewer.InitializeDeck);
   (None, SpatialViewer.LoadSettled "run_0" (Fetched planeFile));
   (None, SpatialViewer.SchemeSettled 0 (Fetched ∅));
   (None, SpatialViewer.ToggleClass "A");
   (None, SpatialViewer.PlaneToggle);
   (None, SpatialViewer.PlaneSlider 2);
   (None, SpatialViewer.FilterButton "high_gene" (Some 10%Q) (Normal tt))].

(** The viewer once that file is loaded and coloured. *)
Definition loadedPlaneState : SpatialViewer.state :=
  SpatialViewer.st (fst (SpatialViewer.run greyHsl SpatialViewer.world0
                           (take 3 planeSession))).

(** A file without cells. *)
Definition emptyFile : SpatialViewer.CellsFile :=
  {| SpatialViewer.file_cells := None; SpatialViewer.z_values := None;
     SpatialViewer.default_radius := None |}.

(** A second dataset, and a session: the inefficiency radio goes to 0.5,
    the file of run_1 arrives, the radio goes back to its default. *)
Definition otherRunData : Dashboard.RunData :=
  {| Dashboard.regions := ∅; Dashboard.transitions := None |}.

Definition sampleSession : list Dashboard.event :=
  [Dashboard.ParameterChange "inefficiency" "0.5" (Normal tt) (Normal tt) (Normal tt);
   Dashboard.FetchSettled 0 (Fetched otherRunData) (Normal tt);
   Dashboard.ParameterChange "inefficiency" "0.1" (Normal tt) (Normal tt) (Normal tt)].

(** Datasets with the four regions, and the page after [init] with the
    first as base dataset. *)
Definition regionWith (p hp : Q) : Dashboard.RegionData :=
  {| Dashboard.purity := p;
     Dashboard.cell_type_counts := Some [("016 CA1-ProS Glut", 50%Z)];
     Dashboard.high_gene_count :=
       Some {| Dashboard.hg_purity := hp; Dashboard.hg_cell_type_counts := None |} |}.

Definition fourRegions (a b c d : Q) : Dashboard.RunData :=
  {| Dashboard.regions :=
       list_to_map [("ca1", regionWith a a); ("ca2", regionWith b b);
                    ("ca3", regionWith c c); ("dg", regionWith d d)];
     Dashboard.transitions := None |}.

Definition purityWorld : Dashboard.World :=
  fst (Dashboard.init (Fetched sankeyMetadata) (Fetched (fourRegions 80 60 90 70))
                      (Fetched ∅) (Normal tt)).

(** The same page once run_1 is loaded as alternate dataset. *)
Definition comparedWorld : Dashboard.World :=
  Dashboard.run Config.DEBUG purityWorld
    [Dashboard.ParameterChange "inefficiency" "0.5" (Normal tt) (Normal tt) (Normal tt);
     Dashboard.FetchSettled 0 (Fetched (fourRegions 85 55 90 100)) (Normal tt)].

(* ================================================================== *)
(** * Properties *)

(** ** Run resolution *)

Section RunResolution.

Import Config.

Lemma PARAM_CONFIG_inefficiency :
  PARAM_CONFIG !! "inefficiency" =
  Some {| default := Num 1 (-1);
          values := [Num 1 (-3); Num 5 (-3); Num 1 (-2); Num 5 (-2);
                     Num 1 (-1); Num 5 (-1); Num 1 0];
          displayName := "Inefficiency" |}.
Proof. vm_compute. reflexivity. Qed.

Lemma PARAM_CONFIG_misreadDensity :
  PARAM_CONFIG !! "misreadDensity" =
  Some {| default := Num 1 (-5);
          values := [Num 1 (-6); Num 5 (-6); Num 1 (-5); Num 5 (-5); Num 1 (-4)];
          displayName := "MisreadDensity" |}.
Proof. vm_compute. reflexivity. Qed.

Lemma PARAM_CONFIG_spotReg :
  PARAM_CONFIG !! "spotReg" =
  Some {| default := Num 1 (-1);
          values := [Num 1 (-3); Num 1 (-2); Num 1 (-1); Num 5 (-1); Num 1 0];
          displayName := "SpotReg" |}.
Proof. vm_compute. reflexivity. Qed.

Lemma PARAM_CONFIG_rSpot :
  PARAM_CONFIG !! "rSpot" =
  Some {| default := Num 2 0;
          values := [Num 5 (-1); Num 1 0; Num 2 0; Num 5 0; Num 1 1];
          displayName := "rSpot" |}.
Proof. vm_compute. reflexivity. Qed.

Lemma pushNonDefault_known (nd : list (string * number)) (name : string) (v : number) :
  is_Some (PARAM_CONFIG !! name) →
  pushNonDefault (Normal nd) (name, v)
  = Normal (nd ++ List.filter nonDefault [(name, v)])%list.
Proof.
  intros [d Hd]. unfold pushNonDefault, nonDefault.
  cbn [List.filter fst snd]. rewrite Hd.
  destruct (strict_neq v (default d)); [reflexivity |].
  rewrite app_nil_r. reflexivity.
Qed.

(** On the four-parameter object the loop never raises and collects the
    entries that are away from their default, in order. *)
Lemma nonDefaultParams_config4 (a b c d : number) :
  nonDefaultParams (config4 a b c d) = Normal (List.filter nonDefault (config4 a b c d)).
Proof.
  unfold nonDefaultParams, config4. cbn [fold_left].
  rewrite !pushNonDefault_known;
    [| rewrite PARAM_CONFIG_rSpot; eauto
     | rewrite PARAM_CONFIG_spotReg; eauto
     | rewrite PARAM_CONFIG_misreadDensity; eauto
     | rewrite PARAM_CONFIG_inefficiency; eauto ].
  f_equal. cbn [List.filter].
  destruct (nonDefault (_, a)), (nonDefault (_, b)), (nonDefault (_, c)),
           (nonDefault (_, d)); reflexivity.
Qed.

Lemma RUN_MAPPING_values (key runId : string) :
  RUN_MAPPING !! key = Some runId → In runId run_ids.
Proof.
  intros H. unfold RUN_MAPPING in H.
  apply elem_of_list_to_map_2 in H.
  apply list_elem_of_In in H.
  unfold run_ids. apply in_map_iff. exists (key, runId). split; [reflexivity | exact H].
Qed.

Lemma run_0_is_run_id : In "run_0" run_ids.
Proof. left. reflexivity. Qed.

Lemma run_ids_truthy (runId : string) : In runId run_ids → truthy_string runId = true.
Proof.
  unfold run_ids. cbn [map snd RUN_MAPPING_entries].
  intros H. repeat (destruct H as [<- | H]; [reflexivity |]). destruct H.
Qed.

Lemma when_debug_console (debug : bool) (e : effect) :
  is_console e = true → forallb is_console (when_debug debug e) = true.
Proof. intros H. destruct debug; cbn; [rewrite H |]; reflexivity. Qed.

Lemma forallb_benign_console (es : list effect) :
  forallb is_console es = true → forallb benign es = true.
Proof.
  induction es as [| e es IH]; [reflexivity |].
  cbn [forallb]. intros [He Hes]%andb_prop.
  unfold benign at 1. rewrite He, (IH Hes). reflexivity.
Qed.

(** C6. For every configuration of the four parameters, whatever their
    values, [getRunIdForConfig] completes normally with one of the run
    identifiers of the table (a non-empty string); its only effects are
    console lines and reads of the table.  With no parameter away from its
    default it answers run_0 and performs no effect at all, so the table is
    not read; with one parameter away whose key the table lacks, and with
    two or more away, it answers run_0, in the latter case without reading
    the table. *)
Theorem getRunIdForConfig_never_fails (debug : bool) (a b c d : number) :
  let config := config4 a b c d in
  let away := List.filter nonDefault config in
  ∃ effects runId,
    getRunIdForConfig debug config = (effects, Normal runId)
    ∧ In runId run_ids
    ∧ truthy_string runId = true
    ∧ forallb benign effects = true
    ∧ (away = [] → runId = "run_0" ∧ effects = [])
    ∧ (∀ name value, away = [(name, value)] →
         RUN_MAPPING !! key_of name (ToString value) = None →
         runId = "run_0")
    ∧ ((2 ≤ length away)%nat →
         runId = "run_0" ∧ forallb is_console effects = true).
Proof.
  intros config away. unfold getRunIdForConfig.
  subst config. rewrite nonDefaultParams_config4. fold away.
  destruct away as [| [name value] [| second rest]] eqn:Haway.
  - exists [], "run_0". split; [reflexivity |].
    repeat split; auto using run_0_is_run_id; try (intros; discriminate).
    all: cbn; lia.
  - destruct (RUN_MAPPING !! key_of name (ToString value)) as [runId |] eqn:Hkey.
    + pose proof (RUN_MAPPING_values _ _ Hkey) as Hin.
      rewrite (run_ids_truthy _ Hin).
      eexists _, runId. split; [reflexivity |].
      split; [exact Hin |]. split; [exact (run_ids_truthy _ Hin) |].
      split; [rewrite forallb_app; destruct debug; reflexivity |].
      split; [intros; discriminate |].
      split; [intros n v [= <- <-] Hnone; congruence |].
      cbn; lia.
    + eexists _, "run_0". split; [reflexivity |].
      split; [exact run_0_is_run_id |]. split; [reflexivity |].
      split; [rewrite !forallb_app; destruct debug; reflexivity |].
      split; [intros; discriminate |].
      split; [reflexivity |].
      cbn; lia.
  - eexists _, "run_0". split; [reflexivity |].
    split; [exact run_0_is_run_id |]. split; [reflexivity |].
    split; [apply forallb_benign_console, when_debug_console; reflexivity |].
    split; [intros; discriminate |].
    split; [intros; discriminate |].
    intros _. split; [reflexivity |]. apply when_debug_console. reflexivity.
Qed.

(** The resolution inside [onParameterChange] always answers a run
    identifier of the table. *)
Lemma determineRunMapping_valid (debug : bool) (paramName paramValueStr : string) :
  In (snd (determineRunMapping debug paramName paramValueStr)) run_ids.
Proof.
  unfold determineRunMapping.
  destruct (match PARAM_CONFIG !! paramName with
            | Some d => strict_eq (Number paramValueStr) (default d)
            | None => false
            end); [exact run_0_is_run_id |].
  destruct (RUN_MAPPING !! key_of paramName paramValueStr) as [runId |] eqn:Hkey;
    [| exact run_0_is_run_id].
  pose proof (RUN_MAPPING_values _ _ Hkey) as Hin.
  rewrite (run_ids_truthy _ Hin). exact Hin.
Qed.

(** What the resolution inside [onParameterChange] does with the token of
    a radio input: every token that is not the default of its parameter
    has an entry in the table under exactly that token, and the entry is
    the answer. *)
Lemma determineRunMapping_radio_tokens (debug : bool) (name token : string)
                                       (tokens : list string) :
  In (name, tokens) radioTokens → In token tokens →
  (∃ d, PARAM_CONFIG !! name = Some d
        ∧ if strict_eq (Number token) (default d)
          then snd (determineRunMapping debug name token) = "run_0"
          else RUN_MAPPING !! key_of name token
               = Some (snd (determineRunMapping debug name token))).
Proof.
  unfold radioTokens. intros Hname Htoken.
  repeat (destruct Hname as [[= <- <-] | Hname];
          [ repeat (destruct Htoken as [<- | Htoken];
                    [ eexists; split; [vm_compute; reflexivity |];
                      destruct debug; vm_compute; reflexivity |]);
            destruct Htoken |]).
  destruct Hname.
Qed.

(** C1. The run resolution of the page is the one inside
    [onParameterChange], which the radio inputs call with their token after
    the other groups are reset to their defaults.  The tokens of a group
    spell the allowed values of its parameter.  For every token that is not
    the default, the table is read once, under the parameter's name and
    exactly the token the radio carries, the table has an entry there and
    that entry is the run answered.  Whatever the token, no other key is
    ever read, and an entry found under the key is the answer.  So 1.0 for
    inefficiency, 5.0 for rSpot and 1e-06 for misreadDensity are looked up
    as "inefficiency:1.0", "rSpot:5.0" and "misreadDensity:1e-06" and give
    run_2, run_17 and run_8. *)
Theorem onParameterChange_looks_up_radio_token (debug : bool) :
  map fst radioTokens = ["inefficiency"; "misreadDensity"; "spotReg"; "rSpot"]
  ∧ (∀ name tokens, In (name, tokens) radioTokens →
       ∃ d, PARAM_CONFIG !! name = Some d ∧ map Number tokens = values d)
  ∧ (∀ name tokens token d,
       In (name, tokens) radioTokens → In token tokens →
       PARAM_CONFIG !! name = Some d →
       strict_neq (Number token) (default d) = true →
       ∃ runId,
         RUN_MAPPING !! key_of name token = Some runId
         ∧ snd (determineRunMapping debug name token) = runId
         ∧ List.filter is_TableRead (fst (determineRunMapping debug name token))
           = [TableRead (key_of name token)])
  ∧ (∀ name token key,
       In (TableRead key) (fst (determineRunMapping debug name token)) →
       key = key_of name token)
  ∧ (∀ name token d runId,
       PARAM_CONFIG !! name = Some d →
       strict_neq (Number token) (default d) = true →
       RUN_MAPPING !! key_of name token = Some runId →
       snd (determineRunMapping debug name token) = runId)
  ∧ key_of "inefficiency" "1.0" = "inefficiency:1.0"
  ∧ determineRunMapping DEBUG "inefficiency" "1.0"
    = ([TableRead "inefficiency:1.0"], "run_2")
  ∧ determineRunMapping DEBUG "rSpot" "5.0" = ([TableRead "rSpot:5.0"], "run_17")
  ∧ determineRunMapping DEBUG "misreadDensity" "1e-06"
    = ([TableRead "misreadDensity:1e-06"], "run_8").
Proof.
  split; [reflexivity |].
  split.
  { intros name tokens Hname. unfold radioTokens in Hname.
    repeat (destruct Hname as [[= <- <-] | Hname];
            [eexists; split; vm_compute; reflexivity |]).
    destruct Hname. }
  split.
  { intros name tokens token d Hname Htoken Hd Hneq. unfold radioTokens in Hname.
    repeat (destruct Hname as [[= <- <-] | Hname];
            [ vm_compute in Hd; injection Hd as <-;
              repeat (destruct Htoken as [<- | Htoken];
                      [ vm_compute in Hneq;
                        first [ discriminate Hneq
                              | eexists; split; [vm_compute; reflexivity |];
                                split; destruct debug; vm_compute; reflexivity ] |]);
              destruct Htoken |]).
    destruct Hname. }
  split.
  { intros name token key Hin. unfold determineRunMapping in Hin.
    repeat match type of Hin with
           | context [if ?c then _ else _] => destruct c
           | context [match ?c with Some _ => _ | None => _ end] => destruct c
           end;
      destruct debug; cbn in Hin; intuition congruence. }
  split.
  { intros name token d runId Hd Hneq Hkey. unfold determineRunMapping.
    rewrite Hd. unfold strict_neq in Hneq. apply negb_true_iff in Hneq.
    rewrite Hneq, Hkey.
    rewrite (run_ids_truthy _ (RUN_MAPPING_values _ _ Hkey)). reflexivity. }
  repeat split; vm_compute; reflexivity.
Qed.

End RunResolution.

(** The resolver that takes a configuration object, [getRunIdForConfig],
    which nothing in the page calls, builds its key from the number,
    printed anew: with the inefficiency radio at 1.0 and the others at
    their defaults it reads the table at "inefficiency:1", finds nothing
    and answers run_0, although 1 is an allowed value and the table holds
    run_2 under "inefficiency:1.0"; the same happens for rSpot 5.0 and
    misreadDensity 1e-06.  The resolution inside [onParameterChange], which
    keeps the token of the radio input, answers run_2, run_17 and run_8. *)
Lemma getRunIdForConfig_renormalizes_key :
  Config.getCurrentConfig (Some "1.0") None None None
    = Config.config4 (Num 1 0) (Num 1 (-5)) (Num 1 (-1)) (Num 2 0)
  ∧ List.filter Config.nonDefault (Config.getCurrentConfig (Some "1.0") None None None)
    = [("inefficiency", Num 1 0)]
  ∧ (∃ d, Config.PARAM_CONFIG !! "inefficiency" = Some d
          ∧ In (Num 1 0) (Config.values d))
  ∧ Config.getRunIdForConfig Config.DEBUG
      (Config.getCurrentConfig (Some "1.0") None None None)
    = ([TableRead "inefficiency:1"], Normal "run_0")
  ∧ Config.RUN_MAPPING !! "inefficiency:1.0" = Some "run_2"
  ∧ Config.determineRunMapping Config.DEBUG "inefficiency" "1.0"
    = ([TableRead "inefficiency:1.0"], "run_2")
  ∧ Config.getRunIdForConfig Config.DEBUG
      (Config.getCurrentConfig None None None (Some "5.0"))
    = ([TableRead "rSpot:5"], Normal "run_0")
  ∧ Config.determineRunMapping Config.DEBUG "rSpot" "5.0"
    = ([TableRead "rSpot:5.0"], "run_17")
  ∧ Config.getRunIdForConfig Config.DEBUG
      (Config.getCurrentConfig None (Some "1e-06") None None)
    = ([TableRead "misreadDensity:0.000001"], Normal "run_0")
  ∧ Config.determineRunMapping Config.DEBUG "misreadDensity" "1e-06"
    = ([TableRead "misreadDensity:1e-06"], "run_8").
Proof.
  split; [vm_compute; reflexivity |].
  split; [vm_compute; reflexivity |].
  split.
  { eexists. split; [apply PARAM_CONFIG_inefficiency |]. cbn. tauto. }
  repeat split; vm_compute; reflexivity.
Qed.

(** ** Colour lookup *)

(** The dashboard's lookup answers the two reserved labels before it looks
    at the scheme. *)
Lemma getCellColor_reserved (scheme : option (gmap string string)) :
  Dashboard.getCellColor scheme "Zero" = "#000000"
  ∧ Dashboard.getCellColor scheme "Other" = "#999999".
Proof. split; reflexivity. Qed.

(** C4. The spatial viewer's lookup has no reserved labels: once a run
    whose cells carry the classes "Zero" and "Other" is loaded under a
    scheme that gives them red and green, [getColorForClass] answers red
    for "Zero" and green for "Other", where the dashboard's [getCellColor]
    answers black and grey under the same scheme. *)
Theorem getColorForClass_has_no_reserved_labels
        (hslToRgb : Q -> Q -> Q -> Z * Z * Z) :
  let w := fst (SpatialViewer.run hslToRgb SpatialViewer.world0
                  [(None, SpatialViewer.InitializeDeck);
                   (None, SpatialViewer.LoadSettled "run_0" (Fetched reservedFile));
                   (None, SpatialViewer.SchemeSettled 0 (Fetched reservedScheme))]) in
  SpatialViewer.getColorForClass (SpatialViewer.st w) "Zero" = (255, 0, 0)
  ∧ SpatialViewer.getColorForClass (SpatialViewer.st w) "Other" = (0, 255, 0)
  ∧ Dashboard.getCellColor (Some reservedScheme) "Zero" = "#000000"
  ∧ Dashboard.getCellColor (Some reservedScheme) "Other" = "#999999".
Proof. repeat split; vm_compute; reflexivity. Qed.

(** ** Sankey fallback *)

Section Sankey.

Import Dashboard.

Lemma simplifyClassLabel_simplified (l : string) :
  In (simplifyClassLabel l) SIMPLIFIED_CLASSES.
Proof.
  unfold simplifyClassLabel, SIMPLIFIED_CLASSES.
  repeat match goal with
         | |- context [if ?b then _ else _] => destruct b
         end; cbn; tauto.
Qed.

(** A label that starts with the given text, taken apart up to the end of
    that text. *)
Ltac peel_prefix H :=
  repeat match type of H with
         | String.prefix (String _ _) ?l = true =>
             destruct l as [| ? ?]; [discriminate H |];
             cbn [String.prefix] in H;
             match type of H with
             | (if ?d then _ else _) = true =>
                 destruct d as [<- | ?]; [| discriminate H]
             end
         end.

Lemma simplifyClassLabel_rules (prefix cls label : string) :
  In (prefix, cls) prefixRules → String.prefix prefix label = true →
  simplifyClassLabel label = cls.
Proof.
  unfold prefixRules. intros Hrule H.
  repeat (destruct Hrule as [[= <- <-] | Hrule];
          [peel_prefix H;
           match type of H with String.prefix _ ?rest = true => destruct rest end;
           vm_compute; reflexivity |]).
  destruct Hrule.
Qed.

Lemma simplifyClassLabel_other (label : string) :
  (∀ prefix cls, In (prefix, cls) prefixRules → String.prefix prefix label = false) →
  simplifyClassLabel label = "Other".
Proof.
  intros Hnone. unfold simplifyClassLabel.
  destruct (String.eqb label ""); [reflexivity |].
  rewrite (Hnone "016 CA1" "CA1"), (Hnone "025 CA2" "CA2"), (Hnone "017 CA3" "CA3"),
    (Hnone "037 DG Glut" "DG"), (Hnone "038 DG-PIR" "DG"), (Hnone "319 Astro" "Astro"),
    (Hnone "327 Oligo" "Oligo"), (Hnone "005 L5 IT" "L5"), (Hnone "022 L5 ET" "L5"),
    (Hnone "032 L5 NP" "L5"), (Hnone "030 L6 CT" "L6"), (Hnone "004 L6 IT" "L6"),
    (Hnone "029 L6b CTX" "L6"), (Hnone "Zero" "Zero");
    [reflexivity | unfold prefixRules; cbn [In]; tauto ..].
Qed.

Lemma bump_keys (s k : string) (n : Z) (o : list (string * Z)) :
  In k (map fst (bump s n o)) ↔ k = s ∨ In k (map fst o).
Proof.
  induction o as [| [k' v] o IH]; cbn.
  - intuition.
  - destruct (String.eqb_spec k' s) as [-> | Hne]; cbn; intuition.
Qed.

Lemma bump_NoDup (s : string) (n : Z) (o : list (string * Z)) :
  List.NoDup (map fst o) → List.NoDup (map fst (bump s n o)).
Proof.
  induction o as [| [k' v] o IH]; cbn; intros Hnd.
  - constructor; [intros [] | constructor].
  - destruct (String.eqb_spec k' s) as [-> | Hne]; cbn; [exact Hnd |].
    inversion Hnd as [| ? ? Hnotin Hnd']; subst.
    constructor; [| auto].
    rewrite bump_keys. intros [-> | Hin]; [congruence | contradiction].
Qed.

Lemma bump_valueAt (s k : string) (n : Z) (o : list (string * Z)) :
  valueAt k (bump s n o) = (valueAt k o + (if String.eqb s k then n else 0))%Z.
Proof.
  unfold valueAt.
  induction o as [| [k' v] o IH]; cbn [bump List.filter map fold_right fst snd].
  - destruct (String.eqb s k); cbn; lia.
  - destruct (String.eqb_spec k' s) as [-> | Hne].
    + cbn [List.filter map fold_right fst snd].
      destruct (String.eqb s k); cbn [map fold_right snd];
        destruct (v =? 0)%Z eqn:Hv; lia.
    + cbn [List.filter fst]. destruct (String.eqb k' k) eqn:Hk'.
      * cbn [map fold_right snd]. rewrite IH. lia.
      * exact IH.
Qed.

Lemma valueAt_unique (k : string) (v : Z) (o : list (string * Z)) :
  List.NoDup (map fst o) → In (k, v) o → valueAt k o = v.
Proof.
  unfold valueAt.
  induction o as [| [k' v'] o IH]; cbn [map fst In List.filter]; [intros _ [] |].
  intros Hnd Hin. inversion Hnd as [| ? ? Hnotin Hnd']; subst.
  destruct Hin as [[= -> ->] | Hin].
  - rewrite String.eqb_refl. cbn [map fold_right snd].
    assert (Hnil : List.filter (fun kv => String.eqb (fst kv) k) o = []).
    { clear - Hnotin. induction o as [| [k2 v2] o IH]; [reflexivity |].
      cbn in *. destruct (String.eqb_spec k2 k) as [-> | _]; [tauto |].
      apply IH. tauto. }
    rewrite Hnil. cbn. lia.
  - destruct (String.eqb_spec k' k) as [-> | _].
    + exfalso. apply Hnotin. apply in_map_iff. exists (k, v). auto.
    + apply IH; assumption.
Qed.

(** The loop over the entries of [counts], from any object built so far. *)
Lemma simplify_loop (counts acc : list (string * Z)) :
  let out := fold_left (fun acc lc => bump (simplifyClassLabel (fst lc)) (snd lc) acc)
                       counts acc in
  (List.NoDup (map fst acc) → List.NoDup (map fst out))
  ∧ (∀ k, valueAt k out = (valueAt k acc + totalFor k counts)%Z)
  ∧ (∀ k, In k (map fst out)
          ↔ In k (map fst acc) ∨ ∃ lc, In lc counts ∧ simplifyClassLabel (fst lc) = k).
Proof.
  revert acc. induction counts as [| [l n] counts IH]; intros acc; cbn [fold_left].
  - cbn [map]. split; [tauto |]. split.
    + intros k. unfold totalFor. cbn. lia.
    + intros k. split; [tauto |]. intros [H | (lc & [] & _)]. exact H.
  - specialize (IH (bump (simplifyClassLabel l) n acc)).
    cbn zeta in IH. destruct IH as (IHnd & IHval & IHkeys).
    cbn [fst snd] in *. split; [| split].
    + intros Hnd. apply IHnd, bump_NoDup, Hnd.
    + intros k. rewrite IHval, bump_valueAt. unfold totalFor.
      cbn [List.filter fst]. destruct (String.eqb (simplifyClassLabel l) k);
        cbn [map fold_right snd]; lia.
    + intros k. rewrite IHkeys, bump_keys. split.
      * intros [[-> | H] | (lc & Hin & Hlc)].
        -- right. exists (l, n). split; [left; reflexivity | reflexivity].
        -- left. exact H.
        -- right. exists lc. split; [right; exact Hin | exact Hlc].
      * intros [H | (lc & [<- | Hin] & Hlc)].
        -- left. right. exact H.
        -- left. left. symmetry. exact Hlc.
        -- right. exists lc. split; assumption.
Qed.

Lemma identityTransitions_from (counts : list (string * Z)) :
  map from (identityTransitions counts) = map fst (simplifyCounts counts).
Proof. unfold identityTransitions. rewrite map_map. reflexivity. Qed.

Lemma simplified_class_indices (s : string) :
  In s SIMPLIFIED_CLASSES →
  ∃ i, SIMPLIFIED_CLASSES !! i = Some s
       ∧ classToBeforeIdx !! s = Some i
       ∧ classToAfterIdx !! s = Some (i + 10)%nat.
Proof.
  unfold SIMPLIFIED_CLASSES. intros H.
  repeat (destruct H as [<- | H];
          [eexists; repeat split; vm_compute; reflexivity |]).
  destruct H.
Qed.

Lemma sankeyTransitions_fallback (st : State) (base : Dataset) (data : RegionData) :
  ¬ hasTransitions st →
  baseData st = Some base →
  regions (content base) !! currentRegion st = Some data →
  sankeyTransitions st =
    if String.eqb (filterKey_sankey st) "high_gene" then
      match high_gene_count data with
      | Some hg => Normal (identityTransitions (default [] (hg_cell_type_counts hg)))
      | None => Throw "TypeError"
      end
    else Normal (identityTransitions (default [] (cell_type_counts data))).
Proof.
  intros Hno Hbase Hregion. unfold sankeyTransitions.
  rewrite Hbase, Hregion.
  destruct (altData st) as [alt |] eqn:Halt; cbn [mbind option_bind]; [| reflexivity].
  destruct (transitions (content alt)) as [tr |] eqn:Htr; cbn [mbind option_bind];
    [| reflexivity].
  destruct (tr !! currentRegion st) as [byRegion |] eqn:Hr; cbn [mbind option_bind];
    [| reflexivity].
  destruct (byRegion !! filterKey_sankey st) as [ts |] eqn:Hts; [| reflexivity].
  exfalso. apply Hno. exists alt, tr, byRegion, ts. auto.
Qed.

(** C8. Without a transitions entry for the current region and filter mode
    the Sankey projection draws identity flows from the base dataset's
    counts for that region: every label goes to one of the ten simplified
    classes by the prefix rules, which are the fourteen of the table (a
    label that starts with "016 CA1" goes to CA1, and so on to "Zero"): a
    label that starts with a prefix of the table goes to the class of that
    prefix, a label that starts with none of them, the empty one too, goes
    to Other; the flows have pairwise different classes,
    each is a self loop whose count is the sum of the counts of the labels
    of its class, each class with a label has its flow, and each flow
    becomes the link from the class's node in the first half to its node in
    the second half.  The counts 50 for "016 CA1-ProS Glut" and 10 for
    "999 Unknown" in region ca1 give CA1 to CA1 with 50 and Other to Other
    with 10.  The nodes are always the ten classes in their fixed order,
    once as Base and once as Alt. *)
Theorem sankey_fallback_identity_flows :
  (∀ l, In (simplifyClassLabel l) SIMPLIFIED_CLASSES)
  ∧ (∀ prefix cls label,
       In (prefix, cls) prefixRules → String.prefix prefix label = true →
       simplifyClassLabel label = cls)
  ∧ (∀ label,
       (∀ prefix cls, In (prefix, cls) prefixRules →
                      String.prefix prefix label = false) →
       simplifyClassLabel label = "Other")
  ∧ prefixRules
    = [("016 CA1", "CA1"); ("025 CA2", "CA2"); ("017 CA3", "CA3");
       ("037 DG Glut", "DG"); ("038 DG-PIR", "DG"); ("319 Astro", "Astro");
       ("327 Oligo", "Oligo"); ("005 L5 IT", "L5"); ("022 L5 ET", "L5");
       ("032 L5 NP", "L5"); ("030 L6 CT", "L6"); ("004 L6 IT", "L6");
       ("029 L6b CTX", "L6"); ("Zero", "Zero")]
  ∧ simplifyClassLabel "016 CA1-ProS Glut" = "CA1"
  ∧ simplifyClassLabel "999 Unknown" = "Other"
  ∧ length SIMPLIFIED_CLASSES = 10%nat
  ∧ (∀ st base data,
       ¬ hasTransitions st → baseData st = Some base →
       regions (content base) !! currentRegion st = Some data →
       sankeyTransitions st =
         if String.eqb (filterKey_sankey st) "high_gene" then
           match high_gene_count data with
           | Some hg => Normal (identityTransitions (default [] (hg_cell_type_counts hg)))
           | None => Throw "TypeError"
           end
         else Normal (identityTransitions (default [] (cell_type_counts data))))
  ∧ (∀ counts,
       List.NoDup (map from (identityTransitions counts))
       ∧ (∀ t, In t (identityTransitions counts) →
            to t = from t
            ∧ count t = totalFor (from t) counts
            ∧ (∃ lc, In lc counts ∧ simplifyClassLabel (fst lc) = from t)
            ∧ ∃ i, SIMPLIFIED_CLASSES !! i = Some (from t)
                   ∧ link_of t = Some (i, (i + 10)%nat, count t))
       ∧ (∀ lc, In lc counts →
            ∃ t, In t (identityTransitions counts)
                 ∧ from t = simplifyClassLabel (fst lc)))
  ∧ identityTransitions [("016 CA1-ProS Glut", 50%Z); ("999 Unknown", 10%Z)]
    = [ {| from := "CA1"; to := "CA1"; count := 50 |};
        {| from := "Other"; to := "Other"; count := 10 |} ]
  ∧ sankeyTransitions (state sankeyWorld)
    = Normal [ {| from := "CA1"; to := "CA1"; count := 50 |};
               {| from := "Other"; to := "Other"; count := 10 |} ]
  ∧ (∃ plot, renderSankeyChart (state sankeyWorld) = Normal plot
             ∧ link_source plot = [1; 8]%nat
             ∧ link_target plot = [11; 18]%nat
             ∧ link_value plot = [50; 10]%Z)
  ∧ (∀ st plot, renderSankeyChart st = Normal plot →
       label plot =
         ["Astro (Base)"; "CA1 (Base)"; "CA2 (Base)"; "CA3 (Base)"; "DG (Base)";
          "L5 (Base)"; "L6 (Base)"; "Oligo (Base)"; "Other (Base)"; "Zero (Base)";
          "Astro (Alt)"; "CA1 (Alt)"; "CA2 (Alt)"; "CA3 (Alt)"; "DG (Alt)";
          "L5 (Alt)"; "L6 (Alt)"; "Oligo (Alt)"; "Other (Alt)"; "Zero (Alt)"]
       ∧ length (label plot) = 20%nat
       ∧ length (color plot) = 20%nat).
Proof.
  split; [exact simplifyClassLabel_simplified |].
  split; [exact simplifyClassLabel_rules |].
  split; [exact simplifyClassLabel_other |].
  split; [reflexivity |]. split; [reflexivity |]. split; [reflexivity |].
  split; [reflexivity |].
  split; [exact sankeyTransitions_fallback |].
  split.
  { intros counts.
    pose proof (simplify_loop counts []) as Hloop. cbn zeta in Hloop.
    fold (simplifyCounts counts) in Hloop.
    destruct Hloop as (Hnd & Hval & Hkeys).
    specialize (Hnd (List.NoDup_nil _)).
    split; [rewrite identityTransitions_from; exact Hnd |].
    split.
    - intros t Ht. unfold identityTransitions in Ht.
      apply in_map_iff in Ht. destruct Ht as ([s n] & <- & Hin).
      cbn [from to count fst snd].
      assert (Hs : In s (map fst (simplifyCounts counts))).
      { apply in_map_iff. exists (s, n). auto. }
      apply Hkeys in Hs. destruct Hs as [[] | (lc & Hlc & Hsimp)].
      split; [reflexivity |]. split.
      + rewrite <- (valueAt_unique s n _ Hnd Hin), Hval.
        unfold valueAt. cbn. lia.
      + split; [exists lc; auto |].
        destruct (simplified_class_indices s) as (i & Hi & Hb & Ha).
        { rewrite <- Hsimp. apply simplifyClassLabel_simplified. }
        exists i. split; [exact Hi |].
        unfold link_of. cbn [from to count]. rewrite Hb, Ha. reflexivity.
    - intros lc Hlc.
      assert (Hs : In (simplifyClassLabel (fst lc)) (map fst (simplifyCounts counts))).
      { apply Hkeys. right. exists lc. auto. }
      apply in_map_iff in Hs. destruct Hs as ([s n] & Hs & Hin).
      exists {| from := s; to := s; count := n |}. split; [| exact Hs].
      unfold identityTransitions. apply in_map_iff. exists (s, n). auto. }
  split; [vm_compute; reflexivity |].
  split; [vm_compute; reflexivity |].
  split.
  { eexists. split; [vm_compute; reflexivity |]. repeat split. }
  intros st plot. unfold renderSankeyChart.
  destruct (sankeyTransitions st); [| discriminate].
  intros [= <-]. repeat split.
Qed.

End Sankey.

(** ** The spatial filter pipeline *)

Section FilterPipeline.

Import SpatialViewer.

Lemma filter_andb {A : Type} (p q : A → bool) (l : list A) :
  List.filter p (List.filter q l) = List.filter (fun a => q a && p a) l.
Proof.
  induction l as [| a l IH]; [reflexivity |].
  cbn [List.filter]. destruct (q a); cbn [List.filter andb].
  - destruct (p a); rewrite IH; reflexivity.
  - exact IH.
Qed.

Lemma filter_all {A : Type} (l : list A) : List.filter (fun _ => true) l = l.
Proof. induction l as [| a l IH]; [reflexivity |]. cbn. rewrite IH. reflexivity. Qed.

Lemma filter_split_length {A : Type} (p q : A → bool) (l : list A) :
  length (List.filter p l)
  = (length (List.filter (fun a => q a && p a) l)
     + length (List.filter (fun a => negb (q a) && p a) l))%nat.
Proof.
  induction l as [| a l IH]; [reflexivity |].
  cbn [List.filter]. destruct (q a), (p a); cbn [andb negb length]; lia.
Qed.

Lemma isVisible_classShown (s : state) (c : Cell) : isVisible s c = classShown s c.
Proof.
  unfold isVisible, isVisible_of, classShown.
  destruct (cellClassVisible s !! class c) as [[|] |]; reflexivity.
Qed.

Lemma plane_step (s : state) (c : Cell) :
  (if planeActive s then onPlane s c else true) = planeMatches s c.
Proof.
  unfold planeActive, onPlane, planeMatches, cellZ.
  destruct (planeFilterEnabled s), (is3D (geom s)), (selectedPlane s); reflexivity.
Qed.

Lemma Qle_bool_zero_left (m g : Q) : Qeq_bool m 0 = true → Qle_bool 0 g = Qle_bool m g.
Proof.
  intros H%Qeq_bool_iff.
  destruct (Qle_bool 0 g) eqn:H0, (Qle_bool m g) eqn:Hm; try reflexivity.
  - apply Qle_bool_iff in H0. rewrite <- H in H0. apply Qle_bool_iff in H0. congruence.
  - apply Qle_bool_iff in Hm. rewrite H in Hm. apply Qle_bool_iff in Hm. congruence.
Qed.

Lemma gene_step (s : state) (c : Cell) :
  (if useGeneFilter s then geneOk s c else true) = geneMatches s c.
Proof.
  unfold geneOk, geneMatches, thr.
  destruct (useGeneFilter s); [| reflexivity].
  destruct (gene_counts c) as [g |]; [| reflexivity].
  destruct (Qeq_bool (minGeneCount s) 0) eqn:Hz; [| reflexivity].
  apply Qle_bool_zero_left, Hz.
Qed.

Lemma if_filter {A : Type} (b : bool) (p : A → bool) (l : list A) :
  (if b then List.filter p l else l) = List.filter (fun a => if b then p a else true) l.
Proof. destruct b; [reflexivity | symmetry; apply filter_all]. Qed.

Lemma visibleCells_conjunction (s : state) :
  visibleCells s
  = List.filter (fun c => classShown s c && planeMatches s c && geneMatches s c) (cells s).
Proof.
  unfold visibleCells. cbn zeta.
  rewrite !if_filter, !filter_andb.
  apply filter_ext. intros c.
  rewrite isVisible_classShown, plane_step, gene_step.
  destruct (classShown s c), (planeMatches s c), (geneMatches s c); reflexivity.
Qed.

Lemma legendCells_conjunction (s : state) :
  getLegendFilteredCells s
  = List.filter (fun c => planeMatches s c && geneMatches s c) (cells s).
Proof.
  unfold getLegendFilteredCells. cbn zeta.
  rewrite !if_filter, !filter_andb.
  apply filter_ext. intros c.
  rewrite plane_step, gene_step. reflexivity.
Qed.

Lemma countClass_loop (className : string) (l : list Cell) (m : gmap string nat) :
  default 0%nat (fold_left countClass l m !! className)
  = (default 0%nat (m !! className) + countOf className l)%nat.
Proof.
  revert m. induction l as [| c l IH]; intros m; cbn [fold_left].
  - unfold countOf. cbn [List.filter length]. rewrite Nat.add_0_r. reflexivity.
  - rewrite IH. unfold countClass, countOf. cbn [List.filter].
    destruct (String.eqb_spec (class c) className) as [-> | Hne].
    + rewrite lookup_insert_eq. cbn [default length].
      unfold Datatypes.id. generalize (default 0%nat (m !! className)). intros n. lia.
    + rewrite lookup_insert_ne by exact Hne. reflexivity.
Qed.

(** The pipeline on a small run: with class A hidden, plane 2 selected and
    at least 10 genes asked for, one cell is rendered (cell 4, of class B);
    the legend counts one cell for A and one for B, the one of A being the
    hidden cell that is on the plane and has enough genes. *)
Example spatial_filter_small_run :
  let s := st (fst (run greyHsl world0 planeSession)) in
  map id (visibleCells s) = [Some 4%Z]
  ∧ map id (getLegendFilteredCells s) = [Some 1%Z; Some 4%Z]
  ∧ legendCounts s !! "A" = Some 1%nat
  ∧ legendCounts s !! "B" = Some 1%nat
  ∧ legendCounts s !! "C" = None
  ∧ countOf "A" (visibleCells s) = 0%nat
  ∧ selectedPlane s = Some (inject_Z 2).
Proof. vm_compute. repeat split. Qed.

(** C7. For every state of the viewer: the cells handed to the layer are
    exactly the cells that satisfy (i) their class is marked visible,
    (ii) the plane condition and (iii) the gene-count condition, in the
    order of the cell list; [render], when it gets past its guard, hands
    over exactly these.  The legend is counted over the cells that satisfy
    (ii) and (iii) only, so for every class the legend count is the
    rendered count plus the number of cells of that class that are hidden
    but satisfy (ii) and (iii).  Applying the three predicates one after
    the other gives the same list in each of the six orders. *)
Theorem spatial_filter_pipeline (s : state) :
  let C := classShown s in
  let P := planeMatches s in
  let G := geneMatches s in
  visibleCells s = List.filter (fun c => C c && P c && G c) (cells s)
  ∧ (∀ container, canRender s = true →
       ∃ more, snd (render container s) = SetLayers (visibleCells s) :: more)
  ∧ getLegendFilteredCells s = List.filter (fun c => P c && G c) (cells s)
  ∧ (∀ className,
       default 0%nat (legendCounts s !! className)
       = countOf className (getLegendFilteredCells s))
  ∧ (∀ className,
       countOf className (getLegendFilteredCells s)
       = (countOf className (visibleCells s)
          + countOf className
              (List.filter (fun c => negb (C c) && P c && G c) (cells s)))%nat)
  ∧ visibleCells s = List.filter G (List.filter P (List.filter C (cells s)))
  ∧ visibleCells s = List.filter P (List.filter G (List.filter C (cells s)))
  ∧ visibleCells s = List.filter G (List.filter C (List.filter P (cells s)))
  ∧ visibleCells s = List.filter C (List.filter G (List.filter P (cells s)))
  ∧ visibleCells s = List.filter P (List.filter C (List.filter G (cells s)))
  ∧ visibleCells s = List.filter C (List.filter P (List.filter G (cells s))).
Proof.
  intros C P G.
  split; [apply visibleCells_conjunction |].
  split.
  { intros container Hcan. unfold render. rewrite Hcan.
    destruct (viewFitted s); eexists; reflexivity. }
  split; [apply legendCells_conjunction |].
  split.
  { intros className. unfold legendCounts. rewrite countClass_loop.
    rewrite lookup_empty. reflexivity. }
  split.
  { intros className. unfold countOf.
    rewrite legendCells_conjunction, visibleCells_conjunction.
    fold C P G. rewrite !filter_andb.
    rewrite (filter_split_length _ C).
    f_equal; f_equal; apply filter_ext; intros c;
      destruct (C c), (P c), (G c), (String.eqb (class c) className); reflexivity. }
  repeat split; rewrite visibleCells_conjunction, !filter_andb;
    apply filter_ext; intros c; fold C P G;
    destruct (C c), (P c), (G c); reflexivity.
Qed.

End FilterPipeline.

(** ** Viewport auto-fit *)

Section AutoFit.

Import SpatialViewer.
#[local] Open Scope Q_scope.

Lemma fold_Qmin_spec (f : Cell → Q) (rest : list Cell) (m0 : Q) :
  let m := fold_left (fun m c => Qmin m (f c)) rest m0 in
  m <= m0 ∧ (∀ c, In c rest → m <= f c) ∧ (m == m0 ∨ ∃ c, In c rest ∧ m == f c).
Proof.
  revert m0. induction rest as [| c rest IH]; intros m0; cbn [fold_left].
  - split; [apply Qle_refl |]. split; [intros c [] |]. left. reflexivity.
  - destruct (IH (Qmin m0 (f c))) as (Hle & Hall & Hat).
    split; [eapply Qle_trans; [exact Hle | apply Q.le_min_l] |].
    split.
    + intros c' [<- | Hin]; [| apply Hall, Hin].
      eapply Qle_trans; [exact Hle | apply Q.le_min_r].
    + destruct Hat as [Heq | (c' & Hin & Heq)].
      * destruct (Q.min_spec m0 (f c)) as [[_ Hm] | [_ Hm]].
        -- left. rewrite Heq. exact Hm.
        -- right. exists c. split; [left; reflexivity |]. rewrite Heq. exact Hm.
      * right. exists c'. split; [right; exact Hin | exact Heq].
Qed.

Lemma fold_Qmax_spec (f : Cell → Q) (rest : list Cell) (m0 : Q) :
  let m := fold_left (fun m c => Qmax m (f c)) rest m0 in
  m0 <= m ∧ (∀ c, In c rest → f c <= m) ∧ (m == m0 ∨ ∃ c, In c rest ∧ m == f c).
Proof.
  revert m0. induction rest as [| c rest IH]; intros m0; cbn [fold_left].
  - split; [apply Qle_refl |]. split; [intros c [] |]. left. reflexivity.
  - destruct (IH (Qmax m0 (f c))) as (Hle & Hall & Hat).
    split; [eapply Qle_trans; [apply Q.le_max_l | exact Hle] |].
    split.
    + intros c' [<- | Hin]; [| apply Hall, Hin].
      eapply Qle_trans; [apply Q.le_max_r | exact Hle].
    + destruct Hat as [Heq | (c' & Hin & Heq)].
      * destruct (Q.max_spec m0 (f c)) as [[_ Hm] | [_ Hm]].
        -- right. exists c. split; [left; reflexivity |]. rewrite Heq. exact Hm.
        -- left. rewrite Heq. exact Hm.
      * right. exists c'. split; [right; exact Hin | exact Heq].
Qed.

(** The four bounds are the extreme coordinates of the cells. *)
Lemma boundsOf_box (first : Cell) (rest : list Cell) :
  ∃ minX maxX minY maxY,
    boundsOf first rest = (minX, maxX, minY, maxY)
    ∧ (∀ c, In c (first :: rest) →
         minX <= x c ∧ x c <= maxX ∧ minY <= y c ∧ y c <= maxY)
    ∧ (∃ c, In c (first :: rest) ∧ x c == minX)
    ∧ (∃ c, In c (first :: rest) ∧ x c == maxX)
    ∧ (∃ c, In c (first :: rest) ∧ y c == minY)
    ∧ (∃ c, In c (first :: rest) ∧ y c == maxY).
Proof.
  unfold boundsOf. do 4 eexists. split; [reflexivity |].
  destruct (fold_Qmin_spec x rest (x first)) as (Hx1 & Hx2 & Hx3).
  destruct (fold_Qmax_spec x rest (x first)) as (HX1 & HX2 & HX3).
  destruct (fold_Qmin_spec y rest (y first)) as (Hy1 & Hy2 & Hy3).
  destruct (fold_Qmax_spec y rest (y first)) as (HY1 & HY2 & HY3).
  cbn zeta in *.
  split.
  { intros c [<- | Hin]; [tauto |]. auto. }
  repeat split.
  - destruct Hx3 as [H | (c & Hin & H)];
      [exists first | exists c]; split; try (symmetry; exact H); cbn; tauto.
  - destruct HX3 as [H | (c & Hin & H)];
      [exists first | exists c]; split; try (symmetry; exact H); cbn; tauto.
  - destruct Hy3 as [H | (c & Hin & H)];
      [exists first | exists c]; split; try (symmetry; exact H); cbn; tauto.
  - destruct HY3 as [H | (c & Hin & H)];
      [exists first | exists c]; split; try (symmetry; exact H); cbn; tauto.
Qed.

Lemma positive_nonzero (q : Q) : positive q = true → ¬ q == 0.
Proof.
  unfold positive. intros H Hq.
  apply negb_true_iff in H.
  assert (Hle : Qle_bool q 0 = true) by (apply Qle_bool_iff; rewrite Hq; apply Qle_refl).
  congruence.
Qed.

Lemma positive_lt (q : Q) : positive q = true ↔ 0 < q.
Proof.
  unfold positive. rewrite negb_true_iff. split.
  - intros H. apply Qnot_le_lt. intros Hle. apply Qle_bool_iff in Hle. congruence.
  - intros H. destruct (Qle_bool q 0) eqn:Hq; [| reflexivity].
    apply Qle_bool_iff in Hq. exfalso. exact (Qlt_not_le _ _ H Hq).
Qed.

(** To compare a computed zoom with a formula, compare the ratios. *)
Lemma zoom_value_evaluated (zm : Zoom) (a b : R) :
  match zm with
  | MinLog2 qa qb => Q2R qa = a ∧ Q2R qb = b
  | Fixed _ => False
  end →
  zoom_value zm = Rmin (log2 a) (log2 b).
Proof. destruct zm as [q | qa qb]; [intros [] |]. intros [<- <-]. reflexivity. Qed.

(** C9. With at least one cell, [autoFitView] hands deck.gl one view.
    Its bounds are the least and greatest x and y over all cells of the
    run (not the filtered ones); each bound is moved outwards by a tenth
    of the extent of its dimension, so the padded extent is 1.2 times the
    extent; the target is the midpoint of the padded box.  When the
    container's width and height and both padded extents are positive the
    zoom is min(log2(containerWidth / paddedWidth),
    log2(containerHeight / paddedHeight)) and the transition lasts 1000;
    otherwise the zoom is -1 with no transition.  For the box 0..100 by
    0..50 in a container of 800 by 400 the zoom is
    min(log2(800/120), log2(400/60)). *)
Theorem autoFitView_pads_and_zooms :
  (∀ (s : state) (container : option (Q * Q)) (first : Cell) (rest : list Cell),
     cells s = first :: rest →
     ∃ minX maxX minY maxY v,
       autoFitView s container = [Log "Bounds:"; SetView v]
       ∧ (∀ c, In c (cells s) →
            minX <= x c ∧ x c <= maxX ∧ minY <= y c ∧ y c <= maxY)
       ∧ (∃ c, In c (cells s) ∧ x c == minX)
       ∧ (∃ c, In c (cells s) ∧ x c == maxX)
       ∧ (∃ c, In c (cells s) ∧ y c == minY)
       ∧ (∃ c, In c (cells s) ∧ y c == maxY)
       ∧ let paddedMinX := minX - (maxX - minX) * (1 # 10) in
         let paddedMaxX := maxX + (maxX - minX) * (1 # 10) in
         let paddedMinY := minY - (maxY - minY) * (1 # 10) in
         let paddedMaxY := maxY + (maxY - minY) * (1 # 10) in
         let paddedWidth := paddedMaxX - paddedMinX in
         let paddedHeight := paddedMaxY - paddedMinY in
         let containerWidth := match container with Some (w, _) => w | None => 0 end in
         let containerHeight := match container with Some (_, h) => h | None => 0 end in
         target v = ((paddedMinX + paddedMaxX) / 2, (paddedMinY + paddedMaxY) / 2, 0)
         ∧ paddedWidth == (12 # 10) * (maxX - minX)
         ∧ paddedHeight == (12 # 10) * (maxY - minY)
         ∧ (if positive containerWidth && positive containerHeight
               && positive paddedWidth && positive paddedHeight
            then zoom v = MinLog2 (containerWidth / paddedWidth)
                                  (containerHeight / paddedHeight)
                 ∧ zoom_value (zoom v)
                   = Rmin (log2 (Q2R containerWidth / Q2R paddedWidth))
                          (log2 (Q2R containerHeight / Q2R paddedHeight))
                 ∧ transitionDuration v = 1000%Z
            else zoom v = Fixed (-1)
                 ∧ zoom_value (zoom v) = (-1)%R
                 ∧ transitionDuration v = 0%Z))
  ∧ (let v := fitBounds (0, 100, 0, 50) (Some (800, 400)) in
     zoom_value (zoom v) = Rmin (log2 (800 / 120)) (log2 (400 / 60))
     ∧ transitionDuration v = 1000%Z)
  ∧ (∃ v, autoFitView boxState (Some (800, 400)) = [Log "Bounds:"; SetView v]
          ∧ zoom_value (zoom v) = Rmin (log2 (800 / 120)) (log2 (400 / 60))
          ∧ transitionDuration v = 1000%Z).
Proof.
  split; [| split].
  - intros s container first rest Hcells.
    destruct (boundsOf_box first rest)
      as (minX & maxX & minY & maxY & Hb & Hbox & HminX & HmaxX & HminY & HmaxY).
    exists minX, maxX, minY, maxY.
    exists (fitBounds (minX, maxX, minY, maxY) container).
    unfold autoFitView. rewrite Hcells, Hb.
    split; [reflexivity |].
    split; [exact Hbox |].
    split; [exact HminX |]. split; [exact HmaxX |].
    split; [exact HminY |]. split; [exact HmaxY |].
    cbn zeta. unfold fitBounds.
    set (cw := match container with Some (w, _) => w | None => 0 end).
    set (ch := match container with Some (_, h) => h | None => 0 end).
    set (pw := maxX + (maxX - minX) * (1 # 10) - (minX - (maxX - minX) * (1 # 10))).
    set (ph := maxY + (maxY - minY) * (1 # 10) - (minY - (maxY - minY) * (1 # 10))).
    destruct (positive cw && positive ch && positive pw && positive ph) eqn:Hpos;
      cbn [target zoom transitionDuration zoom_value].
    + split; [reflexivity |].
      split; [unfold pw; ring |]. split; [unfold ph; ring |].
      split; [reflexivity |]. split; [| reflexivity].
      apply andb_prop in Hpos. destruct Hpos as [Hpos Hph].
      apply andb_prop in Hpos. destruct Hpos as [_ Hpw].
      rewrite !Q2R_div by (apply positive_nonzero; assumption).
      reflexivity.
    + split; [reflexivity |].
      split; [unfold pw; ring |]. split; [unfold ph; ring |].
      split; [reflexivity |]. split; [| reflexivity].
      unfold Q2R. cbn. lra.
  - cbn zeta. split; [| reflexivity].
    apply zoom_value_evaluated. vm_compute. split; lra.
  - eexists. split; [reflexivity |]. split; [| reflexivity].
    apply zoom_value_evaluated. vm_compute. split; lra.
Qed.

End AutoFit.

(** ** Class visibility across loads *)

Section Visibility.

Import SpatialViewer.

Variable hslToRgb : Q -> Q -> Q -> Z * Z * Z.

Lemma initVisible_loop (l : list Cell) (m : gmap string bool) (k : string) :
  fold_left initVisible l m !! k
  = match m !! k with
    | Some b => Some b
    | None => if bool_decide (k ∈ map class l) then Some true else None
    end.
Proof.
  revert m. induction l as [| c l IH]; intros m; cbn [fold_left map].
  - destruct (m !! k); [reflexivity |].
    rewrite bool_decide_eq_false_2; [reflexivity | apply not_elem_of_nil].
  - rewrite IH. unfold initVisible.
    destruct (m !! class c) as [bc |] eqn:Hc.
    + destruct (m !! k) as [b |] eqn:Hk; [reflexivity |].
      assert (Hne : k ≠ class c) by congruence.
      destruct (bool_decide (k ∈ map class l)) eqn:Hin.
      * apply bool_decide_eq_true_1 in Hin.
        rewrite bool_decide_eq_true_2; [reflexivity | right; exact Hin].
      * apply bool_decide_eq_false_1 in Hin.
        rewrite bool_decide_eq_false_2; [reflexivity |].
        intros [? | ?]%elem_of_cons; tauto.
    + destruct (decide (k = class c)) as [-> | Hne].
      * rewrite lookup_insert_eq, Hc.
        rewrite bool_decide_eq_true_2; [reflexivity | left].
      * rewrite lookup_insert_ne by congruence.
        destruct (m !! k) as [b |]; [reflexivity |].
        destruct (bool_decide (k ∈ map class l)) eqn:Hin.
        -- apply bool_decide_eq_true_1 in Hin.
           rewrite bool_decide_eq_true_2; [reflexivity | right; exact Hin].
        -- apply bool_decide_eq_false_1 in Hin.
           rewrite bool_decide_eq_false_2; [reflexivity |].
           intros [? | ?]%elem_of_cons; tauto.
Qed.

Lemma updateCellClassCounts_visible (s : state) (k : string) :
  cellClassVisible (updateCellClassCounts s) !! k
  = match cellClassVisible s !! k with
    | Some b => Some b
    | None => if bool_decide (k ∈ map class (cells s)) then Some true else None
    end.
Proof.
  unfold updateCellClassCounts.
  destruct (cells s) as [| c l] eqn:Hcells.
  - destruct (cellClassVisible s !! k); [reflexivity |].
    rewrite bool_decide_eq_false_2; [reflexivity | apply not_elem_of_nil].
  - cbn [set_counts_visible cellClassVisible]. apply initVisible_loop.
Qed.

Lemma updateCellClassCounts_cells (s : state) :
  cells (updateCellClassCounts s) = cells s.
Proof.
  unfold updateCellClassCounts. destruct (cells s) eqn:H; [exact H | exact H].
Qed.

Lemma render_visible (container : option (Q * Q)) (s : state) :
  cellClassVisible (fst (render container s)) = cellClassVisible s.
Proof. unfold render. destruct (canRender s), (viewFitted s); reflexivity. Qed.

Lemma render_cells (container : option (Q * Q)) (s : state) :
  cells (fst (render container s)) = cells s.
Proof. unfold render. destruct (canRender s), (viewFitted s); reflexivity. Qed.

(** What the end of a load does to the flags: the classes of the cells now
    in the store that had no flag get [true]. *)
Lemma finishLoad_visible (container : option (Q * Q)) (classNames : list string)
                         (s : state) (k : string) :
  cellClassVisible (fst (finishLoad hslToRgb container classNames s)) !! k
  = match cellClassVisible s !! k with
    | Some b => Some b
    | None => if bool_decide (k ∈ map class (cells s)) then Some true else None
    end.
Proof.
  unfold finishLoad. cbn [fst].
  rewrite render_visible, updateCellClassCounts_visible.
  reflexivity.
Qed.

Lemma load_step_keeps_flags (container : option (Q * Q)) (w : World) (e : event)
                            (k : string) (b : bool) :
  isLoad e = true →
  cellClassVisible (st w) !! k = Some b →
  cellClassVisible (st (fst (step hslToRgb w (container, e)))) !! k = Some b.
Proof.
  intros Hload Hk. destruct e; try discriminate; cbn [step].
  - unfold loadRunData.
    destruct (loadJSON result) as [data | err]; cbn [fst]; [| exact Hk].
    destruct (yaoColorScheme (installRun runId data (st w))) eqn:Hsc.
    + destruct (finishLoad hslToRgb container _ _) as [s2 calls] eqn:Hfin.
      cbn [fst st].
      change s2 with (fst (s2, calls)). rewrite <- Hfin.
      rewrite finishLoad_visible. cbn [installRun cellClassVisible].
      rewrite Hk. reflexivity.
    + cbn [fst st installRun cellClassVisible]. exact Hk.
  - unfold schemeSettled.
    destruct (awaiting w !! k0) as [classNames |]; [| exact Hk].
    destruct result;
      (destruct (finishLoad hslToRgb container classNames _) as [s2 calls] eqn:Hfin;
       cbn [fst st];
       change s2 with (fst (s2, calls)); rewrite <- Hfin;
       rewrite finishLoad_visible; cbn [set_colors cellClassVisible];
       rewrite Hk; reflexivity).
Qed.

Lemma run_cons (w : World) (ce : option (Q * Q) * event)
               (es : list (option (Q * Q) * event)) :
  fst (run hslToRgb w (ce :: es)) = fst (run hslToRgb (fst (step hslToRgb w ce)) es).
Proof.
  unfold run. cbn [fold_left fst snd].
  destruct (step hslToRgb w ce) as [w' calls]. cbn [fst].
  generalize (@nil call ++ calls)%list. generalize (@nil call).
  revert w'. induction es as [| ce' es IH]; intros w' l1 l2; [reflexivity |].
  cbn [fold_left fst snd]. destruct (step hslToRgb w' ce') as [w2 calls2].
  apply IH.
Qed.

(** C10. Loading a geometry keeps the visibility flags that exist:
    [updateCellClassCounts] leaves every flag already in the map as it is
    and gives [true] exactly to the classes of the loaded cells that had
    none; each step of [loadRunData], and so every sequence of loads,
    leaves an existing flag unchanged; a load that runs to its end adds the
    classes of the new run as visible.  A class hidden before the loads is
    therefore hidden after them, and none of its cells is rendered. *)
Theorem loadRunData_keeps_visibility_flags :
  (∀ (s : state) (k : string),
     cellClassVisible (updateCellClassCounts s) !! k
     = match cellClassVisible s !! k with
       | Some b => Some b
       | None => if bool_decide (k ∈ map class (cells s)) then Some true else None
       end)
  ∧ (∀ container (w : World) (e : event) (k : string) (b : bool),
       isLoad e = true →
       cellClassVisible (st w) !! k = Some b →
       cellClassVisible (st (fst (step hslToRgb w (container, e)))) !! k = Some b)
  ∧ (∀ (es : list (option (Q * Q) * event)) (w : World) (k : string) (b : bool),
       forallb (fun ce => isLoad (snd ce)) es = true →
       cellClassVisible (st w) !! k = Some b →
       cellClassVisible (st (fst (run hslToRgb w es))) !! k = Some b)
  ∧ (∀ container runId (data : CellsFile) (w : World) (k : string),
       is_Some (yaoColorScheme (st w)) →
       cellClassVisible
         (st (fst (fst (loadRunData hslToRgb container runId (Fetched data) w)))) !! k
       = match cellClassVisible (st w) !! k with
         | Some b => Some b
         | None => if bool_decide (k ∈ map class (default [] (file_cells data)))
                   then Some true else None
         end)
  ∧ (∀ (s : state) (c : Cell),
       cellClassVisible s !! class c = Some false → ¬ In c (visibleCells s)).
Proof.
  split; [exact updateCellClassCounts_visible |].
  split; [exact load_step_keeps_flags |].
  split.
  { induction es as [| [container e] es IH]; intros w k b Hall Hk; [exact Hk |].
    cbn [forallb snd] in Hall. apply andb_prop in Hall. destruct Hall as [He Hes].
    rewrite run_cons. apply IH; [exact Hes |].
    apply load_step_keeps_flags; assumption. }
  split.
  { intros container runId data w k [sc Hsc].
    unfold loadRunData. cbn [loadJSON].
    replace (yaoColorScheme (installRun runId data (st w))) with (Some sc)
      by (symmetry; exact Hsc).
    destruct (finishLoad hslToRgb container _ _) as [s2 calls] eqn:Hfin.
    cbn [fst st]. change s2 with (fst (s2, calls)). rewrite <- Hfin.
    rewrite finishLoad_visible. reflexivity. }
  intros s c Hhidden Hin.
  rewrite visibleCells_conjunction in Hin.
  apply filter_In in Hin. destruct Hin as [_ Hc].
  unfold classShown in Hc. rewrite Hhidden in Hc. discriminate.
Qed.

End Visibility.

(** ** The auto-fit flag *)

Section ViewFitted.

Import SpatialViewer.

Variable hslToRgb : Q -> Q -> Q -> Z * Z * Z.

Lemma canRender_cells (s : state) : canRender s = true → cells s ≠ [].
Proof.
  unfold canRender. intros [_ H]%andb_prop.
  apply negb_true_iff, bool_decide_eq_false_1 in H. exact H.
Qed.

(** What [render] does to the flag and how often it fits. *)
Lemma render_spec (container : option (Q * Q)) (s : state) :
  viewFitted (fst (render container s)) = viewFitted s || canRender s
  ∧ fits (snd (render container s))
    = (if canRender s && negb (viewFitted s) then 1 else 0)%nat.
Proof.
  unfold render. destruct (canRender s) eqn:Hcan, (viewFitted s) eqn:Hv;
    cbn [fst snd orb andb negb]; try (split; [assumption || reflexivity | reflexivity]).
  split; [reflexivity |].
  apply canRender_cells in Hcan. unfold autoFitView.
  destruct (cells s); [congruence | reflexivity].
Qed.

Lemma render_keeps (container : option (Q * Q)) (s : state) :
  viewFitted s = true →
  viewFitted (fst (render container s)) = true ∧ fits (snd (render container s)) = 0%nat.
Proof.
  intros Hv. destruct (render_spec container s) as [H1 H2].
  rewrite H1, H2, Hv. cbn. rewrite andb_false_r. split; reflexivity.
Qed.

Lemma fits_paletteLogs (scheme : option (gmap string string)) (classNames : list string) :
  fits (paletteLogs scheme classNames) = 0%nat.
Proof.
  unfold fits, paletteLogs. destruct scheme as [sc |]; [| reflexivity].
  induction classNames as [| c l IH]; [reflexivity |].
  cbn [flat_map]. rewrite List.filter_app, List.length_app, IH.
  destruct (Config.truthy_string _); reflexivity.
Qed.

Lemma fits_app (a b : list call) : fits (a ++ b) = (fits a + fits b)%nat.
Proof. unfold fits. rewrite List.filter_app, List.length_app. reflexivity. Qed.

Lemma finishLoad_keeps (container : option (Q * Q)) (classNames : list string)
                       (s : state) :
  viewFitted s = true →
  viewFitted (fst (finishLoad hslToRgb container classNames s)) = true
  ∧ fits (snd (finishLoad hslToRgb container classNames s)) = 0%nat.
Proof.
  intros Hv. unfold finishLoad. cbn [fst snd].
  rewrite fits_app, fits_paletteLogs. apply render_keeps.
  unfold updateCellClassCounts. cbn [set_colors cells].
  destruct (cells s); exact Hv.
Qed.

Ltac render_keeps_with Hv :=
  match goal with
  | |- context [render ?c ?s] =>
      let Hr := fresh "Hr" in
      pose proof (render_keeps c s) as Hr;
      destruct (render c s) as [? ?]; cbn [fst snd st] in *;
      unfold fits in *; cbn [List.filter is_SetView] in *;
      apply Hr; exact Hv
  end.

(** While the flag is set, an event that is neither a successful load nor
    a switch to the spatial tab leaves it set and fits nothing. *)
Lemma step_keeps_fitted (container : option (Q * Q)) (w : World) (e : event) :
  resets e = false →
  viewFitted (st w) = true →
  viewFitted (st (fst (step hslToRgb w (container, e)))) = true
  ∧ fits (snd (step hslToRgb w (container, e))) = 0%nat.
Proof.
  intros Hres Hv. destruct e; cbn [step resets] in *.
  - unfold on_state, initializeDeck. render_keeps_with Hv.
  - destruct result; try discriminate; cbn; auto.
  - unfold schemeSettled.
    destruct (awaiting w !! k) as [classNames |]; [| cbn; auto].
    destruct result;
      match goal with
      | |- context [finishLoad _ ?c ?names ?s] =>
          pose proof (finishLoad_keeps c names s Hv) as Hr;
          destruct (finishLoad hslToRgb c names s) as [s2 calls]
      end;
      cbn [fst snd st] in *; rewrite ?fits_app; cbn [fits List.filter is_SetView length];
      exact Hr.
  - unfold on_state, toggleClassVisibility. render_keeps_with Hv.
  - unfold on_state, showAllClasses. render_keeps_with Hv.
  - unfold on_state, hideAllClasses. render_keeps_with Hv.
  - unfold on_state, planeToggleClick.
    destruct (negb (is3D (geom (st w))) || bool_decide (zValues (geom (st w)) = []));
      [cbn; auto |].
    unfold setPlaneFilter.
    destruct (negb (planeFilterEnabled (st w))).
    + destruct (zValues (geom (st w))); [cbn; auto |]. render_keeps_with Hv.
    + render_keeps_with Hv.
  - unfold on_state. render_keeps_with Hv.
  - unfold on_state, filterButtonClick.
    destruct charts; [render_keeps_with Hv | cbn; auto].
  - unfold on_state, switchTab. rewrite Hres. cbn; auto.
  - cbn; auto.
Qed.

Lemma run_acc (es : list (option (Q * Q) * event)) (w : World) (acc : list call) :
  fold_left (fun a ce => let '(w', calls) := step hslToRgb (fst a) ce in
                         (w', (snd a ++ calls)%list)) es (w, acc)
  = (fst (run hslToRgb w es), (acc ++ snd (run hslToRgb w es))%list).
Proof.
  unfold run. revert w acc. induction es as [| ce es IH]; intros w acc; cbn [fold_left].
  - cbn. rewrite app_nil_r. reflexivity.
  - cbn [fst snd]. destruct (step hslToRgb w ce) as [w' calls].
    rewrite (IH w' (acc ++ calls)%list), (IH w' ([] ++ calls)%list).
    cbn [fst snd app]. rewrite app_assoc. reflexivity.
Qed.

Lemma run_step (w : World) (ce : option (Q * Q) * event)
               (es : list (option (Q * Q) * event)) :
  run hslToRgb w (ce :: es)
  = (fst (run hslToRgb (fst (step hslToRgb w ce)) es),
     (snd (step hslToRgb w ce) ++ snd (run hslToRgb (fst (step hslToRgb w ce)) es))%list).
Proof.
  unfold run at 1. cbn [fold_left fst snd].
  destruct (step hslToRgb w ce) as [w' calls]. cbn [app fst snd].
  apply run_acc.
Qed.

Lemma render_canRender (container : option (Q * Q)) (s : state) :
  canRender (fst (render container s)) = canRender s.
Proof. unfold render. destruct (canRender s) eqn:H, (viewFitted s); cbn [fst]; auto. Qed.

(** C2 (as amended).  A successful geometry load clears [viewFitted], and
    so does every switch to the spatial tab.  A render that gets past its
    guard while the flag is clear fits the view once and sets the flag; a
    render while it is set fits nothing.  So a load that runs to its end,
    and a switch to the spatial tab, leave the flag set exactly when their
    render got past its guard, having fitted once.  While the flag is set,
    any sequence of events without a successful load and without a switch
    to the spatial tab (re-renders after visibility, plane or gene-filter
    changes, other tabs, failed loads) leaves it set and fits nothing. *)
Theorem viewFitted_cleared_by_load_and_tab_switch :
  (∀ runId data s, viewFitted (installRun runId data s) = false)
  ∧ (∀ container s,
       viewFitted (fst (render container s)) = viewFitted s || canRender s
       ∧ fits (snd (render container s))
         = (if canRender s && negb (viewFitted s) then 1 else 0)%nat)
  ∧ (∀ container runId (data : CellsFile) (w : World),
       is_Some (yaoColorScheme (st w)) →
       let r := loadRunData hslToRgb container runId (Fetched data) w in
       viewFitted (st (fst (fst r))) = canRender (st (fst (fst r)))
       ∧ fits (snd (fst r)) = (if canRender (st (fst (fst r))) then 1 else 0)%nat)
  ∧ (∀ container s,
       let r := switchTab container "flowchartSpatial" s in
       viewFitted (fst r) = canRender s
       ∧ fits (snd r) = (if canRender s then 1 else 0)%nat)
  ∧ (∀ (es : list (option (Q * Q) * event)) (w : World),
       forallb (fun ce => negb (resets (snd ce))) es = true →
       viewFitted (st w) = true →
       viewFitted (st (fst (run hslToRgb w es))) = true
       ∧ fits (snd (run hslToRgb w es)) = 0%nat).
Proof.
  split; [reflexivity |].
  split; [exact render_spec |].
  split.
  { intros container runId data w [sc Hsc] r. subst r.
    unfold loadRunData. cbn [loadJSON].
    replace (yaoColorScheme (installRun runId data (st w))) with (Some sc)
      by (symmetry; exact Hsc).
    unfold finishLoad.
    match goal with
    | |- context [render ?c ?s] =>
        pose proof (render_spec c s) as [Hv Hf];
        pose proof (render_canRender c s) as Hc;
        destruct (render c s) as [s2 calls]
    end.
    cbn [fst snd st] in *. rewrite fits_app, fits_paletteLogs. cbn [Nat.add].
    rewrite Hc, Hv, Hf.
    assert (Hclear : ∀ s0, viewFitted (updateCellClassCounts s0) = viewFitted s0).
    { intros s0. unfold updateCellClassCounts. destruct (cells s0); reflexivity. }
    rewrite Hclear. cbn [set_colors installRun viewFitted orb negb].
    rewrite andb_true_r. split; reflexivity. }
  split.
  { intros container s r. subst r. unfold switchTab. cbn [String.eqb Ascii.eqb Bool.eqb].
    destruct (render_spec container (set_viewFitted false s)) as [Hv Hf].
    rewrite Hv, Hf. cbn [set_viewFitted viewFitted orb negb].
    rewrite andb_true_r. split; reflexivity. }
  induction es as [| [container e] es IH]; intros w Hall Hv.
  - split; [exact Hv | reflexivity].
  - cbn [forallb snd] in Hall. apply andb_prop in Hall. destruct Hall as [He Hes].
    apply negb_true_iff in He.
    destruct (step_keeps_fitted container w e He Hv) as [Hv1 Hf1].
    destruct (IH _ Hes Hv1) as [Hv2 Hf2].
    rewrite run_step. cbn [fst snd]. rewrite fits_app, Hf1, Hf2.
    split; [exact Hv2 | reflexivity].
Qed.

End ViewFitted.

(** C2 as stated fails.  After one load of a run with two cells (the deck
    exists, the container is still hidden) the flag is set and the view has
    been fitted once.  The switch to the spatial tab then clears the flag
    and renders: the view is fitted a second time and the flag is set
    again, with no geometry load in between. *)
Lemma viewFitted_refitted_on_tab_switch :
  let loaded :=
    SpatialViewer.run greyHsl SpatialViewer.world0
      [(None, SpatialViewer.InitializeDeck);
       (None, SpatialViewer.LoadSettled "run_0" (Fetched boxFile));
       (None, SpatialViewer.SchemeSettled 0 (Fetched ∅))] in
  let switched :=
    SpatialViewer.step greyHsl (fst loaded)
      (Some (800, 400)%Q, SpatialViewer.TabSwitch "flowchartSpatial") in
  SpatialViewer.viewFitted (SpatialViewer.st (fst loaded)) = true
  ∧ SpatialViewer.fits (snd loaded) = 1%nat
  ∧ SpatialViewer.viewFitted
      (SpatialViewer.set_viewFitted false (SpatialViewer.st (fst loaded))) = false
  ∧ SpatialViewer.fits (snd switched) = 1%nat
  ∧ SpatialViewer.viewFitted (SpatialViewer.st (fst switched)) = true
  ∧ SpatialViewer.currentRun (SpatialViewer.st (fst switched)) = Some "run_0".
Proof. vm_compute. repeat split. Qed.

(** ** The comparison state *)

Section ComparisonState.

Import Dashboard.

Lemma settled_consistent (w : World) : settled w → consistent w.
Proof.
  intros (md & base & alt & Hmd & Hrun & Hbase & Hsrc & Halt & Hcur & Hid & Hb & Ha & _).
  exists md, base, alt. rewrite Hrun. auto 10.
Qed.

Lemma init_settled (md : Metadata) (data : RunData) (colours : gmap string string)
                   (dom_render : completion unit) :
  base_run md = "run_0" →
  settled (fst (init (Fetched md) (Fetched data) (Fetched colours) dom_render)).
Proof.
  intros Hrun. unfold init. cbn [loadJSON].
  set (d := {| ref := 0; source := base_run md; content := data |}).
  assert (Hw : settled {| state := with_run (Some d) (base_run md)
                              (with_cellColors colours
                                 (with_baseData d (with_metadata md state0)));
                          next_ref := 2; pending := [] |}).
  { exists md, d, d. cbn. rewrite Hrun. repeat split; auto; lia. }
  destruct dom_render; exact Hw.
Qed.

(** The base view: the alternate dataset becomes the base object itself. *)
Lemma settled_base_view (w : World) :
  settled w →
  settled (set_state (with_run (baseData (state w)) "run_0" (state w)) w).
Proof.
  intros (md & base & alt & Hmd & Hrun & Hbase & Hsrc & Halt & Hcur & Hid & Hb & Ha & Hp).
  exists md, base, base. cbn. rewrite Hbase, Hsrc. repeat split; auto.
Qed.

Lemma settled_pending (w : World) (p : list string) :
  settled w → Forall (fun runId => runId ≠ "run_0") p →
  settled {| state := state w; next_ref := next_ref w; pending := p |}.
Proof.
  intros (md & base & alt & Hmd & Hrun & Hbase & Hsrc & Halt & Hcur & Hid & Hb & Ha & _) Hp.
  exists md, base, alt. cbn. repeat split; auto.
Qed.

Lemma settled_region_filter (w : World) (st' : State) :
  settled w →
  metadata st' = metadata (state w) → baseData st' = baseData (state w) →
  altData st' = altData (state w) → currentRun st' = currentRun (state w) →
  settled (set_state st' w).
Proof.
  intros (md & base & alt & Hmd & Hrun & Hbase & Hsrc & Halt & Hcur & Hid & Hb & Ha & Hp)
         E1 E2 E3 E4.
  exists md, base, alt. cbn. rewrite E1, E2, E3, E4. repeat split; auto.
Qed.

Lemma resume_settled (debug : bool) (runId : string) (result : fetched RunData)
                     (dom_render : completion unit) (w : World) :
  settled w → runId ≠ "run_0" →
  settled (fst (fst (onParameterChange_resume debug runId result dom_render w))).
Proof.
  intros Hw Hne. unfold onParameterChange_resume.
  destruct (loadJSON result) as [data | err]; [| exact Hw].
  destruct Hw as (md & base & alt & Hmd & Hrun & Hbase & Hsrc & Halt & Hcur & Hid
                  & Hb & Ha & Hp).
  set (d := {| ref := next_ref w; source := runId; content := data |}).
  assert (Hw' : settled {| state := with_run (Some d) runId (state w);
                           next_ref := S (next_ref w); pending := pending w |}).
  { exists md, base, d. cbn. repeat split; auto; try lia. intros; contradiction. }
  destruct dom_render; exact Hw'.
Qed.

Lemma step_settled (debug : bool) (w : World) (e : event) :
  settled w → settled (fst (fst (step debug w e))).
Proof.
  intros Hw. destruct e; cbn [step].
  - unfold onParameterChange.
    destruct dom_reset; [| exact Hw].
    destruct (Config.determineRunMapping debug paramName paramValueStr) as [mapping runId].
    destruct (String.eqb_spec runId "run_0") as [-> | Hne].
    + destruct dom_show; [| exact Hw].
      destruct dom_render; cbn [fst]; apply settled_base_view, Hw.
    + destruct (negb (bool_decide (currentRun (state w) = Some runId)));
        [| exact Hw].
      destruct dom_show; cbn [fst]; [| exact Hw].
      apply settled_pending; [exact Hw |].
      destruct Hw as (md & base & alt & _ & _ & _ & _ & _ & _ & _ & _ & _ & Hp).
      apply Forall_app. split; [exact Hp |]. constructor; [exact Hne | constructor].
  - destruct (pending w !! k) as [runId |] eqn:Hk; [| exact Hw].
    assert (Hp : Forall (fun r => r ≠ "run_0") (pending w)).
    { destruct Hw as (md & base & alt & _ & _ & _ & _ & _ & _ & _ & _ & _ & Hp).
      exact Hp. }
    apply resume_settled.
    + apply settled_pending; [exact Hw |]. apply Forall_delete, Hp.
    + exact (Forall_lookup_1 _ _ _ _ Hp Hk).
  - cbn [fst]. apply settled_region_filter; [exact Hw | reflexivity ..].
  - cbn [fst]. apply settled_region_filter; [exact Hw | reflexivity ..].
Qed.

Lemma run_settled (debug : bool) (es : list event) (w : World) :
  settled w → settled (run debug w es).
Proof.
  unfold run. revert w. induction es as [| e es IH]; intros w Hw; [exact Hw |].
  cbn [fold_left]. apply IH, step_settled, Hw.
Qed.

(** C3 (as amended).  When the metadata names run_0 as base run (the
    identifier the handlers and the run table use for the base run, and
    the one the resolution answers for the default configuration), then
    after [init]
    and any sequence of handler runs (radio changes, settled loads in any
    order and with any outcome, region and filter changes, with or without
    exceptions from the chart updates) the comparison state is consistent:
    the alternate dataset is the object parsed from the file of the
    current run, and when the current run is the base run it is the very
    object held as base dataset.  Every further handler run ends in a
    consistent state again. *)
Theorem comparison_state_consistent
    (debug : bool) (md : Metadata) (data : RunData) (colours : gmap string string)
    (dom_render : completion unit) (es : list event) :
  base_run md = "run_0" →
  let w := run debug (fst (init (Fetched md) (Fetched data) (Fetched colours) dom_render))
               es in
  consistent w ∧ ∀ e, consistent (fst (fst (step debug w e))).
Proof.
  intros Hrun w.
  assert (Hw : settled w) by (apply run_settled, init_settled, Hrun).
  split; [apply settled_consistent, Hw |].
  intros e. apply settled_consistent, step_settled, Hw.
Qed.

Lemma comparison_state_consistent_witness :
  let w := run Config.DEBUG
             (fst (init (Fetched sankeyMetadata) (Fetched sankeyBaseData)
                        (Fetched ∅) (Normal tt)))
             sampleSession in
  consistent w ∧ ∀ e, consistent (fst (fst (step Config.DEBUG w e))).
Proof.
  exact (comparison_state_consistent Config.DEBUG sankeyMetadata sankeyBaseData ∅
           (Normal tt) sampleSession eq_refl).
Defined.

(** C3 as stated fails when the metadata names another run as base run,
    here run_1.  [init] loads the file of run_1 as base dataset.  When the
    default of a parameter is then selected, the handler sets the current
    run to run_0 and the alternate dataset to the base dataset, which is
    that of run_1.  When run_2 and then run_1 are selected and their files
    arrive, the current run is the base run of the metadata while the
    alternate dataset is a second object parsed from the same file, not the
    base dataset. *)
Lemma comparison_state_needs_run_0_as_base :
  let page := fst (init (Fetched otherBaseMetadata) (Fetched sankeyBaseData)
                        (Fetched ∅) (Normal tt)) in
  let select token :=
    ParameterChange "inefficiency" token (Normal tt) (Normal tt) (Normal tt) in
  let defaults := run Config.DEBUG page [select "0.1"] in
  let reloaded :=
    run Config.DEBUG page
      [select "1.0"; FetchSettled 0 (Fetched otherRunData) (Normal tt);
       select "0.5"; FetchSettled 0 (Fetched sankeyBaseData) (Normal tt)] in
  consistent page
  ∧ base_run <$> metadata (state defaults) = Some "run_1"
  ∧ currentRun (state defaults) = Some "run_0"
  ∧ source <$> altData (state defaults) = Some "run_1"
  ∧ ¬ consistent defaults
  ∧ base_run <$> metadata (state reloaded) = Some "run_1"
  ∧ currentRun (state reloaded) = Some "run_1"
  ∧ altData (state reloaded) ≠ baseData (state reloaded)
  ∧ ¬ consistent reloaded.
Proof.
  intros page select defaults reloaded.
  assert (D1 : currentRun (state defaults) = Some "run_0") by (vm_compute; reflexivity).
  assert (D2 : source <$> altData (state defaults) = Some "run_1")
    by (vm_compute; reflexivity).
  assert (R0 : base_run <$> metadata (state reloaded) = Some "run_1")
    by (vm_compute; reflexivity).
  assert (R1 : currentRun (state reloaded) = Some "run_1") by (vm_compute; reflexivity).
  assert (R2 : ref <$> altData (state reloaded) = Some 3%nat)
    by (vm_compute; reflexivity).
  assert (R3 : ref <$> baseData (state reloaded) = Some 0%nat)
    by (vm_compute; reflexivity).
  assert (R4 : source <$> altData (state reloaded) = Some "run_1")
    by (vm_compute; reflexivity).
  assert (Hne : altData (state reloaded) ≠ baseData (state reloaded)).
  { intros Heq. rewrite Heq, R3 in R2. discriminate R2. }
  split.
  { exists otherBaseMetadata,
      {| ref := 0; source := "run_1"; content := sankeyBaseData |},
      {| ref := 0; source := "run_1"; content := sankeyBaseData |}.
    repeat split; cbn; auto. }
  split; [vm_compute; reflexivity |].
  split; [exact D1 |]. split; [exact D2 |].
  split.
  { intros (md & base & alt & _ & _ & _ & Halt & Hcur & _).
    rewrite Halt in D2. cbn in D2. rewrite Hcur in D1. congruence. }
  split; [exact R0 |]. split; [exact R1 |]. split; [exact Hne |].
  intros (md & base & alt & Hmd & Hbase & _ & Halt & _ & Hsame & _).
  rewrite Hmd in R0. rewrite Halt in R4. cbn in R0, R4.
  apply Hne. rewrite Halt, Hbase. f_equal. apply Hsame. congruence.
Qed.

End ComparisonState.

(** ** Fetch failures *)

Section FetchFailure.

Lemma world_eta (w : Dashboard.World) :
  {| Dashboard.state := Dashboard.state w; Dashboard.next_ref := Dashboard.next_ref w;
     Dashboard.pending := Dashboard.pending w |} = w.
Proof. destruct w; reflexivity. Qed.

(** The continuation of [onParameterChange] after a failed fetch. *)
Lemma resume_failed (debug : bool) (runId : string) (result : fetched Dashboard.RunData)
                    (err : string) (dom_render : completion unit) (w : Dashboard.World) :
  loadJSON result = Throw err →
  Dashboard.onParameterChange_resume debug runId result dom_render w
  = (w, Dashboard.load_failed runId, Normal tt).
Proof. intros H. unfold Dashboard.onParameterChange_resume. rewrite H. reflexivity. Qed.

(** A run selection whose fetch fails ends in the world it started from. *)
Lemma selectRun_failed (debug : bool) (paramName paramValueStr : string)
    (dom_reset dom_show dom_render : completion unit)
    (result : fetched Dashboard.RunData) (err : string) (w : Dashboard.World) :
  loadJSON result = Throw err →
  (length (Dashboard.pending w)
   < length (Dashboard.pending
               (fst (fst (Dashboard.onParameterChange debug paramName paramValueStr
                            dom_reset dom_show dom_render w)))))%nat →
  ∃ eff runId,
    Dashboard.selectRun debug paramName paramValueStr dom_reset dom_show dom_render
                        result w
    = (w, (eff ++ Dashboard.load_failed runId)%list, Normal tt).
Proof.
  intros Hfail. unfold Dashboard.selectRun, Dashboard.onParameterChange.
  destruct dom_reset; [| cbn; lia].
  destruct (Config.determineRunMapping debug paramName paramValueStr) as [mapping runId].
  destruct (String.eqb runId "run_0").
  { destruct dom_show; [| cbn; lia]. destruct dom_render; cbn; lia. }
  destruct (negb (bool_decide (Dashboard.currentRun (Dashboard.state w) = Some runId)));
    [| cbn; lia].
  destruct dom_show; [| cbn; lia].
  cbn [fst Dashboard.pending]. intros Hgrow.
  apply Nat.ltb_lt in Hgrow. rewrite Hgrow.
  cbn [Dashboard.step Dashboard.pending Dashboard.state Dashboard.next_ref].
  rewrite list_lookup_middle by reflexivity.
  rewrite (resume_failed _ _ _ err) by exact Hfail.
  rewrite delete_middle, app_nil_r, world_eta.
  eexists _, runId. reflexivity.
Qed.

(** C5. A run selection that starts a fetch of a run dataset which then
    fails (the network, the status or the JSON) ends in the very world it
    started from, so neither the alternate dataset nor the current run has
    changed; it completes normally, and it has alerted "Failed to load
    data for" that run.  The same holds for the settling of any pending
    load on its own.  A geometry load whose fetch fails leaves the
    viewer's world as it was, logs the error, shows the no-data block for
    the run and returns false. *)
Theorem fetch_failure_leaves_state_unchanged :
  (∀ debug paramName paramValueStr dom_reset dom_show dom_render
     (result : fetched Dashboard.RunData) err (w : Dashboard.World),
     loadJSON result = Throw err →
     (length (Dashboard.pending w)
      < length (Dashboard.pending
                  (fst (fst (Dashboard.onParameterChange debug paramName paramValueStr
                               dom_reset dom_show dom_render w)))))%nat →
     ∃ eff runId,
       Dashboard.selectRun debug paramName paramValueStr dom_reset dom_show dom_render
                           result w
       = (w, eff, Normal tt)
       ∧ In (Alert ("Failed to load data for " ++ runId)) eff)
  ∧ (∀ debug (w : Dashboard.World) k (result : fetched Dashboard.RunData) err dom_render,
       loadJSON result = Throw err →
       let r := Dashboard.step debug w (Dashboard.FetchSettled k result dom_render) in
       Dashboard.state (fst (fst r)) = Dashboard.state w
       ∧ snd r = Normal tt
       ∧ ∀ runId, Dashboard.pending w !! k = Some runId →
                  In (Alert ("Failed to load data for " ++ runId)) (snd (fst r)))
  ∧ (∀ hslToRgb container runId (result : fetched SpatialViewer.CellsFile) err
       (w : SpatialViewer.World),
       loadJSON result = Throw err →
       SpatialViewer.loadRunData hslToRgb container runId result w
       = (w, [SpatialViewer.Error ("Failed to load spatial data for " ++ runId);
              SpatialViewer.NoData runId], false)).
Proof.
  split; [| split].
  - intros debug paramName paramValueStr dom_reset dom_show dom_render result err w
           Hfail Hgrow.
    destruct (selectRun_failed debug paramName paramValueStr dom_reset dom_show
                dom_render result err w Hfail Hgrow) as (eff & runId & Heq).
    exists (eff ++ Dashboard.load_failed runId)%list, runId.
    split; [exact Heq |].
    apply in_or_app. right. right. left. reflexivity.
  - intros debug w k result err dom_render Hfail r. subst r.
    cbn [Dashboard.step].
    destruct (Dashboard.pending w !! k) as [runId |] eqn:Hk.
    + rewrite (resume_failed _ _ _ err) by exact Hfail. cbn [fst snd Dashboard.state].
      split; [reflexivity |]. split; [reflexivity |].
      intros runId' [= <-]. right. left. reflexivity.
    + cbn [fst snd]. split; [reflexivity |]. split; [reflexivity |].
      intros runId' H. discriminate.
  - intros hslToRgb container runId result err w Hfail.
    unfold SpatialViewer.loadRunData. rewrite Hfail. reflexivity.
Qed.

Lemma fetch_failure_leaves_state_unchanged_witness :
  ∃ eff runId,
    Dashboard.selectRun Config.DEBUG "inefficiency" "0.5" (Normal tt) (Normal tt)
                        (Normal tt) NetworkError sankeyWorld
    = (sankeyWorld, eff, Normal tt)
    ∧ In (Alert ("Failed to load data for " ++ runId)) eff.
Proof.
  apply (proj1 fetch_failure_leaves_state_unchanged Config.DEBUG "inefficiency" "0.5"
           (Normal tt) (Normal tt) (Normal tt) NetworkError
           "TypeError: Failed to fetch" sankeyWorld).
  - reflexivity.
  - vm_compute. lia.
Defined.

End FetchFailure.

(* ================================================================== *)
(** * Further properties *)

(** ** The stable descending sort *)

Section SortDescFacts.

Import Charts.

Context {A : Type} (weight : A -> Z).

Lemma insertDesc_perm (e : A) (l : list A) :
  Permutation (insertDesc weight e l) (e :: l).
Proof.
  induction l as [| h t IH]; cbn [insertDesc]; [reflexivity |].
  destruct (weight e <? weight h)%Z; [| reflexivity].
  rewrite IH. apply perm_swap.
Qed.

Lemma sortDesc_perm (l : list A) : Permutation (sortDesc weight l) l.
Proof.
  induction l as [| e l IH]; cbn [sortDesc fold_right]; [reflexivity |].
  rewrite insertDesc_perm. constructor. exact IH.
Qed.

Lemma insertDesc_sorted (e : A) (l : list A) :
  StronglySorted (above weight) l → StronglySorted (above weight) (insertDesc weight e l).
Proof.
  induction l as [| h t IH]; cbn [insertDesc]; intros Hs.
  - constructor; [constructor | constructor].
  - inversion Hs as [| ? ? Ht Hh]; subst.
    destruct (weight e <? weight h)%Z eqn:Hlt.
    + apply Z.ltb_lt in Hlt. constructor; [apply IH, Ht |].
      apply (Permutation_Forall (Permutation_sym (insertDesc_perm e t))).
      constructor; [unfold above; lia | exact Hh].
    + apply Z.ltb_ge in Hlt. constructor; [exact Hs |].
      constructor; [exact Hlt |].
      eapply Forall_impl; [exact Hh |]. unfold above. intros; lia.
Qed.

Lemma sortDesc_sorted (l : list A) : StronglySorted (above weight) (sortDesc weight l).
Proof.
  induction l as [| e l IH]; cbn [sortDesc fold_right]; [constructor |].
  apply insertDesc_sorted, IH.
Qed.

(** Entries of one weight keep their order. *)
Lemma insertDesc_stable (v : Z) (e : A) (l : list A) :
  List.filter (fun a => (weight a =? v)%Z) (insertDesc weight e l)
  = List.filter (fun a => (weight a =? v)%Z) (e :: l).
Proof.
  induction l as [| h t IH]; cbn [insertDesc]; [reflexivity |].
  destruct (weight e <? weight h)%Z eqn:Hlt; [| reflexivity].
  apply Z.ltb_lt in Hlt. cbn [List.filter] in *. rewrite IH.
  destruct (weight h =? v)%Z eqn:Hh, (weight e =? v)%Z eqn:He; try reflexivity.
  apply Z.eqb_eq in Hh, He. lia.
Qed.

Lemma sortDesc_stable (v : Z) (l : list A) :
  List.filter (fun a => (weight a =? v)%Z) (sortDesc weight l)
  = List.filter (fun a => (weight a =? v)%Z) l.
Proof.
  induction l as [| e l IH]; cbn [sortDesc fold_right]; [reflexivity |].
  rewrite insertDesc_stable. cbn [List.filter]. fold (sortDesc weight l).
  rewrite IH. reflexivity.
Qed.

Lemma sorted_split (l1 l2 : list A) :
  StronglySorted (above weight) (l1 ++ l2) →
  ∀ a b, In a l1 → In b l2 → (weight b <= weight a)%Z.
Proof.
  induction l1 as [| h t IH]; cbn [app]; intros Hs a b Ha Hb; [destruct Ha |].
  inversion Hs as [| ? ? Ht Hh]; subst.
  destruct Ha as [<- | Ha]; [| exact (IH Ht a b Ha Hb)].
  rewrite Forall_forall in Hh. apply Hh. apply list_elem_of_In, in_or_app. right.
  exact Hb.
Qed.

Lemma sorted_map_weight (l : list A) :
  StronglySorted (above weight) l → StronglySorted (fun x y => (y <= x)%Z) (map weight l).
Proof.
  induction 1 as [| h t Ht IH Hh]; cbn [map]; constructor; [exact IH |].
  apply Forall_map. exact Hh.
Qed.

Lemma sorted_take (n : nat) (l : list A) :
  StronglySorted (above weight) l → StronglySorted (above weight) (take n l).
Proof.
  revert n. induction l as [| h t IH]; intros n Hs; destruct n; cbn; try constructor.
  - inversion Hs; subst. apply IH. assumption.
  - inversion Hs as [| ? ? Ht Hh]; subst. apply Forall_take. exact Hh.
Qed.

End SortDescFacts.

(** ** Chart projections of the dashboard *)

Section ChartsFacts.

Import Dashboard Charts.

Lemma combine_fst_snd {A B : Type} (l : list (A * B)) :
  combine (map fst l) (map snd l) = l.
Proof. induction l as [| [a b] l IH]; cbn; [reflexivity | rewrite IH; reflexivity]. Qed.

Lemma filter_take_drop {A : Type} (p : A → bool) (n : nat) (l : list A) :
  List.filter p l = (List.filter p (take n l) ++ List.filter p (drop n l))%list.
Proof. rewrite <- List.filter_app, take_drop. reflexivity. Qed.

(** X1. The counts bar chart shows the 15 largest entries (all of them
    when there are fewer), largest first: the bars are in descending order
    of count, the entries left out are no larger than any bar, entries with
    equal counts keep the order they have in the dataset, and each bar is
    coloured by [getCellColor] of its label. *)
Theorem renderBarChart_top15 (scheme : option (gmap string string))
                             (counts : list (string * Z)) :
  let chart := renderBarChart scheme counts in
  let kept := combine (bar_x chart) (bar_y chart) in
  length (bar_x chart) = Nat.min 15 (length counts)
  ∧ length (bar_y chart) = length (bar_x chart)
  ∧ bar_color chart = map (getCellColor scheme) (bar_x chart)
  ∧ StronglySorted (fun a b => (b <= a)%Z) (bar_y chart)
  ∧ (∃ dropped, Permutation counts (kept ++ dropped)
                ∧ ∀ d v, In d dropped → In v (bar_y chart) → (snd d <= v)%Z)
  ∧ (∀ v, ∃ later,
       List.filter (fun e => (snd e =? v)%Z) counts
       = (List.filter (fun e => (snd e =? v)%Z) kept ++ later)%list).
Proof.
  intros chart kept. subst chart kept. unfold renderBarChart.
  cbn [bar_x bar_y bar_color]. rewrite combine_fst_snd.
  set (sorted := sortDesc snd counts).
  assert (Hperm : Permutation sorted counts) by apply sortDesc_perm.
  assert (Hsorted : StronglySorted (fun a b => (snd b <= snd a)%Z) sorted)
    by apply sortDesc_sorted.
  split.
  { rewrite length_map, length_take. rewrite (Permutation_length Hperm). reflexivity. }
  split; [rewrite !length_map; reflexivity |].
  split; [reflexivity |].
  split; [apply (sorted_map_weight snd), sorted_take, Hsorted |].
  split.
  { exists (drop 15 sorted). rewrite take_drop. split; [symmetry; exact Hperm |].
    intros d v Hd Hv. apply in_map_iff in Hv. destruct Hv as (e & <- & He).
    rewrite <- (take_drop 15 sorted) in Hsorted.
    exact (sorted_split snd _ _ Hsorted e d He Hd). }
  intros v. exists (List.filter (fun e => (snd e =? v)%Z) (drop 15 sorted)).
  rewrite <- filter_take_drop. symmetry. apply (sortDesc_stable snd).
Qed.

End ChartsFacts.

(** ** Escaping *)

Section Escaping.

Import Charts.

Lemma string_append_assoc (s1 s2 s3 : string) :
  (s1 ++ (s2 ++ s3) = (s1 ++ s2) ++ s3)%string.
Proof.
  induction s1 as [| a s1 IH]; [reflexivity |].
  change (String a (s1 ++ (s2 ++ s3)) = String a ((s1 ++ s2) ++ s3))%string.
  f_equal. exact IH.
Qed.

Lemma replaceAll_app (c : ascii) (by_ s1 s2 : string) :
  replaceAll c by_ (s1 ++ s2) = (replaceAll c by_ s1 ++ replaceAll c by_ s2)%string.
Proof.
  induction s1 as [| a s1 IH]; [reflexivity |].
  change (String a s1 ++ s2)%string with (String a (s1 ++ s2)).
  cbn [replaceAll]. rewrite IH.
  destruct (Ascii.eqb a c); [| reflexivity].
  apply string_append_assoc.
Qed.

(** The five replacements in a row write what a single pass would: the
    ampersands the later ones add are never replaced again. *)
Lemma escapeHTML_single_pass (s : string) : escapeHTML (Some s) = escapeOnce s.
Proof.
  unfold escapeHTML. induction s as [| a s IH]; [reflexivity |].
  cbn [escapeOnce]. rewrite <- IH. unfold escapeChar.
  cbn [replaceAll].
  destruct (Ascii.eqb_spec a "&") as [-> | Hamp].
  { rewrite !replaceAll_app. reflexivity. }
  cbn [replaceAll].
  destruct (Ascii.eqb_spec a "<") as [-> | Hlt].
  { rewrite !replaceAll_app. reflexivity. }
  cbn [replaceAll].
  destruct (Ascii.eqb_spec a ">") as [-> | Hgt].
  { rewrite !replaceAll_app. reflexivity. }
  cbn [replaceAll].
  destruct (Ascii.eqb_spec a "034") as [-> | Hq].
  { rewrite !replaceAll_app. reflexivity. }
  cbn [replaceAll].
  destruct (Ascii.eqb_spec a "'") as [-> | Hap]; reflexivity.
Qed.

Lemma escapeChar_cases (a : ascii) :
  (a = "&"%char ∧ escapeChar a = "&amp;")
  ∨ (a = "<"%char ∧ escapeChar a = "&lt;")
  ∨ (a = ">"%char ∧ escapeChar a = "&gt;")
  ∨ (a = "034"%char ∧ escapeChar a = "&quot;")
  ∨ (a = "'"%char ∧ escapeChar a = "&#039;")
  ∨ (a ≠ "&"%char ∧ isMarkup a = false ∧ escapeChar a = String a EmptyString).
Proof.
  unfold escapeChar, isMarkup.
  destruct (Ascii.eqb_spec a "&") as [-> | Hamp]; [tauto |].
  destruct (Ascii.eqb_spec a "<") as [-> | Hlt]; [tauto |].
  destruct (Ascii.eqb_spec a ">") as [-> | Hgt]; [tauto |].
  destruct (Ascii.eqb_spec a "034") as [-> | Hq]; [tauto |].
  destruct (Ascii.eqb_spec a "'") as [-> | Hap]; [tauto |].
  do 5 right. auto.
Qed.

Lemma occurs_app (p : ascii → bool) (s1 s2 : string) :
  occurs p (s1 ++ s2) = occurs p s1 || occurs p s2.
Proof.
  induction s1 as [| a s1 IH]; [reflexivity |].
  change (String a s1 ++ s2)%string with (String a (s1 ++ s2)).
  cbn [occurs]. rewrite IH, orb_assoc. reflexivity.
Qed.

(** X2. Whatever the string, the text [escapeHTML] returns holds none of
    the characters less-than, greater-than, double quote and apostrophe;
    for [null] and [undefined] it is the empty string. *)
Theorem escapeHTML_markup_free (s : string) :
  occurs isMarkup (escapeHTML (Some s)) = false ∧ escapeHTML None = EmptyString.
Proof.
  split; [| reflexivity].
  rewrite escapeHTML_single_pass.
  induction s as [| a s IH]; [reflexivity |].
  cbn [escapeOnce]. rewrite occurs_app, IH, orb_false_r.
  destruct (escapeChar_cases a)
    as [[_ ->] | [[_ ->] | [[_ ->] | [[_ ->] | [[_ ->] | (_ & Hm & ->)]]]]];
    try reflexivity.
  cbn [occurs]. rewrite Hm. reflexivity.
Qed.

Lemma escapeOnce_injective (s t : string) : escapeOnce s = escapeOnce t → s = t.
Proof.
  revert t. induction s as [| a s IH]; intros [| b t]; cbn [escapeOnce].
  - reflexivity.
  - destruct (escapeChar_cases b)
      as [[_ ->] | [[_ ->] | [[_ ->] | [[_ ->] | [[_ ->] | (_ & _ & ->)]]]]];
      discriminate.
  - destruct (escapeChar_cases a)
      as [[_ ->] | [[_ ->] | [[_ ->] | [[_ ->] | [[_ ->] | (_ & _ & ->)]]]]];
      discriminate.
  - destruct (escapeChar_cases a)
      as [[-> ->] | [[-> ->] | [[-> ->] | [[-> ->] | [[-> ->] | (Ha & _ & ->)]]]]];
    destruct (escapeChar_cases b)
      as [[-> ->] | [[-> ->] | [[-> ->] | [[-> ->] | [[-> ->] | (Hb & _ & ->)]]]]];
    cbn [String.append]; intros H;
    try discriminate H;
    try (injection H as H; f_equal; apply IH; exact H);
    try (injection H as Hc H; congruence).
    injection H as Hc H. subst b. f_equal. apply IH. exact H.
Qed.

(** X3. [escapeHTML] loses nothing: two strings with the same escaped text
    are the same string. *)
Theorem escapeHTML_injective (s t : string) :
  escapeHTML (Some s) = escapeHTML (Some t) → s = t.
Proof. rewrite !escapeHTML_single_pass. apply escapeOnce_injective. Qed.

Lemma escapeHTML_injective_witness :
  "<b>Tom & 'Jerry'</b>" = "<b>Tom & 'Jerry'</b>".
Proof. exact (escapeHTML_injective _ _ eq_refl). Defined.

End Escaping.

(** ** Hexadecimal colours *)

Section HexColours.

Import Charts.

Lemma hexDigits_value (c : ascii) :
  In c hexDigits →
  SpatialViewer.hexdigit_of c = Some (hexValue c) ∧ (0 <= hexValue c <= 15)%Z.
Proof.
  unfold hexDigits. cbn [list_ascii_of_string].
  intros H. repeat (destruct H as [<- | H]; [vm_compute; intuition discriminate |]).
  destruct H.
Qed.

Lemma take_sign_plain (c : ascii) (l : list ascii) :
  c ≠ "-"%char → c ≠ "+"%char → JSNumber.take_sign (c :: l) = (false, c :: l).
Proof.
  intros H1 H2. destruct c as [b0 b1 b2 b3 b4 b5 b6 b7].
  destruct b0, b1, b2, b3, b4, b5, b6, b7; try reflexivity; congruence.
Qed.

Lemma skip0x_plain (c1 c2 : ascii) (l : list ascii) :
  c2 ≠ "x"%char → c2 ≠ "X"%char →
  match c1 :: c2 :: l with
  | "0"%char :: "x"%char :: rest => rest
  | "0"%char :: "X"%char :: rest => rest
  | _ => c1 :: c2 :: l
  end = c1 :: c2 :: l.
Proof.
  intros H1 H2. destruct (ascii_dec c1 "0") as [-> | Hne].
  - destruct c2 as [b0 b1 b2 b3 b4 b5 b6 b7].
    destruct b0, b1, b2, b3, b4, b5, b6, b7; try reflexivity; congruence.
  - destruct c1 as [b0 b1 b2 b3 b4 b5 b6 b7].
    destruct b0, b1, b2, b3, b4, b5, b6, b7; try reflexivity; congruence.
Qed.

Lemma hexDigits_plain (c : ascii) :
  In c hexDigits →
  JSNumber.is_space c = false ∧ c ≠ "-"%char ∧ c ≠ "+"%char
  ∧ c ≠ "x"%char ∧ c ≠ "X"%char.
Proof.
  unfold hexDigits. cbn [list_ascii_of_string].
  intros H. repeat (destruct H as [<- | H]; [repeat split; discriminate |]).
  destruct H.
Qed.

Lemma parseInt16_digits (c1 c2 : ascii) (s : string) :
  In c1 hexDigits → In c2 hexDigits →
  SpatialViewer.parseInt16 (String c1 (String c2 s))
  = SpatialViewer.take_hex (list_ascii_of_string s)
      (Some (16 * hexValue c1 + hexValue c2)%Z).
Proof.
  intros H1 H2.
  destruct (hexDigits_value c1 H1) as [Hd1 _].
  destruct (hexDigits_value c2 H2) as [Hd2 _].
  destruct (hexDigits_plain c1 H1) as (Hsp & Hm & Hp & _).
  destruct (hexDigits_plain c2 H2) as (_ & _ & _ & Hx & HX).
  unfold SpatialViewer.parseInt16. cbn [list_ascii_of_string JSNumber.drop_spaces].
  rewrite Hsp, (take_sign_plain _ _ Hm Hp), (skip0x_plain _ _ _ Hx HX).
  cbn [SpatialViewer.take_hex]. rewrite Hd1, Hd2.
  cbn [default from_option Datatypes.id].
  replace (16 * 0 + hexValue c1)%Z with (hexValue c1) by lia.
  destruct (SpatialViewer.take_hex _ _); reflexivity.
Qed.

Lemma take_hex_cons (c : ascii) (l : list ascii) (a : Z) :
  In c hexDigits →
  SpatialViewer.take_hex (c :: l) (Some a)
  = SpatialViewer.take_hex l (Some (16 * a + hexValue c)%Z).
Proof.
  intros H. destruct (hexDigits_value c H) as [Hd _].
  cbn [SpatialViewer.take_hex]. rewrite Hd. reflexivity.
Qed.

Lemma land_255 (a : Z) : Z.land a 255 = (a mod 256)%Z.
Proof. change 255%Z with (Z.ones 8). rewrite Z.land_ones by lia. reflexivity. Qed.

Lemma channels_of_six (v1 v2 v3 v4 v5 v6 : Z) :
  (0 <= v1 <= 15 → 0 <= v2 <= 15 → 0 <= v3 <= 15 →
   0 <= v4 <= 15 → 0 <= v5 <= 15 → 0 <= v6 <= 15 →
   let n := 16 * (16 * (16 * (16 * (16 * v1 + v2) + v3) + v4) + v5) + v6 in
   Z.land (Z.shiftr n 16) 255 = 16 * v1 + v2
   ∧ Z.land (Z.shiftr n 8) 255 = 16 * v3 + v4
   ∧ Z.land n 255 = 16 * v5 + v6)%Z.
Proof.
  intros. subst n. rewrite !land_255, !Z.shiftr_div_pow2 by lia.
  change (2 ^ 16)%Z with 65536%Z. change (2 ^ 8)%Z with 256%Z.
  repeat split; Z.div_mod_to_equations; lia.
Qed.

(** X4. A colour written as six hexadecimal digits, with or without the
    leading [#], is decoded by the viewer's [hexToRgb] into its three
    bytes: red from the first two digits, green from the next two, blue
    from the last two.  The three channels [hexToRgba] parses from the
    same text are the same numbers. *)
Theorem hexToRgb_decodes (c1 c2 c3 c4 c5 c6 : ascii) :
  In c1 hexDigits → In c2 hexDigits → In c3 hexDigits →
  In c4 hexDigits → In c5 hexDigits → In c6 hexDigits →
  let rgb := (16 * hexValue c1 + hexValue c2, 16 * hexValue c3 + hexValue c4,
              16 * hexValue c5 + hexValue c6)%Z in
  SpatialViewer.hexToRgb (String "#" (hex6 c1 c2 c3 c4 c5 c6)) = rgb
  ∧ SpatialViewer.hexToRgb (hex6 c1 c2 c3 c4 c5 c6) = rgb
  ∧ hexChannels (String "#" (hex6 c1 c2 c3 c4 c5 c6))
     = (Some (fst (fst rgb)), Some (snd (fst rgb)), Some (snd rgb)).
Proof.
  intros H1 H2 H3 H4 H5 H6 rgb.
  assert (Hparse : SpatialViewer.parseInt16 (hex6 c1 c2 c3 c4 c5 c6)
                   = Some (16 * (16 * (16 * (16 * (16 * hexValue c1 + hexValue c2)
                             + hexValue c3) + hexValue c4) + hexValue c5) + hexValue c6)%Z).
  { unfold hex6. rewrite parseInt16_digits by assumption.
    cbn [list_ascii_of_string]. rewrite !take_hex_cons by assumption. reflexivity. }
  destruct (hexDigits_value c1 H1) as [_ B1]. destruct (hexDigits_value c2 H2) as [_ B2].
  destruct (hexDigits_value c3 H3) as [_ B3]. destruct (hexDigits_value c4 H4) as [_ B4].
  destruct (hexDigits_value c5 H5) as [_ B5]. destruct (hexDigits_value c6 H6) as [_ B6].
  destruct (channels_of_six _ _ _ _ _ _ B1 B2 B3 B4 B5 B6) as (Hr & Hg & Hb).
  assert (Hplain : SpatialViewer.hexToRgb (hex6 c1 c2 c3 c4 c5 c6) = rgb).
  { unfold SpatialViewer.hexToRgb.
    assert (Hdrop : SpatialViewer.dropHash (hex6 c1 c2 c3 c4 c5 c6)
                    = hex6 c1 c2 c3 c4 c5 c6).
    { unfold hex6, SpatialViewer.dropHash.
      destruct (ascii_dec c1 "#") as [-> | Hne].
      - exfalso. clear - H1. unfold hexDigits in H1. cbn in H1.
        repeat (destruct H1 as [H1 | H1]; [discriminate |]). destruct H1.
      - destruct c1 as [b0 b1 b2 b3 b4 b5 b6 b7].
        destruct b0, b1, b2, b3, b4, b5, b6, b7; try reflexivity; congruence. }
    rewrite Hdrop, Hparse. cbn [default from_option Datatypes.id].
    rewrite Hr, Hg, Hb. reflexivity. }
  split; [| split; [exact Hplain |]].
  - unfold SpatialViewer.hexToRgb.
    change (SpatialViewer.dropHash (String "#" (hex6 c1 c2 c3 c4 c5 c6)))
      with (hex6 c1 c2 c3 c4 c5 c6).
    rewrite Hparse. cbn [default from_option Datatypes.id].
    rewrite Hr, Hg, Hb. reflexivity.
  - unfold hexChannels. cbn [removeFirstHash Ascii.eqb Bool.eqb].
    unfold hex6. cbn [String.length Nat.eqb substring].
    rewrite !parseInt16_digits by assumption. cbn [list_ascii_of_string SpatialViewer.take_hex].
    reflexivity.
Qed.

Lemma hexToRgb_decodes_witness :
  SpatialViewer.hexToRgb "#d62728" = (214, 39, 40)%Z
  ∧ SpatialViewer.hexToRgb "d62728" = (214, 39, 40)%Z
  ∧ hexChannels "#d62728" = (Some 214, Some 39, Some 40)%Z.
Proof.
  apply (hexToRgb_decodes "d" "6" "2" "7" "2" "8");
    unfold hexDigits; cbn [list_ascii_of_string In]; tauto.
Defined.

(** X5. Whatever text it is given, [hexToRgb] returns three numbers
    between 0 and 255; a text that does not start with a hexadecimal
    number (after an optional [#]) gives black. *)
Theorem hexToRgb_in_range (hex : string) :
  let '(r, g, b) := SpatialViewer.hexToRgb hex in
  ((0 <= r <= 255) ∧ (0 <= g <= 255) ∧ (0 <= b <= 255))%Z
  ∧ (SpatialViewer.parseInt16 (SpatialViewer.dropHash hex) = None →
     (r, g, b) = (0, 0, 0)%Z).
Proof.
  unfold SpatialViewer.hexToRgb. rewrite !land_255.
  split.
  - repeat split; try (apply Z.mod_pos_bound; lia);
      match goal with
      | |- (?a mod 256 <= 255)%Z => pose proof (Z.mod_pos_bound a 256); lia
      end.
  - intros ->. reflexivity.
Qed.

(** X6. The two decoders disagree on the three-digit shorthand:
    [hexToRgba] doubles each digit first, so each channel is 17 times its
    digit, while the viewer's [hexToRgb] reads the three digits as one
    number, which gives no red, the first digit as green and the other
    two as blue. *)
Theorem hex_shorthand_read_differently (c1 c2 c3 : ascii) :
  In c1 hexDigits → In c2 hexDigits → In c3 hexDigits →
  let text := String "#" (String c1 (String c2 (String c3 EmptyString))) in
  hexChannels text
  = (Some (17 * hexValue c1), Some (17 * hexValue c2), Some (17 * hexValue c3))%Z
  ∧ SpatialViewer.hexToRgb text
    = (0, hexValue c1, 16 * hexValue c2 + hexValue c3)%Z.
Proof.
  intros H1 H2 H3 text. subst text.
  destruct (hexDigits_value c1 H1) as [_ B1]. destruct (hexDigits_value c2 H2) as [_ B2].
  destruct (hexDigits_value c3 H3) as [_ B3].
  split.
  - unfold hexChannels. cbn [removeFirstHash Ascii.eqb Bool.eqb].
    cbn [String.length Nat.eqb doubleChars substring].
    rewrite !parseInt16_digits by assumption.
    cbn [list_ascii_of_string SpatialViewer.take_hex].
    repeat f_equal; lia.
  - unfold SpatialViewer.hexToRgb.
    change (SpatialViewer.dropHash (String "#" ?x)) with x.
    rewrite parseInt16_digits by assumption.
    cbn [list_ascii_of_string]. rewrite take_hex_cons by assumption.
    cbn [SpatialViewer.take_hex default from_option Datatypes.id].
    rewrite !land_255, !Z.shiftr_div_pow2 by lia.
    change (2 ^ 16)%Z with 65536%Z. change (2 ^ 8)%Z with 256%Z.
    repeat f_equal; Z.div_mod_to_equations; lia.
Qed.

Lemma hex_shorthand_read_differently_witness :
  hexChannels "#fa0" = (Some 255, Some 170, Some 0)%Z
  ∧ SpatialViewer.hexToRgb "#fa0" = (0, 15, 160)%Z.
Proof.
  apply (hex_shorthand_read_differently "f" "a" "0");
    unfold hexDigits; cbn [list_ascii_of_string In]; tauto.
Defined.

End HexColours.

(** ** Purity chart and metrics table *)

Section PurityFacts.

Import Dashboard Charts.
#[local] Open Scope Q_scope.

Lemma foldQmin_spec (rest : list Q) (m0 : Q) :
  let m := fold_left Qmin rest m0 in
  m <= m0 ∧ ∀ v, In v rest → m <= v.
Proof.
  revert m0. induction rest as [| v rest IH]; intros m0; cbn [fold_left].
  - split; [apply Qle_refl | intros v []].
  - destruct (IH (Qmin m0 v)) as (Hle & Hall).
    split; [eapply Qle_trans; [exact Hle | apply Q.le_min_l] |].
    intros v' [<- | Hin]; [| apply Hall, Hin].
    eapply Qle_trans; [exact Hle | apply Q.le_min_r].
Qed.

Lemma foldQmax_spec (rest : list Q) (m0 : Q) :
  let m := fold_left Qmax rest m0 in
  m0 <= m ∧ ∀ v, In v rest → v <= m.
Proof.
  revert m0. induction rest as [| v rest IH]; intros m0; cbn [fold_left].
  - split; [apply Qle_refl | intros v []].
  - destruct (IH (Qmax m0 v)) as (Hle & Hall).
    split; [eapply Qle_trans; [apply Q.le_max_l | exact Hle] |].
    intros v' [<- | Hin]; [| apply Hall, Hin].
    eapply Qle_trans; [apply Q.le_max_r | exact Hle].
Qed.

Lemma minOf_le (values : list Q) (v : Q) : In v values → minOf values <= v.
Proof.
  destruct values as [| v0 rest]; [intros [] |]. cbn [minOf].
  destruct (foldQmin_spec rest v0) as (H0 & Hall).
  intros [<- | Hin]; [exact H0 | apply Hall, Hin].
Qed.

Lemma maxOf_ge (values : list Q) (v : Q) : In v values → v <= maxOf values.
Proof.
  destruct values as [| v0 rest]; [intros [] |]. cbn [maxOf].
  destruct (foldQmax_spec rest v0) as (H0 & Hall).
  intros [<- | Hin]; [exact H0 | apply Hall, Hin].
Qed.

Lemma mapM_length {A B : Type} (f : A → completion B) (l : list A) (bs : list B) :
  mapM f l = Normal bs → length bs = length l.
Proof.
  revert bs. induction l as [| a l IH]; intros bs; cbn [mapM].
  - intros [= <-]. reflexivity.
  - destruct (f a); [| discriminate]. destruct (mapM f l); [| discriminate].
    intros [= <-]. cbn. f_equal. apply IH. reflexivity.
Qed.

Lemma mapM_in {A B : Type} (f : A → completion B) (l : list A) (bs : list B) (b : B) :
  mapM f l = Normal bs → In b bs → ∃ a, In a l ∧ f a = Normal b.
Proof.
  revert bs. induction l as [| a l IH]; intros bs; cbn [mapM].
  - intros [= <-] [].
  - destruct (f a) as [b0 |] eqn:Hfa; [| discriminate].
    destruct (mapM f l) as [bs0 |]; [| discriminate].
    intros [= <-] [<- | Hin].
    + exists a. split; [left; reflexivity | exact Hfa].
    + destruct (IH bs0 eq_refl Hin) as (a' & Ha' & Hf). exists a'.
      split; [right; exact Ha' | exact Hf].
Qed.

Lemma mapM_throws {A B : Type} (f : A → completion B) (l : list A) (a : A) (e : string) :
  In a l → f a = Throw e → ∃ e', mapM f l = Throw e'.
Proof.
  induction l as [| a0 l IH]; [intros [] |]. cbn [mapM].
  intros [-> | Hin] Hf.
  - rewrite Hf. eauto.
  - destruct (f a0); [| eauto]. destruct (IH Hin Hf) as [e' ->]. eauto.
Qed.

(** X7. When the purity chart is drawn, it has four bars per series, and
    if every purity lies between 0 and 100 its y-axis range lies within
    0 and 100 and contains every bar.  When a region is missing from the
    base dataset the function raises instead. *)
Theorem renderPurityChart_range :
  (∀ (st : State) (chart : PurityChart),
     renderPurityChart st = Normal chart →
     length (baseValues chart) = 4%nat ∧ length (altValues chart) = 4%nat
     ∧ ((∀ v, In v (baseValues chart ++ altValues chart) → 0 <= v ∧ v <= 100) →
        0 <= yMin chart ∧ yMax chart <= 100
        ∧ ∀ v, In v (baseValues chart ++ altValues chart) →
               yMin chart <= v ∧ v <= yMax chart))
  ∧ (∀ (st : State) (base : Dataset) (region : string),
       baseData st = Some base → In region regionKeys →
       regions (content base) !! region = None →
       ∃ e, renderPurityChart st = Throw e).
Proof.
  split.
  - intros st chart. unfold renderPurityChart.
    destruct (mapM _ regionKeys) as [bases |] eqn:Hb; [| discriminate].
    destruct (mapM (purityOf (isHighGene st) (altData st)) regionKeys)
      as [alts |] eqn:Ha; [| discriminate].
    destruct (metadata st); [| discriminate].
    intros [= <-]. cbn [baseValues altValues yMin yMax].
    split; [exact (mapM_length _ _ _ Hb) |].
    split; [exact (mapM_length _ _ _ Ha) |].
    intros Hrange.
    set (all := (bases ++ alts)%list) in *.
    assert (Hspread : 0 <= maxOf all - minOf all).
    { assert (Hne : ∃ v, In v all).
      { pose proof (mapM_length _ _ _ Hb) as Hlen. destruct bases as [| v ?];
          [discriminate |]. exists v. left. reflexivity. }
      destruct Hne as [v Hv].
      pose proof (minOf_le all v Hv). pose proof (maxOf_ge all v Hv). Lqa.lra. }
    split; [apply Q.le_max_l |]. split; [apply Q.le_min_l |].
    intros v Hv. destruct (Hrange v Hv) as [H0 H100].
    pose proof (minOf_le all v Hv). pose proof (maxOf_ge all v Hv).
    split.
    + apply Q.max_lub; [exact H0 | Lqa.lra].
    + apply Q.min_glb; [exact H100 | Lqa.lra].
  - intros st base region Hbase Hin Hnone. unfold renderPurityChart.
    destruct (mapM_throws (purityOf (isHighGene st) (baseData st)) regionKeys region
                "TypeError" Hin) as [e ->]; [| eauto].
    unfold purityOf. rewrite Hbase, Hnone. reflexivity.
Qed.

Lemma classOfChange_neutral (c : Q) : c == 0 → classOfChange c = "neutral".
Proof.
  intros Hc. unfold classOfChange.
  assert (H1 : Qle_bool c 0 = true) by (apply Qle_bool_iff; Lqa.lra).
  assert (H2 : Qle_bool 0 c = true) by (apply Qle_bool_iff; Lqa.lra).
  rewrite H1, H2. reflexivity.
Qed.

Lemma classOfChange_cases (c : Q) :
  (0 < c ∧ classOfChange c = "positive")
  ∨ (c < 0 ∧ classOfChange c = "negative")
  ∨ (c == 0 ∧ classOfChange c = "neutral").
Proof.
  unfold classOfChange. destruct (Qle_bool c 0) eqn:H1; cbn [negb].
  - apply Qle_bool_iff in H1. destruct (Qle_bool 0 c) eqn:H2; cbn [negb].
    + apply Qle_bool_iff in H2. right. right. split; [Lqa.lra | reflexivity].
    + right. left. split; [| reflexivity].
      apply Qnot_le_lt. intros Hc%Qle_bool_iff. congruence.
  - left. split; [| reflexivity].
    apply Qnot_le_lt. intros Hc%Qle_bool_iff. congruence.
Qed.

(** X8. The class of a change tells its sign: "positive" exactly when the
    alternate purity is above the base purity, "negative" exactly when it
    is below, "neutral" exactly when they are equal.  So in the base view,
    where the alternate dataset is the base dataset, every row of the
    metrics table has change 0 and class "neutral"; this is the view a
    radio change that resolves to run_0 leaves behind. *)
Theorem renderMetricsTable_signs :
  (∀ c : Q, (classOfChange c = "positive" ↔ 0 < c)
            ∧ (classOfChange c = "negative" ↔ c < 0)
            ∧ (classOfChange c = "neutral" ↔ c == 0))
  ∧ (∀ (st : State) (rows : list MetricsRow),
       renderMetricsTable st = Normal rows →
       length rows = 4%nat
       ∧ (∀ row, In row rows →
            change row = altPurity row - basePurity row
            ∧ changeClass row = classOfChange (change row))
       ∧ (altData st = baseData st →
          ∀ row, In row rows → change row == 0 ∧ changeClass row = "neutral"))
  ∧ (∀ debug paramName paramValueStr dom_render (w : World),
       snd (Config.determineRunMapping debug paramName paramValueStr) = "run_0" →
       let w' := fst (fst (onParameterChange debug paramName paramValueStr
                             (Normal tt) (Normal tt) dom_render w)) in
       altData (state w') = baseData (state w')).
Proof.
  split; [| split].
  - intros c.
    destruct (classOfChange_cases c) as [[Hc ->] | [[Hc ->] | [Hc ->]]];
      repeat split; intros H; try discriminate H; try reflexivity; Lqa.lra.
  - intros st rows Hrows. unfold renderMetricsTable in Hrows.
    destruct (metadata st); [| discriminate].
    split; [exact (mapM_length _ _ _ Hrows) |].
    assert (Hrow : ∀ row, In row rows →
              ∃ bp ap region,
                purityOf (isHighGene st) (baseData st) region = Normal bp
                ∧ purityOf (isHighGene st) (altData st) region = Normal ap
                ∧ row = {| row_region := region; basePurity := bp; altPurity := ap;
                           change := ap - bp; changeClass := classOfChange (ap - bp) |}).
    { intros row Hin. destruct (mapM_in _ _ _ _ Hrows Hin) as (region & _ & Hr).
      unfold metricsRow in Hr.
      destruct (purityOf (isHighGene st) (baseData st) region) as [bp |] eqn:Hb;
        [| discriminate].
      destruct (purityOf (isHighGene st) (altData st) region) as [ap |] eqn:Ha;
        [| discriminate].
      injection Hr as <-. exists bp, ap, region. repeat split; assumption. }
    split.
    + intros row Hin. destruct (Hrow row Hin) as (bp & ap & region & _ & _ & ->).
      split; reflexivity.
    + intros Hsame row Hin.
      destruct (Hrow row Hin) as (bp & ap & region & Hb & Ha & ->).
      rewrite Hsame, Hb in Ha. injection Ha as <-.
      cbn [change changeClass].
      assert (Hz : bp - bp == 0) by ring.
      split; [exact Hz | apply classOfChange_neutral, Hz].
  - intros debug paramName paramValueStr dom_render w Hrun w'. subst w'.
    unfold onParameterChange.
    destruct (Config.determineRunMapping debug paramName paramValueStr)
      as [mapping runId].
    cbn [snd] in Hrun. subst runId. cbn [String.eqb Ascii.eqb Bool.eqb].
    destruct dom_render; reflexivity.
Qed.

(** Both are drawn for the sample page: purities 80, 60, 90, 70 against
    85, 55, 90, 100 give the axis from 50.5 to 100 and the changes up,
    down, none, up. *)
Example purity_charts_of_compared_runs :
  (∃ chart, renderPurityChart (state comparedWorld) = Normal chart
            ∧ baseValues chart = [80; 60; 90; 70]
            ∧ altValues chart = [85; 55; 90; 100]
            ∧ yMin chart == 101 # 2 ∧ yMax chart == 100)
  ∧ (∃ rows, renderMetricsTable (state comparedWorld) = Normal rows
             ∧ map changeClass rows = ["positive"; "negative"; "neutral"; "positive"]).
Proof.
  split.
  - eexists. split; [vm_compute; reflexivity |].
    cbn [baseValues altValues yMin yMax]. repeat split; vm_compute; reflexivity.
  - eexists. split; [vm_compute; reflexivity |]. reflexivity.
Qed.

End PurityFacts.

(** ** The links of the Sankey chart *)

Section SankeyLinks.

Import Dashboard Charts.

Lemma classToBeforeIdx_keys :
  (imap (fun i c => (c, i)) SIMPLIFIED_CLASSES).*1 = SIMPLIFIED_CLASSES.
Proof. reflexivity. Qed.

Lemma classToAfterIdx_keys :
  (imap (fun i c => (c, (i + length SIMPLIFIED_CLASSES)%nat)) SIMPLIFIED_CLASSES).*1
  = SIMPLIFIED_CLASSES.
Proof. reflexivity. Qed.

Lemma classToBeforeIdx_unknown (k : string) :
  ¬ In k SIMPLIFIED_CLASSES → classToBeforeIdx !! k = None.
Proof.
  intros Hk. apply not_elem_of_list_to_map_1. rewrite classToBeforeIdx_keys.
  intros H. apply Hk, list_elem_of_In, H.
Qed.

Lemma classToAfterIdx_unknown (k : string) :
  ¬ In k SIMPLIFIED_CLASSES → classToAfterIdx !! k = None.
Proof.
  intros Hk. apply not_elem_of_list_to_map_1. rewrite classToAfterIdx_keys.
  intros H. apply Hk, list_elem_of_In, H.
Qed.

Lemma classToBeforeIdx_label (k : string) (i : nat) :
  classToBeforeIdx !! k = Some i →
  In k SIMPLIFIED_CLASSES ∧ (i < 10)%nat
  ∧ nodeLabels !! i = Some (k ++ " (Base)")%string.
Proof.
  intros H. destruct (In_dec string_dec k SIMPLIFIED_CLASSES) as [Hin | Hout].
  - split; [exact Hin |]. revert H. unfold SIMPLIFIED_CLASSES in Hin.
    repeat (destruct Hin as [<- | Hin];
            [vm_compute; intros [= <-]; split; [lia | reflexivity] |]).
    destruct Hin.
  - rewrite (classToBeforeIdx_unknown k Hout) in H. discriminate.
Qed.

Lemma classToAfterIdx_label (k : string) (i : nat) :
  classToAfterIdx !! k = Some i →
  In k SIMPLIFIED_CLASSES ∧ (10 <= i < 20)%nat
  ∧ nodeLabels !! i = Some (k ++ " (Alt)")%string.
Proof.
  intros H. destruct (In_dec string_dec k SIMPLIFIED_CLASSES) as [Hin | Hout].
  - split; [exact Hin |]. revert H. unfold SIMPLIFIED_CLASSES in Hin.
    repeat (destruct Hin as [<- | Hin];
            [vm_compute; intros [= <-]; split; [lia | reflexivity] |]).
    destruct Hin.
  - rewrite (classToAfterIdx_unknown k Hout) in H. discriminate.
Qed.

Lemma link_of_drawable (t : Transition) :
  match link_of t with
  | Some (s, d, v) =>
      drawable t = true ∧ (s < 10)%nat ∧ (10 <= d < 20)%nat
      ∧ nodeLabels !! s = Some (from t ++ " (Base)")%string
      ∧ nodeLabels !! d = Some (to t ++ " (Alt)")%string
      ∧ v = count t
  | None => drawable t = false
  end.
Proof.
  unfold link_of, drawable.
  destruct (classToBeforeIdx !! from t) as [s |] eqn:Hs.
  - destruct (classToBeforeIdx_label _ _ Hs) as (Hin & Hlt & Hl).
    destruct (classToAfterIdx !! to t) as [d |] eqn:Hd.
    + destruct (classToAfterIdx_label _ _ Hd) as (Hin' & Hlt' & Hl').
      rewrite !bool_decide_eq_true_2 by assumption. auto 10.
    + apply andb_false_iff. right. apply bool_decide_eq_false_2. intros Hin'.
      destruct (simplified_class_indices _ Hin') as (i & _ & _ & Hi). congruence.
  - apply andb_false_iff. left. apply bool_decide_eq_false_2. intros Hin.
    destruct (simplified_class_indices _ Hin) as (i & _ & Hi & _). congruence.
Qed.

(** X9. Whenever the Sankey chart is drawn, from the alternate dataset's
    transitions or from identity flows, it has the twenty nodes and one link
    for each transition whose two ends are simplified classes, in the order
    of the transitions; the others are left out.  The three link arrays have
    the same length; a link's source is a node of the first half, its target
    a node of the second half, and through the label array they read as the
    transition's classes, "(Base)" and "(Alt)"; its value is the
    transition's count.  The chart raises exactly when its transitions
    do. *)
Theorem renderSankeyChart_links (st : State) :
  match sankeyTransitions st with
  | Throw e => renderSankeyChart st = Throw e
  | Normal ts =>
      ∃ plot, renderSankeyChart st = Normal plot
        ∧ length (label plot) = 20%nat ∧ length (color plot) = 20%nat
        ∧ length (link_source plot) = length (link_value plot)
        ∧ length (link_target plot) = length (link_value plot)
        ∧ Forall (fun s => (s < 10)%nat) (link_source plot)
        ∧ Forall (fun d => (10 <= d < 20)%nat) (link_target plot)
        ∧ map (fun s => label plot !! s) (link_source plot)
          = map (fun t => Some (from t ++ " (Base)")%string) (List.filter drawable ts)
        ∧ map (fun d => label plot !! d) (link_target plot)
          = map (fun t => Some (to t ++ " (Alt)")%string) (List.filter drawable ts)
        ∧ link_value plot = map count (List.filter drawable ts)
  end.
Proof.
  unfold renderSankeyChart. destruct (sankeyTransitions st) as [ts | e]; [| reflexivity].
  eexists. split; [reflexivity |]. cbn [label color link_source link_target link_value].
  split; [reflexivity |]. split; [reflexivity |].
  rewrite !length_map. split; [reflexivity |]. split; [reflexivity |].
  induction ts as [| t ts IH]; cbn [omap list_omap List.filter map].
  - repeat split; constructor.
  - destruct IH as (Hs & Hd & Hls & Hld & Hv).
    pose proof (link_of_drawable t) as Ht.
    destruct (link_of t) as [[[s d] v] |].
    + destruct Ht as (-> & Hlt & Hlt' & Hl & Hl' & ->). cbn [map fst snd].
      split; [constructor; assumption |]. split; [constructor; assumption |].
      rewrite Hl, Hl', Hls, Hld, Hv. repeat split.
    + rewrite Ht. auto.
Qed.

End SankeyLinks.

(** ** Selecting runs: repeated selections, loads that overtake each other,
       the former run selector *)

Section RunSelection.

Import Dashboard Charts.

Lemma onParameterChange_starts_load (debug : bool) (paramName paramValueStr : string)
    (w : World) :
  let runId := snd (Config.determineRunMapping debug paramName paramValueStr) in
  runId ≠ "run_0" →
  currentRun (state w) ≠ Some runId →
  fst (fst (onParameterChange debug paramName paramValueStr
              (Normal tt) (Normal tt) (Normal tt) w))
  = {| state := state w; next_ref := next_ref w;
       pending := (pending w ++ [runId])%list |}.
Proof.
  intros runId Hbase Hcur. subst runId. unfold onParameterChange.
  destruct (Config.determineRunMapping debug paramName paramValueStr)
    as [mapping runId].
  cbn [snd] in Hbase, Hcur. apply String.eqb_neq in Hbase. rewrite Hbase.
  rewrite bool_decide_eq_false_2 by exact Hcur. reflexivity.
Qed.

Lemma onParameterChange_resume_loaded (debug : bool) (runId : string) (data : RunData)
    (dom_render : completion unit) (w : World) :
  fst (fst (onParameterChange_resume debug runId (Fetched data) dom_render w))
  = {| state := with_run (Some {| ref := next_ref w; source := runId; content := data |})
                         runId (state w);
       next_ref := S (next_ref w); pending := pending w |}.
Proof. unfold onParameterChange_resume. cbn. destruct dom_render; reflexivity. Qed.

Lemma lookup_last_of_two (l : list string) (a b : string) :
  (l ++ [a; b])%list !! S (length l) = Some b
  ∧ delete (S (length l)) (l ++ [a; b])%list = (l ++ [a])%list
  ∧ (l ++ [a; b])%list !! length l = Some a
  ∧ delete (length l) (l ++ [a; b])%list = (l ++ [b])%list.
Proof.
  induction l as [| h l (H1 & H2 & H3 & H4)]; [repeat split |].
  repeat split; cbn; [exact H1 | f_equal; exact H2 | exact H3 | f_equal; exact H4].
Qed.

Lemma lookup_last_of_one (l : list string) (a : string) :
  (l ++ [a])%list !! length l = Some a ∧ delete (length l) (l ++ [a])%list = l.
Proof.
  induction l as [| h l (H1 & H2)]; [repeat split |].
  split; cbn; [exact H1 | f_equal; exact H2].
Qed.

(** X10. Two selections in a row start two loads, and the dataset shown
    in the end is that of the load that settles last, not that of the last
    selection: if the file of the first selection arrives after the file of
    the second, the page compares the base run with the first run while the
    radio buttons show the second.  When the files arrive in the order of
    the selections the second run is shown.  In both cases no load is left
    pending. *)
Theorem last_settled_load_is_shown (debug : bool) (w : World)
    (nameA valueA nameB valueB : string) (dataA dataB : RunData) :
  let a := snd (Config.determineRunMapping debug nameA valueA) in
  let b := snd (Config.determineRunMapping debug nameB valueB) in
  a ≠ "run_0" → b ≠ "run_0" →
  currentRun (state w) ≠ Some a → currentRun (state w) ≠ Some b →
  let n := length (pending w) in
  let select name value := ParameterChange name value (Normal tt) (Normal tt) (Normal tt) in
  let overtaken :=
    run debug w [select nameA valueA; select nameB valueB;
                 FetchSettled (S n) (Fetched dataB) (Normal tt);
                 FetchSettled n (Fetched dataA) (Normal tt)] in
  let in_order :=
    run debug w [select nameA valueA; select nameB valueB;
                 FetchSettled n (Fetched dataA) (Normal tt);
                 FetchSettled n (Fetched dataB) (Normal tt)] in
  (currentRun (state overtaken) = Some a
   ∧ (∃ d, altData (state overtaken) = Some d ∧ source d = a ∧ content d = dataA)
   ∧ pending overtaken = pending w)
  ∧ (currentRun (state in_order) = Some b
     ∧ (∃ d, altData (state in_order) = Some d ∧ source d = b ∧ content d = dataB)
     ∧ pending in_order = pending w).
Proof.
  intros a b Ha Hb Hca Hcb n select overtaken in_order.
  subst overtaken in_order select. unfold run. cbn [fold_left step].
  rewrite (onParameterChange_starts_load debug nameA valueA w Ha Hca).
  fold a.
  rewrite (onParameterChange_starts_load debug nameB valueB
             {| state := state w; next_ref := next_ref w;
                pending := (pending w ++ [a])%list |} Hb Hcb).
  fold b. cbn [state next_ref pending]. rewrite <- app_assoc. cbn [app].
  destruct (lookup_last_of_two (pending w) a b) as (H1 & H2 & H3 & H4).
  destruct (lookup_last_of_one (pending w) a) as (H5 & H6).
  destruct (lookup_last_of_one (pending w) b) as (H7 & H8).
  fold n in H1, H2, H3, H4, H5, H6, H7, H8.
  rewrite H1, H2, H3, H4. rewrite !onParameterChange_resume_loaded.
  cbn [state next_ref pending]. rewrite H5, H6, H7, H8.
  rewrite !onParameterChange_resume_loaded. cbn.
  split; (split; [reflexivity | split; [eexists; repeat split | reflexivity]]).
Qed.

Lemma last_settled_load_is_shown_witness :
  let overtaken :=
    run Config.DEBUG sankeyWorld
      [ParameterChange "inefficiency" "0.5" (Normal tt) (Normal tt) (Normal tt);
       ParameterChange "inefficiency" "1.0" (Normal tt) (Normal tt) (Normal tt);
       FetchSettled 1 (Fetched otherRunData) (Normal tt);
       FetchSettled 0 (Fetched sankeyBaseData) (Normal tt)] in
  currentRun (state overtaken) = Some "run_1".
Proof.
  refine (proj1 (proj1 (last_settled_load_is_shown Config.DEBUG sankeyWorld
                   "inefficiency" "0.5" "inefficiency" "1.0"
                   sankeyBaseData otherRunData _ _ _ _)));
    vm_compute; discriminate.
Defined.

(** X11. Selecting again the run that is shown changes nothing in the
    comparison state and starts no load: for the base run the alternate
    dataset is set to the base dataset it already is, for any other run the
    handler skips the load.  The spatial viewer is still asked for that
    run. *)
Theorem reselecting_shown_run_is_idle (debug : bool) (paramName paramValueStr : string)
    (dom_render : completion unit) (result : fetched RunData) (w : World) :
  let runId := snd (Config.determineRunMapping debug paramName paramValueStr) in
  currentRun (state w) = Some runId →
  (runId = "run_0" → altData (state w) = baseData (state w)) →
  let outcome := selectRun debug paramName paramValueStr (Normal tt) (Normal tt)
                           dom_render result w in
  fst (fst outcome) = w
  ∧ (dom_render = Normal tt → In (LoadSpatialRun runId) (snd (fst outcome)))
  ∧ ∀ m, ¬ In (Alert m) (snd (fst outcome)).
Proof.
  intros runId Hcur Hbase outcome. subst outcome runId.
  unfold selectRun, onParameterChange.
  assert (Hmap : ∀ m, ¬ In (Alert m)
                   (fst (Config.determineRunMapping debug paramName paramValueStr))).
  { intros m Hin. unfold Config.determineRunMapping in Hin.
    repeat match type of Hin with
           | context [if ?c then _ else _] => destruct c
           | context [match ?c with Some _ => _ | None => _ end] => destruct c
           end;
      destruct debug; cbn in Hin; intuition discriminate. }
  destruct (Config.determineRunMapping debug paramName paramValueStr)
    as [mapping runId].
  cbn [snd fst] in Hcur, Hbase, Hmap |- *.
  assert (Hno : ∀ m l, (∀ e, In e l → is_console e = true ∨ e = LoadSpatialRun runId) →
                       ¬ In (Alert m) (when_debug debug (ConsoleLog "Parameter changed:")
                                       ++ mapping ++ l)%list).
  { intros m l Hl Hin. apply in_app_or in Hin. destruct Hin as [Hin | Hin].
    - destruct debug; cbn in Hin; intuition discriminate.
    - apply in_app_or in Hin. destruct Hin as [Hin | Hin]; [exact (Hmap m Hin) |].
      destruct (Hl _ Hin) as [H | H]; discriminate H. }
  destruct (String.eqb runId "run_0") eqn:Hr.
  - apply String.eqb_eq in Hr. specialize (Hbase Hr).
    assert (Hsame : set_state (with_run (baseData (state w)) runId (state w)) w = w).
    { destruct w as [[md bd ad cr rg fl cc] nr pd]. cbn in *. subst. reflexivity. }
    rewrite Hsame.
    destruct dom_render as [[] | e]; rewrite Nat.ltb_irrefl; cbn [fst snd].
    + split; [reflexivity |]. split.
      * intros _. rewrite !app_assoc. apply in_or_app. right. left. reflexivity.
      * intros m. rewrite <- !app_assoc. apply Hno. intros e He.
        destruct debug; cbn in He; intuition (subst; auto).
    + split; [reflexivity |]. split; [discriminate |].
      intros m. rewrite <- !app_assoc. apply Hno. intros e' He.
      destruct debug; cbn in He; intuition (subst; auto).
  - rewrite bool_decide_eq_true_2 by exact Hcur. cbn [negb].
    rewrite Nat.ltb_irrefl. cbn [fst snd].
    split; [reflexivity |]. split.
    + intros _. rewrite !app_assoc. apply in_or_app. right. left. reflexivity.
    + intros m. rewrite <- !app_assoc. apply Hno. intros e He.
      destruct debug; cbn in He; intuition (subst; auto).
Qed.

Lemma reselecting_shown_run_is_idle_witness :
  fst (fst (selectRun Config.DEBUG "inefficiency" "0.1" (Normal tt) (Normal tt)
                      (Normal tt) NetworkError sankeyWorld)) = sankeyWorld.
Proof.
  refine (proj1 (reselecting_shown_run_is_idle Config.DEBUG "inefficiency" "0.1"
                   (Normal tt) NetworkError sankeyWorld _ _));
    vm_compute; reflexivity.
Defined.

(** X12. The handler of the former run selector does not keep the
    comparison state consistent: asked for the base run it parses the file
    again, so the alternate dataset is a new object and not the base
    dataset, although the current run is the base run.  With the empty
    choice it clears the alternate dataset and the current run; when the
    fetch fails it leaves the page as it was. *)
Theorem onRunChange_reloads_base_run (w : World) (md : Metadata) (data : RunData)
    (dom_before dom_after : completion unit) :
  consistent w →
  metadata (state w) = Some md →
  base_run md ≠ "" →
  let loaded := fst (fst (onRunChange (base_run md) (Fetched data) (Normal tt)
                                      dom_after w)) in
  let cleared := fst (fst (onRunChange "" (Fetched data) dom_before dom_after w)) in
  (currentRun (state loaded) = Some (base_run md)
   ∧ baseData (state loaded) = baseData (state w)
   ∧ altData (state loaded) ≠ baseData (state loaded)
   ∧ ¬ consistent loaded)
  ∧ (altData (state cleared) = None ∧ currentRun (state cleared) = None
     ∧ ¬ consistent cleared)
  ∧ (∀ runId (failure : fetched RunData) what,
       runId ≠ "" → loadJSON failure = Throw what →
       fst (fst (onRunChange runId failure dom_before dom_after w)) = w).
Proof.
  intros Hc Hmd Hne loaded cleared. subst loaded cleared. unfold onRunChange.
  apply String.eqb_neq in Hne. rewrite Hne. cbn [String.eqb loadJSON].
  destruct Hc as (md' & base & alt & Hmd' & Hbase & Hsrc & Halt & Hcur & Hsame & Hrb & Hra).
  rewrite Hmd in Hmd'. injection Hmd' as <-. rewrite Hmd.
  assert (Hfresh : Some {| ref := next_ref w; source := base_run md; content := data |}
                   ≠ Some base).
  { intros [= <-]. cbn in Hrb. lia. }
  split; [| split].
  - assert (Hw : fst (fst (match dom_after with
                           | Normal _ =>
                               ({| state := with_run
                                     (Some {| ref := next_ref w; source := base_run md;
                                              content := data |})
                                     (base_run md) (state w);
                                   next_ref := S (next_ref w); pending := pending w |},
                                [], Normal tt)
                           | Throw _ =>
                               ({| state := with_run
                                     (Some {| ref := next_ref w; source := base_run md;
                                              content := data |})
                                     (base_run md) (state w);
                                   next_ref := S (next_ref w); pending := pending w |},
                                load_failed (base_run md), Normal tt)
                           end))
                = {| state := with_run
                       (Some {| ref := next_ref w; source := base_run md;
                                content := data |})
                       (base_run md) (state w);
                     next_ref := S (next_ref w); pending := pending w |})
      by (destruct dom_after; reflexivity).
    rewrite Hw. cbn [state with_run currentRun baseData altData].
    split; [reflexivity |]. split; [reflexivity |].
    rewrite Hbase. split; [exact Hfresh |].
    intros (md2 & base2 & alt2 & H1 & H2 & H3 & H4 & H5 & H6 & _).
    cbn in H1, H2, H4, H5, H6. rewrite Hmd in H1. injection H1 as <-.
    rewrite Hbase in H2. injection H2 as <-. injection H4 as <-.
    specialize (H6 eq_refl). apply Hfresh. rewrite H6. reflexivity.
  - cbn. split; [reflexivity |]. split; [reflexivity |].
    intros (md2 & base2 & alt2 & _ & _ & _ & H4 & _). cbn in H4. discriminate.
  - intros runId failure what Hr Hf. apply String.eqb_neq in Hr. rewrite Hr.
    destruct dom_before; [| reflexivity]. rewrite Hf. reflexivity.
Qed.

Lemma onRunChange_reloads_base_run_witness :
  let loaded := fst (fst (onRunChange "run_0" (Fetched sankeyBaseData) (Normal tt)
                                      (Normal tt) sankeyWorld)) in
  altData (state loaded) ≠ baseData (state loaded).
Proof.
  refine (proj1 (proj2 (proj2 (proj1
            (onRunChange_reloads_base_run sankeyWorld sankeyMetadata sankeyBaseData
               (Normal tt) (Normal tt) _ eq_refl _))))).
  - apply settled_consistent. apply init_settled. reflexivity.
  - discriminate.
Defined.

End RunSelection.

(** ** The legend *)

Section LegendFacts.

Import SpatialViewer Legend.

Lemma countOf_snoc (k : string) (l : list Cell) (c : Cell) :
  countOf k (l ++ [c])
  = (countOf k l + if String.eqb (class c) k then 1 else 0)%nat.
Proof.
  unfold countOf. rewrite List.filter_app, List.length_app. cbn [List.filter].
  destruct (String.eqb (class c) k); reflexivity.
Qed.

Lemma countOf_absent (k : string) (l : list Cell) :
  (∀ c, In c l → class c ≠ k) → countOf k l = 0%nat.
Proof.
  unfold countOf. induction l as [| c l IH]; intros H; [reflexivity |].
  cbn [List.filter]. destruct (String.eqb (class c) k) eqn:Hc.
  - apply String.eqb_eq in Hc. exfalso. exact (H c (or_introl eq_refl) Hc).
  - apply IH. intros c' Hc'. apply H. right. exact Hc'.
Qed.

Lemma bumpCount_keys (k : string) (o : list (string * nat)) (k' : string) :
  In k' (map fst (bumpCount k o)) ↔ k' = k ∨ In k' (map fst o).
Proof.
  induction o as [| [h n] o IH]; cbn [bumpCount map fst In].
  - intuition.
  - destruct (String.eqb h k) eqn:Hh; cbn [map fst In].
    + apply String.eqb_eq in Hh. subst h. intuition.
    + rewrite IH. intuition.
Qed.

Lemma bumpCount_NoDup (k : string) (o : list (string * nat)) :
  List.NoDup (map fst o) → List.NoDup (map fst (bumpCount k o)).
Proof.
  induction o as [| [h n] o IH]; cbn [bumpCount map fst]; intros Hnd.
  - constructor; [intros [] | constructor].
  - inversion Hnd as [| ? ? Hh Ho]; subst.
    destruct (String.eqb h k) eqn:Hhk; cbn [map fst]; [exact Hnd |].
    constructor; [| exact (IH Ho)].
    rewrite bumpCount_keys. intros [-> | Hin]; [| exact (Hh Hin)].
    rewrite String.eqb_refl in Hhk. discriminate.
Qed.

Lemma bumpCount_entries (k : string) (o : list (string * nat)) (k' : string) (n' : nat) :
  List.NoDup (map fst o) →
  In (k', n') (bumpCount k o) →
  (k' ≠ k ∧ In (k', n') o)
  ∨ (k' = k ∧ ((∃ n, In (k, n) o ∧ n' = (n + 1)%nat)
               ∨ (¬ In k (map fst o) ∧ n' = 1%nat))).
Proof.
  induction o as [| [h n] o IH]; cbn [bumpCount map fst In]; intros Hnd.
  - intros [[= <- <-] | []]. right. split; [reflexivity |]. right. auto.
  - inversion Hnd as [| ? ? Hh Ho]; subst.
    destruct (String.eqb h k) eqn:Hhk; cbn [In].
    + apply String.eqb_eq in Hhk. subst h.
      intros [[= <- <-] | Hin].
      * right. split; [reflexivity |]. left. exists n. auto.
      * left. split; [| right; exact Hin].
        intros ->. apply Hh. apply (in_map fst) in Hin. exact Hin.
    + apply String.eqb_neq in Hhk.
      intros [[= <- <-] | Hin]; [left; auto |].
      destruct (IH Ho Hin) as [[Hne Hin'] | [-> [(m & Hm & ->) | [Hout ->]]]].
      * left. auto.
      * right. split; [reflexivity |]. left. exists m. auto.
      * right. split; [reflexivity |]. right. split; [| reflexivity].
        intros [Heq | Hin']; [exact (Hhk Heq) | exact (Hout Hin')].
Qed.

Lemma bumpCount_sum (k : string) (o : list (string * nat)) :
  list_sum (map snd (bumpCount k o)) = S (list_sum (map snd o)).
Proof.
  induction o as [| [h n] o IH]; cbn [bumpCount map snd list_sum fold_right];
    [reflexivity |].
  destruct (String.eqb h k); cbn [map snd list_sum fold_right]; [lia |].
  unfold list_sum in IH. rewrite IH. lia.
Qed.

Lemma bumpCount_counted (o : list (string * nat)) (l : list Cell) (c : Cell) :
  counted o l → counted (bumpCount (class c) o) (l ++ [c]).
Proof.
  intros (Hnd & Hn & Hcover & Hsum).
  split; [apply bumpCount_NoDup, Hnd |]. split; [| split].
  - intros k n Hin. rewrite countOf_snoc.
    destruct (bumpCount_entries _ _ _ _ Hnd Hin)
      as [[Hne Hin'] | [-> [(m & Hm & ->) | [Hout ->]]]].
    + destruct (Hn _ _ Hin') as [-> Hpos].
      assert (Hc : String.eqb (class c) k = false)
        by (apply String.eqb_neq; congruence).
      rewrite Hc. split; [lia | exact Hpos].
    + destruct (Hn _ _ Hm) as [-> Hpos]. rewrite String.eqb_refl. lia.
    + rewrite String.eqb_refl. rewrite countOf_absent; [lia |].
      intros c' Hc' Heq. apply Hout. rewrite <- Heq. apply Hcover, Hc'.
  - intros c' Hc'. apply bumpCount_keys. apply in_app_or in Hc'.
    destruct Hc' as [Hc' | [<- | []]]; [right; apply Hcover, Hc' | left; reflexivity].
  - rewrite bumpCount_sum, Hsum, List.length_app. cbn. lia.
Qed.

Lemma legendEntries_counted (s : state) :
  counted (legendEntries s) (getLegendFilteredCells s).
Proof.
  unfold legendEntries.
  assert (H : ∀ l l0 o, counted o l0 →
                counted (fold_left (fun o c => bumpCount (class c) o) l o) (l0 ++ l)).
  { induction l as [| c l IH]; intros l0 o Ho; cbn [fold_left].
    - rewrite app_nil_r. exact Ho.
    - replace (l0 ++ c :: l)%list with ((l0 ++ [c]) ++ l)%list
        by (rewrite <- app_assoc; reflexivity).
      apply IH, bumpCount_counted, Ho. }
  apply (H (getLegendFilteredCells s) [] []).
  split; [constructor |]. split; [intros k n [] |]. split; [intros c [] | reflexivity].
Qed.

Lemma NoDup_keys_filter {A B : Type} (p : A * B → bool) (o : list (A * B)) :
  List.NoDup (map fst o) → List.NoDup (map fst (List.filter p o)).
Proof.
  induction o as [| e o IH]; cbn [List.filter map]; intros Hnd; [constructor |].
  inversion Hnd as [| ? ? Hh Ho]; subst.
  destruct (p e); cbn [map]; [| exact (IH Ho)].
  constructor; [| exact (IH Ho)].
  intros Hin. apply Hh. apply in_map_iff in Hin. destruct Hin as (e' & He' & Hin).
  apply List.filter_In in Hin. rewrite <- He'. apply in_map, Hin.
Qed.

Lemma sorted_counts (l : list (string * nat)) :
  StronglySorted (Charts.above (fun e : string * nat => Z.of_nat (snd e))) l →
  StronglySorted (fun a b => (b <= a)%nat) (map snd l).
Proof.
  induction 1 as [| h t Ht IH Hh]; cbn [map]; constructor; [exact IH |].
  apply Forall_map. eapply Forall_impl; [exact Hh |].
  unfold Charts.above. cbn. intros; lia.
Qed.

(** X13. The chips of the legend: one for each class among the cells that
    pass the plane and gene filters, whatever its visibility, and when a
    filter text is typed only those whose lower-cased name contains it.  No
    class has two chips; the chips are in descending order of count; a
    chip's count is the number of those cells of its class and is never
    zero; a chip is dimmed exactly when its class is not visible.  Without
    a filter text the counts add up to the number of cells that pass the
    two filters. *)
Theorem updateLegend_chips (s : state) :
  let chips := updateLegend s in
  let shown := getLegendFilteredCells s in
  List.NoDup (map chip_class chips)
  ∧ StronglySorted (fun a b => (b <= a)%nat) (map chip_count chips)
  ∧ (∀ c, In c chips →
       chip_count c = countOf (chip_class c) shown ∧ (0 < chip_count c)%nat
       ∧ chip_dim c = negb (isVisible_of (cellClassVisible s) (chip_class c))
       ∧ (filterText s ≠ "" →
          includes (filterText s) (toLowerCase (chip_class c)) = true))
  ∧ (∀ cell, In cell shown →
       filterText s = "" ∨ includes (filterText s) (toLowerCase (class cell)) = true →
       In (class cell) (map chip_class chips))
  ∧ (filterText s = "" → list_sum (map chip_count chips) = length shown).
Proof.
  intros chips shown. subst chips shown. unfold updateLegend.
  destruct (legendEntries_counted s) as (Hnd & Hn & Hcover & Hsum).
  set (text := filterText s).
  set (kept := if String.eqb text "" then legendEntries s
               else List.filter (fun e => includes text (toLowerCase (fst e)))
                                (legendEntries s)).
  set (weight := fun e : string * nat => Z.of_nat (snd e)).
  assert (Hperm : Permutation (Charts.sortDesc weight kept) kept)
    by apply sortDesc_perm.
  assert (Hkept : ∀ e, In e kept ↔
            In e (legendEntries s)
            ∧ (text ≠ "" → includes text (toLowerCase (fst e)) = true)).
  { intros e. subst kept. destruct (String.eqb text "") eqn:Ht.
    - apply String.eqb_eq in Ht. intuition.
    - apply String.eqb_neq in Ht. rewrite List.filter_In. intuition. }
  assert (Hclass : ∀ l : list (string * nat),
            map chip_class
              (map (fun e => {| chip_class := fst e; chip_count := snd e;
                                chip_dim := negb (isVisible_of (cellClassVisible s)
                                                               (fst e)) |}) l)
            = map fst l)
    by (intros l; rewrite map_map; reflexivity).
  assert (Hcount : ∀ l : list (string * nat),
            map chip_count
              (map (fun e => {| chip_class := fst e; chip_count := snd e;
                                chip_dim := negb (isVisible_of (cellClassVisible s)
                                                               (fst e)) |}) l)
            = map snd l)
    by (intros l; rewrite map_map; reflexivity).
  rewrite Hclass, Hcount.
  split.
  { apply (Permutation_NoDup (Permutation_sym (Permutation_map fst Hperm))).
    subst kept. destruct (String.eqb text ""); [exact Hnd |].
    apply NoDup_keys_filter, Hnd. }
  split; [apply sorted_counts, sortDesc_sorted |].
  split.
  { intros c Hc. apply in_map_iff in Hc. destruct Hc as ([k n] & <- & Hin).
    cbn [chip_class chip_count chip_dim fst snd].
    apply (Permutation_in _ Hperm) in Hin. apply Hkept in Hin.
    destruct Hin as [Hin Htext]. destruct (Hn _ _ Hin) as [-> Hpos].
    split; [reflexivity |]. split; [exact Hpos |]. split; [reflexivity |].
    exact Htext. }
  split.
  { intros cell Hcell Htext. pose proof (Hcover _ Hcell) as Hin.
    apply in_map_iff in Hin. destruct Hin as ([k n] & Hk & Hin). cbn [fst] in Hk.
    subst k. apply in_map_iff. exists (class cell, n). split; [reflexivity |].
    apply (Permutation_in _ (Permutation_sym Hperm)). apply Hkept.
    split; [exact Hin |]. intros Hne. destruct Htext as [Ht | Ht]; [contradiction |].
    exact Ht. }
  intros Ht. rewrite <- Hsum.
  assert (Hall : kept = legendEntries s).
  { subst kept. fold text in Ht. rewrite Ht. reflexivity. }
  rewrite <- Hall.
  assert (Hs : ∀ l1 l2 : list nat, Permutation l1 l2 → list_sum l1 = list_sum l2).
  { induction 1; unfold list_sum in *; cbn [fold_right] in *; lia. }
  apply Hs, Permutation_map, Hperm.
Qed.

End LegendFacts.

(** ** The visibility controls *)

Section VisibilityControls.

Import SpatialViewer Legend.

(** [render] writes nothing but [viewFitted]. *)
Lemma render_fields (container : option (Q * Q)) (s : state) :
  fst (render container s) = s ∨ fst (render container s) = set_viewFitted true s.
Proof. unfold render. destruct (canRender s), (viewFitted s); cbn [fst]; auto. Qed.

Lemma visibleCells_ext (s s' : state) :
  cells s' = cells s →
  (∀ c, isVisible s' c = isVisible s c) →
  planeFilterEnabled s' = planeFilterEnabled s → geom s' = geom s →
  selectedPlane s' = selectedPlane s →
  useGeneFilter s' = useGeneFilter s → minGeneCount s' = minGeneCount s →
  visibleCells s' = visibleCells s.
Proof.
  intros Hc Hv Hp Hg Hs Hu Hm. unfold visibleCells, planeActive, onPlane, geneOk, thr.
  rewrite Hc, Hp, Hg, Hs, Hu, Hm. rewrite (filter_ext _ _ Hv). reflexivity.
Qed.

Lemma legendCells_render (container : option (Q * Q)) (s : state) :
  getLegendFilteredCells (fst (render container s)) = getLegendFilteredCells s
  ∧ visibleCells (fst (render container s)) = visibleCells s.
Proof. destruct (render_fields container s) as [-> | ->]; split; reflexivity. Qed.

Lemma isVisible_insert (vis : gmap string bool) (k : string) (b : bool) (k' : string) :
  isVisible_of (<[k := b]> vis) k'
  = if String.eqb k' k then b else isVisible_of vis k'.
Proof.
  unfold isVisible_of. destruct (String.eqb k' k) eqn:Hk.
  - apply String.eqb_eq in Hk. subst k'. rewrite lookup_insert_eq. reflexivity.
  - apply String.eqb_neq in Hk. rewrite lookup_insert_ne by congruence. reflexivity.
Qed.

(** X14. A click on a chip flips the visibility of its class and of no
    other, and leaves the cells the legend counts as they are; a class that
    has no flag yet counts as hidden and becomes visible.  A second click
    on the same chip shows exactly the cells that were shown before the
    first. *)
Theorem toggleClassVisibility_twice (container container' : option (Q * Q))
    (className : string) (s : state) :
  let once := fst (toggleClassVisibility container className s) in
  let twice := fst (toggleClassVisibility container' className once) in
  (∀ c, isVisible once c
        = if String.eqb (class c) className then negb (isVisible s c) else isVisible s c)
  ∧ getLegendFilteredCells once = getLegendFilteredCells s
  ∧ (∀ c, isVisible twice c = isVisible s c)
  ∧ visibleCells twice = visibleCells s
  ∧ (canRender s = true →
     ∃ more, snd (toggleClassVisibility container' className once)
             = SetLayers (visibleCells s) :: more).
Proof.
  intros once twice.
  assert (Honce : ∀ c, isVisible once c
            = if String.eqb (class c) className then negb (isVisible s c)
              else isVisible s c).
  { intros c. subst once. unfold toggleClassVisibility, isVisible.
    rewrite render_visible. cbn [set_visible set_counts_visible cellClassVisible].
    rewrite isVisible_insert. destruct (String.eqb (class c) className) eqn:Hc;
      [| reflexivity].
    apply String.eqb_eq in Hc. rewrite Hc. reflexivity. }
  assert (Hfields : cells once = cells s ∧ planeFilterEnabled once = planeFilterEnabled s
                    ∧ geom once = geom s ∧ selectedPlane once = selectedPlane s
                    ∧ useGeneFilter once = useGeneFilter s
                    ∧ minGeneCount once = minGeneCount s ∧ deckgl once = deckgl s).
  { subst once. unfold toggleClassVisibility.
    destruct (render_fields container
                (set_visible (<[className := negb (isVisible_of (cellClassVisible s)
                                                                className)]>
                                (cellClassVisible s)) s)) as [-> | ->];
      repeat split. }
  destruct Hfields as (Hc & Hp & Hg & Hsel & Hu & Hm & Hd).
  set (flipped := set_visible
                    (<[className := negb (isVisible_of (cellClassVisible once) className)]>
                       (cellClassVisible once)) once).
  assert (Hflipped : ∀ c, isVisible flipped c = isVisible s c).
  { intros c. subst flipped. unfold isVisible at 1.
    cbn [set_visible set_counts_visible cellClassVisible]. rewrite isVisible_insert.
    destruct (String.eqb (class c) className) eqn:Hcl.
    - apply String.eqb_eq in Hcl.
      pose proof (Honce c) as H1. unfold isVisible in H1. rewrite Hcl in H1.
      rewrite String.eqb_refl in H1. rewrite H1. rewrite negb_involutive, <- Hcl.
      reflexivity.
    - pose proof (Honce c) as H1. rewrite Hcl in H1. exact H1. }
  assert (Hshown : visibleCells flipped = visibleCells s)
    by (apply visibleCells_ext; auto).
  split; [exact Honce |]. split.
  { unfold getLegendFilteredCells, planeActive, onPlane, geneOk, thr.
    rewrite Hc, Hp, Hg, Hsel, Hu, Hm. reflexivity. }
  assert (Htwice : twice = fst (render container' flipped)) by reflexivity.
  split.
  { intros c. rewrite Htwice. unfold isVisible. rewrite render_visible.
    exact (Hflipped c). }
  split.
  { rewrite Htwice. rewrite (proj2 (legendCells_render container' flipped)).
    exact Hshown. }
  intros Hcan.
  assert (Hcan' : canRender flipped = true).
  { unfold canRender in *. subst flipped. cbn [set_visible set_counts_visible deckgl cells].
    rewrite Hd, Hc. exact Hcan. }
  change (toggleClassVisibility container' className once)
    with (render container' flipped).
  unfold render. rewrite Hcan', Hshown.
  destruct (viewFitted flipped); eexists; reflexivity.
Qed.

Lemma isVisible_const (vis : gmap string bool) (b : bool) (k : string) :
  isVisible_of ((fun _ => b) <$> vis) k = b && bool_decide (is_Some (vis !! k)).
Proof.
  unfold isVisible_of. rewrite lookup_fmap.
  destruct (vis !! k) as [v |], b; reflexivity.
Qed.

(** X15. "Hide all" leaves nothing to draw.  "Show all" turns on the
    classes that have a flag, and only those: when every class of the
    loaded cells has one, the cells drawn are exactly the cells the legend
    counts, those that pass the plane and gene filters; a class without a
    flag stays hidden.  Neither button adds or removes a flag, and "Show
    all" undoes "Hide all". *)
Theorem showAll_hideAll (container container' : option (Q * Q)) (s : state) :
  let hidden := fst (hideAllClasses container s) in
  let shown := fst (showAllClasses container s) in
  visibleCells hidden = []
  ∧ (canRender s = true →
     ∃ more, snd (hideAllClasses container s) = SetLayers [] :: more)
  ∧ (∀ c, isVisible shown c = bool_decide (is_Some (cellClassVisible s !! class c)))
  ∧ (flagsCover s → visibleCells shown = getLegendFilteredCells s)
  ∧ (∀ k, is_Some (cellClassVisible hidden !! k) ↔ is_Some (cellClassVisible s !! k))
  ∧ (∀ k, is_Some (cellClassVisible shown !! k) ↔ is_Some (cellClassVisible s !! k))
  ∧ cellClassVisible (fst (showAllClasses container' hidden)) = cellClassVisible shown.
Proof.
  intros hidden shown. subst hidden shown. unfold hideAllClasses, showAllClasses.
  set (off := set_visible ((fun _ => false) <$> cellClassVisible s) s).
  set (on := set_visible ((fun _ => true) <$> cellClassVisible s) s).
  assert (Hoff : visibleCells off = []).
  { unfold visibleCells.
    assert (H0 : List.filter (isVisible off) (cells off) = []).
    { induction (cells off) as [| c l IH]; [reflexivity |]. cbn [List.filter].
      unfold isVisible at 1. subst off.
      cbn [set_visible set_counts_visible cellClassVisible].
      rewrite isVisible_const. exact IH. }
    rewrite H0. destruct (planeActive off), (useGeneFilter off); reflexivity. }
  assert (Hon : ∀ c, isVisible on c
                     = bool_decide (is_Some (cellClassVisible s !! class c))).
  { intros c. unfold isVisible. subst on.
    cbn [set_visible set_counts_visible cellClassVisible].
    rewrite isVisible_const. reflexivity. }
  split; [rewrite (proj2 (legendCells_render container off)); exact Hoff |].
  split.
  { intros Hcan. unfold render.
    change (canRender off) with (canRender s). rewrite Hcan, Hoff.
    destruct (viewFitted off); eexists; reflexivity. }
  split.
  { intros c. unfold isVisible. rewrite render_visible. exact (Hon c). }
  split.
  { intros Hcover. rewrite (proj2 (legendCells_render container on)).
    unfold visibleCells, getLegendFilteredCells.
    change (planeActive on) with (planeActive s).
    change (useGeneFilter on) with (useGeneFilter s).
    change (cells on) with (cells s).
    assert (Hall : List.filter (isVisible on) (cells s) = cells s).
    { apply forallb_filter_id, forallb_forall. intros c Hc. rewrite Hon.
      apply bool_decide_eq_true_2, Hcover, Hc. }
    rewrite Hall. reflexivity. }
  split; [intros k; rewrite render_visible; subst off;
          cbn [set_visible set_counts_visible cellClassVisible];
          rewrite lookup_fmap, fmap_is_Some; reflexivity |].
  split; [intros k; rewrite render_visible; subst on;
          cbn [set_visible set_counts_visible cellClassVisible];
          rewrite lookup_fmap, fmap_is_Some; reflexivity |].
  rewrite !render_visible. subst on.
  cbn [set_visible set_counts_visible cellClassVisible].
  rewrite ?render_visible. subst off.
  cbn [set_visible set_counts_visible cellClassVisible].
  rewrite <- map_fmap_compose. reflexivity.
Qed.

End VisibilityControls.

(** ** The colour palette *)

Section Palette.

Import SpatialViewer.

Variable hslToRgb : Q -> Q -> Q -> Z * Z * Z.

Lemma insertSorted_perm (a : string) (l : list string) :
  Permutation (insertSorted a l) (a :: l).
Proof.
  induction l as [| b l IH]; cbn [insertSorted]; [reflexivity |].
  destruct (String.leb a b); [reflexivity |]. rewrite IH. apply perm_swap.
Qed.

Lemma insertSorted_sorted (a : string) (l : list string) :
  Sorted (fun x y => String.leb x y = true) l →
  Sorted (fun x y => String.leb x y = true) (insertSorted a l).
Proof.
  induction l as [| b l IH]; cbn [insertSorted]; intros Hs.
  - constructor; constructor.
  - destruct (String.leb a b) eqn:Hab.
    + constructor; [exact Hs | constructor; exact Hab].
    + inversion Hs as [| ? ? Hl Hb]; subst.
      constructor; [exact (IH Hl) |].
      assert (Hba : String.leb b a = true)
        by (destruct (String.leb_total a b) as [H | H]; [congruence | exact H]).
      destruct l as [| c l]; cbn [insertSorted]; [constructor; exact Hba |].
      destruct (String.leb a c); constructor; [exact Hba |].
      inversion Hb; subst. assumption.
Qed.

Lemma classNamesOf_perm (cs : list Cell) :
  Permutation (classNamesOf cs) (remove_dups (map class cs)).
Proof.
  unfold classNamesOf. induction (remove_dups (map class cs)) as [| a l IH];
    cbn [fold_right]; [reflexivity |].
  rewrite insertSorted_perm. constructor. exact IH.
Qed.

(** The loop of [generateColorPalette] with the number of classes and the
    position of the first name as they are when it reaches a suffix of the
    array. *)
Lemma assignColors_loop (scheme : option (gmap string string)) (n : nat)
    (names : list string) (colors : gmap string (Z * Z * Z)) :
  let yao k := match scheme with
               | Some sc => default "" (sc !! k)
               | None => ""
               end in
  let result :=
    fold_left
      (fun acc ic =>
         let '(i, className) := ic in
         let hexColor := match scheme with
                         | Some sc => default "" (sc !! className)
                         | None => ""
                         end in
         if Config.truthy_string hexColor
         then <[className := hexToRgb hexColor]> acc
         else <[className := fallbackColor hslToRgb n i]> acc)
      (imap (fun i c => (i, c)) names) colors in
  (∀ k, ¬ In k names → result !! k = colors !! k)
  ∧ (∀ k, In k names → Config.truthy_string (yao k) = true →
          result !! k = Some (hexToRgb (yao k)))
  ∧ (∀ i k, names !! i = Some k → (∀ j, (i < j)%nat → names !! j ≠ Some k) →
            Config.truthy_string (yao k) = false →
            result !! k = Some (fallbackColor hslToRgb n i)).
Proof.
  intros yao. induction names as [| k0 names IH] using rev_ind; intros result.
  - subst result. cbn. split; [reflexivity |]. split; [intros k [] |].
    intros i k H. destruct i; discriminate H.
  - subst result. rewrite imap_app, fold_left_app. cbn [imap fold_left].
    rewrite Nat.add_0_r.
    set (before := fold_left _ (imap (fun i c => (i, c)) names) colors) in *.
    cbn zeta in IH. destruct IH as (Hout & Hyao & Hfall).
    fold (yao k0).
    split; [| split].
    + intros k Hk.
      assert (Hne : k0 ≠ k) by (intros ->; apply Hk, in_or_app; right; left; reflexivity).
      assert (Hk' : ¬ In k names) by (intros H; apply Hk, in_or_app; left; exact H).
      destruct (Config.truthy_string (yao k0));
        rewrite lookup_insert_ne by exact Hne; apply Hout, Hk'.
    + intros k Hk Ht. destruct (string_dec k0 k) as [-> | Hne].
      * rewrite Ht. rewrite lookup_insert_eq. reflexivity.
      * apply in_app_or in Hk. destruct Hk as [Hk | [Hk | []]]; [| contradiction].
        destruct (Config.truthy_string (yao k0));
          rewrite lookup_insert_ne by exact Hne; apply Hyao; assumption.
    + intros i k Hi Hlast Ht. destruct (string_dec k0 k) as [-> | Hne].
      * rewrite Ht, lookup_insert_eq.
        destruct (Nat.lt_trichotomy i (length names)) as [Hlt | [-> | Hgt]].
        -- exfalso. apply (Hlast (length names) Hlt).
           rewrite lookup_app_r by lia. rewrite Nat.sub_diag. reflexivity.
        -- reflexivity.
        -- rewrite lookup_ge_None_2 in Hi; [discriminate |].
           rewrite List.length_app. cbn. lia.
      * assert (Hlt : (i < length names)%nat).
        { destruct (Nat.lt_ge_cases i (length names)) as [H | H]; [exact H |].
          rewrite lookup_app_r in Hi by exact H.
          destruct (i - length names)%nat; [| discriminate Hi].
          injection Hi as <-. contradiction. }
        rewrite lookup_app_l in Hi by exact Hlt.
        destruct (Config.truthy_string (yao k0));
          rewrite lookup_insert_ne by exact Hne;
          (apply Hfall; [exact Hi | | exact Ht]);
          intros j Hj Hjk; apply (Hlast j Hj);
          (destruct (Nat.lt_ge_cases j (length names)) as [H | H];
           [rewrite lookup_app_l by exact H; exact Hjk |
            rewrite lookup_ge_None_2 in Hjk by exact H; discriminate]).
Qed.

Lemma assignColors_is_Some (scheme : option (gmap string string))
    (names : list string) (colors : gmap string (Z * Z * Z)) (k : string) :
  In k names ∨ is_Some (colors !! k) →
  is_Some (assignColors hslToRgb scheme names colors !! k).
Proof.
  unfold assignColors. generalize (length names) at 1. intros n.
  induction names as [| k0 names IH] using rev_ind.
  - cbn. intros [[] | H]. exact H.
  - rewrite imap_app, fold_left_app. cbn [imap fold_left]. intros H.
    destruct (string_dec k0 k) as [-> | Hne].
    + destruct (Config.truthy_string _); rewrite lookup_insert_eq; eauto.
    + destruct (Config.truthy_string _); rewrite lookup_insert_ne by exact Hne;
        apply IH; (destruct H as [H | H]; [| right; exact H]);
        (apply in_app_or in H; destruct H as [H | [H | []]];
         [left; exact H | contradiction]).
Qed.

(** X16. The palette of a load.  The class names handed to it are the
    classes of the cells, each once, in ascending order.  The loop gives
    every one of them a colour: the scheme's colour, read by [hexToRgb],
    when the scheme has a non-empty entry for the class, otherwise the
    generated colour of the class's position in the array.  The colours of
    all other classes stay as they were, so colours from earlier runs are
    never removed. *)
Theorem generateColorPalette_colours (scheme : option (gmap string string))
    (cs : list Cell) (colors : gmap string (Z * Z * Z)) :
  let classNames := classNamesOf cs in
  let result := assignColors hslToRgb scheme classNames colors in
  let yao k := match scheme with
               | Some sc => default "" (sc !! k)
               | None => ""
               end in
  (∀ k, In k classNames ↔ ∃ c, In c cs ∧ class c = k)
  ∧ List.NoDup classNames
  ∧ Sorted (fun a b => String.leb a b = true) classNames
  ∧ (∀ c, In c cs → is_Some (result !! class c))
  ∧ (∀ k, In k classNames → Config.truthy_string (yao k) = true →
          result !! k = Some (hexToRgb (yao k)))
  ∧ (∀ i k, classNames !! i = Some k → Config.truthy_string (yao k) = false →
            result !! k = Some (fallbackColor hslToRgb (length classNames) i))
  ∧ (∀ k, (∀ c, In c cs → class c ≠ k) → result !! k = colors !! k).
Proof.
  intros classNames result yao.
  assert (Hin : ∀ k, In k classNames ↔ ∃ c, In c cs ∧ class c = k).
  { intros k. subst classNames.
    rewrite <- list_elem_of_In, (classNamesOf_perm cs), elem_of_remove_dups,
      list_elem_of_In, in_map_iff.
    split; intros (c & H1 & H2); exists c; auto. }
  assert (Hnd : List.NoDup classNames).
  { subst classNames. apply NoDup_ListNoDup.
    rewrite (classNamesOf_perm cs). apply NoDup_remove_dups. }
  pose proof (assignColors_loop scheme (length classNames) classNames colors) as Hloop.
  cbv zeta in Hloop. destruct Hloop as (Hout & Hyao & Hfall).
  subst result yao. unfold assignColors. cbv zeta.
  split; [exact Hin |]. split; [exact Hnd |].
  split.
  { subst classNames. unfold classNamesOf.
    induction (remove_dups (map class cs)) as [| a l IH]; cbn [fold_right];
      [constructor | apply insertSorted_sorted, IH]. }
  assert (Hunique : ∀ i j k, classNames !! i = Some k → classNames !! j = Some k → i = j).
  { intros i j k Hi Hj. apply NoDup_ListNoDup in Hnd.
    exact (NoDup_lookup _ _ _ _ Hnd Hi Hj). }
  split.
  { intros c Hc.
    assert (Hk : In (class c) classNames) by (apply Hin; exists c; auto).
    destruct (Config.truthy_string
                match scheme with
                | Some sc => default "" (sc !! class c)
                | None => ""
                end) eqn:Ht.
    - rewrite (Hyao _ Hk Ht). eauto.
    - apply list_elem_of_In, list_elem_of_lookup in Hk. destruct Hk as (i & Hi).
      rewrite (Hfall i _ Hi); [eauto | | exact Ht].
      intros j Hj Hjk. pose proof (Hunique _ _ _ Hi Hjk). lia. }
  split; [exact Hyao |].
  split.
  { intros i k Hi Ht. apply (Hfall i k Hi); [| exact Ht].
    intros j Hj Hjk. pose proof (Hunique _ _ _ Hi Hjk). lia. }
  intros k Hk. apply Hout. intros Hin'. apply Hin in Hin'.
  destruct Hin' as (c & Hc & Hck). exact (Hk c Hc Hck).
Qed.

End Palette.

(** ** What the handlers keep true of the viewer *)

Section ViewerInvariants.

Import SpatialViewer Legend.

Variable hslToRgb : Q -> Q -> Q -> Z * Z * Z.

Lemma keeps_refl (s : state) : keeps s s.
Proof. repeat split; auto. Qed.

Lemma keeps_render (container : option (Q * Q)) (s0 s : state) :
  keeps s0 s → keeps s0 (fst (render container s)).
Proof. destruct (render_fields container s) as [-> | ->]; auto. Qed.

Lemma planeReady_render (container : option (Q * Q)) (s : state) :
  planeReady s → planeReady (fst (render container s)).
Proof. destruct (render_fields container s) as [-> | ->]; auto. Qed.

Lemma coherent_keeps (w : World) (s' : state) :
  coherent w → keeps (st w) s' → planeReady s' →
  coherent {| st := s'; awaiting := awaiting w |}.
Proof.
  intros (H1 & H2 & H3 & H4 & H5 & H6) (Kc & Kn & Kg & Kcnt & Kcol & Kvis) Hp.
  unfold coherent, flagsCover, countsMatch, awaited. cbn [st awaiting].
  rewrite Kc, Kn, Kg, Kcnt, Kcol.
  split; [exact H1 |]. split; [exact H2 |]. split; [exact Hp |].
  split; [intros Ha c Hc; apply Kvis, (H4 Ha c Hc) |].
  split; [exact H5 | exact H6].
Qed.

Lemma on_state_coherent (f : state → state * list call) (w : World) :
  coherent w → keeps (st w) (fst (f (st w))) → planeReady (fst (f (st w))) →
  coherent (fst (on_state f w)).
Proof.
  intros Hw Hk Hp. unfold on_state. destruct (f (st w)) as [s calls].
  cbn [fst] in *. apply coherent_keeps; assumption.
Qed.

Lemma finishLoad_fields (container : option (Q * Q)) (names : list string) (s : state) :
  let s' := fst (finishLoad hslToRgb container names s) in
  cells s' = cells s ∧ numCells s' = numCells s ∧ geom s' = geom s
  ∧ planeFilterEnabled s' = planeFilterEnabled s
  ∧ selectedPlane s' = selectedPlane s
  ∧ cellClassColors s'
    = assignColors hslToRgb (yaoColorScheme s) names (cellClassColors s)
  ∧ flagsCover s'
  ∧ (cells s ≠ [] → countsMatch s').
Proof.
  intros s'.
  assert (Hvis : flagsCover s').
  { intros c Hc. subst s'. rewrite finishLoad_visible.
    unfold finishLoad in Hc. cbn [fst] in Hc.
    rewrite render_cells, updateCellClassCounts_cells in Hc. cbn [set_colors cells] in Hc.
    destruct (cellClassVisible s !! class c); [eauto |].
    rewrite bool_decide_eq_true_2; [eauto |].
    apply list_elem_of_In, in_map, Hc. }
  revert Hvis. subst s'. unfold finishLoad. cbn [fst].
  set (s1 := set_colors _ _ s).
  assert (Hfields : ∀ s2, s2 = updateCellClassCounts s1 ∨
                          s2 = set_viewFitted true (updateCellClassCounts s1) →
            cells s2 = cells s ∧ numCells s2 = numCells s ∧ geom s2 = geom s
            ∧ planeFilterEnabled s2 = planeFilterEnabled s
            ∧ selectedPlane s2 = selectedPlane s
            ∧ cellClassColors s2
              = assignColors hslToRgb (yaoColorScheme s) names (cellClassColors s)
            ∧ (cells s ≠ [] → countsMatch s2)).
  { assert (H0 : cells (updateCellClassCounts s1) = cells s
                 ∧ numCells (updateCellClassCounts s1) = numCells s
                 ∧ geom (updateCellClassCounts s1) = geom s
                 ∧ planeFilterEnabled (updateCellClassCounts s1) = planeFilterEnabled s
                 ∧ selectedPlane (updateCellClassCounts s1) = selectedPlane s
                 ∧ cellClassColors (updateCellClassCounts s1)
                   = assignColors hslToRgb (yaoColorScheme s) names (cellClassColors s)
                 ∧ (cells s ≠ [] → countsMatch (updateCellClassCounts s1))).
    { unfold updateCellClassCounts, countsMatch.
      change (cells s1) with (cells s).
      destruct (cells s) as [| c l] eqn:Hcells.
      - subst s1. cbn. rewrite Hcells. repeat split; congruence.
      - subst s1. cbn [set_counts_visible set_colors cells numCells geom
                       planeFilterEnabled selectedPlane cellClassColors cellClassCounts].
        rewrite Hcells. repeat split. intros _ k.
        rewrite countClass_loop. rewrite lookup_empty. reflexivity. }
    intros s2 [-> | ->]; [exact H0 |]. exact H0. }
  intros Hvis.
  destruct (render_fields container (updateCellClassCounts s1)) as [Hr | Hr].
  - destruct (Hfields _ (or_introl Hr)) as (F1 & F2 & F3 & F4 & F5 & F6 & F7).
    repeat split; assumption.
  - destruct (Hfields _ (or_intror Hr)) as (F1 & F2 & F3 & F4 & F5 & F6 & F7).
    repeat split; assumption.
Qed.

Lemma in_delete_other {A : Type} (l : list A) (k : nat) (x y : A) :
  In x l → l !! k = Some y → x ≠ y → In x (delete k l).
Proof.
  revert k. induction l as [| h l IH]; intros k Hin Hk Hne; [destruct Hin |].
  destruct k as [| k]; cbn in Hk |- *.
  - injection Hk as ->. destruct Hin as [-> | Hin]; [contradiction | exact Hin].
  - destruct Hin as [-> | Hin]; [left; reflexivity | right; exact (IH k Hin Hk Hne)].
Qed.

Lemma classNamesOf_covers (cs : list Cell) (c : Cell) :
  In c cs → In (class c) (classNamesOf cs).
Proof.
  intros Hc. rewrite <- list_elem_of_In, (classNamesOf_perm cs), elem_of_remove_dups,
    list_elem_of_In. apply in_map, Hc.
Qed.

Lemma loadRunData_coherent (container : option (Q * Q)) (runId : string)
    (result : fetched CellsFile) (w : World) :
  coherent w → coherent (fst (fst (loadRunData hslToRgb container runId result w))).
Proof.
  intros Hw. unfold loadRunData.
  destruct (loadJSON result) as [data | e]; [| exact Hw].
  set (s1 := installRun runId data (st w)).
  assert (Hs1 : numCells s1 = length (cells s1)
                ∧ is3D (geom s1) = (1 <? length (zValues (geom s1)))%nat
                ∧ planeFilterEnabled s1 = false) by (repeat split).
  destruct Hs1 as (N1 & N2 & N3).
  destruct (yaoColorScheme s1) as [sc |] eqn:Hsc.
  - pose proof (finishLoad_fields container (classNamesOf (cells s1)) s1) as Hf.
    destruct (finishLoad hslToRgb container (classNamesOf (cells s1)) s1) as [s2 calls].
    cbn [fst] in Hf |- *.
    destruct Hf as (F1 & F2 & F3 & F4 & F5 & F6 & F7 & F8).
    unfold coherent, planeReady. cbn [st awaiting].
    rewrite F1, F2, F3, F4.
    split; [exact N1 |]. split; [exact N2 |].
    split; [rewrite N3; discriminate |].
    split; [intros _; exact F7 |].
    split; [intros _; exact F8 |].
    intros c Hc. left. rewrite F6. apply assignColors_is_Some. left.
    apply classNamesOf_covers, Hc.
  - cbn [fst]. unfold coherent, planeReady. cbn [st awaiting].
    split; [exact N1 |]. split; [exact N2 |].
    split; [rewrite N3; discriminate |].
    split; [intros Ha; destruct (awaiting w); discriminate Ha |].
    split; [intros Ha; destruct (awaiting w); discriminate Ha |].
    intros c Hc. right. exists (classNamesOf (cells s1)).
    split; [apply in_or_app; right; left; reflexivity |].
    apply classNamesOf_covers, Hc.
Qed.

Lemma schemeSettled_coherent (container : option (Q * Q)) (k : nat)
    (result : fetched (gmap string string)) (w : World) :
  coherent w → coherent (fst (schemeSettled hslToRgb container k result w)).
Proof.
  intros Hw. unfold schemeSettled.
  destruct (awaiting w !! k) as [names |] eqn:Hk; [| exact Hw].
  set (scheme := match result with
                 | Fetched sc => Some sc
                 | _ => yaoColorScheme (st w)
                 end).
  set (s1 := set_colors (cellClassColors (st w)) scheme (st w)).
  assert (Hgoal : coherent
            {| st := fst (finishLoad hslToRgb container names s1);
               awaiting := delete k (awaiting w) |}).
  { pose proof (finishLoad_fields container names s1) as Hf. cbv zeta in Hf.
    destruct Hf as (F1 & F2 & F3 & F4 & F5 & F6 & F7 & F8).
    destruct Hw as (H1 & H2 & H3 & H4 & H5 & H6).
    unfold coherent, planeReady. cbn [st awaiting].
    rewrite F1, F2, F3, F4, F5. change (cells s1) with (cells (st w)) in *.
    split; [exact H1 |]. split; [exact H2 |]. split; [exact H3 |].
    split; [intros _; exact F7 |].
    split; [intros _; exact F8 |].
    intros c Hc. rewrite F6. change (cellClassColors s1) with (cellClassColors (st w)).
    destruct (H6 c Hc) as [Hsome | (names' & Hn' & Hcn')].
    - left. apply assignColors_is_Some. right. exact Hsome.
    - destruct (In_dec string_dec (class c) names) as [Hin | Hout].
      + left. apply assignColors_is_Some. left. exact Hin.
      + right. exists names'. split; [| exact Hcn'].
        apply (in_delete_other _ k names' names Hn' Hk). intros ->. contradiction. }
  match goal with
  | |- coherent ?t =>
      assert (Heq : t = {| st := fst (finishLoad hslToRgb container names s1);
                           awaiting := delete k (awaiting w) |})
  end.
  { subst s1 scheme.
    destruct result as [| statusText | | sc];
      destruct (finishLoad hslToRgb container names _) as [s2 calls]; reflexivity. }
  rewrite Heq. exact Hgoal.
Qed.

Lemma step_coherent (w : World) (ce : option (Q * Q) * event) :
  coherent w → coherent (fst (step hslToRgb w ce)).
Proof.
  intros Hw. pose proof Hw as (H1 & H2 & H3 & H4 & H5 & H6).
  destruct ce as [container e]. destruct e; cbn [step].
  - (* InitializeDeck *)
    apply on_state_coherent; [exact Hw | |];
      unfold initializeDeck;
      destruct (render_fields container (set_deckgl (st w))) as [Hr | Hr];
      destruct (render container (set_deckgl (st w))) as [s' calls];
      cbn [fst] in *; subst s'; first [exact H3 | repeat split; auto].
  - apply loadRunData_coherent, Hw.
  - apply schemeSettled_coherent, Hw.
  - (* ToggleClass *)
    apply on_state_coherent; [exact Hw | |]; unfold toggleClassVisibility.
    + apply keeps_render. repeat split.
      intros k Hk. cbn [set_visible set_counts_visible cellClassVisible].
      apply lookup_insert_is_Some'. right. exact Hk.
    + apply planeReady_render. exact H3.
  - (* ShowAll *)
    apply on_state_coherent; [exact Hw | |]; unfold showAllClasses.
    + apply keeps_render. repeat split.
      intros k Hk. cbn [set_visible set_counts_visible cellClassVisible].
      rewrite lookup_fmap, fmap_is_Some. exact Hk.
    + apply planeReady_render. exact H3.
  - (* HideAll *)
    apply on_state_coherent; [exact Hw | |]; unfold hideAllClasses.
    + apply keeps_render. repeat split.
      intros k Hk. cbn [set_visible set_counts_visible cellClassVisible].
      rewrite lookup_fmap, fmap_is_Some. exact Hk.
    + apply planeReady_render. exact H3.
  - (* PlaneToggle *)
    apply on_state_coherent; [exact Hw | |]; unfold planeToggleClick, setPlaneFilter;
      destruct (is3D (geom (st w))) eqn:H3D; cbn [negb orb];
      try (first [apply keeps_refl | exact H3]);
      destruct (zValues (geom (st w))) as [| z0 zs] eqn:Hz;
      try (rewrite bool_decide_eq_true_2 by reflexivity);
      try (rewrite bool_decide_eq_false_2 by discriminate);
      try (first [apply keeps_refl | exact H3]);
      destruct (planeFilterEnabled (st w)) eqn:Hen; cbn [negb].
    + apply keeps_render. repeat split; auto.
    + apply keeps_render. repeat split; auto.
    + apply planeReady_render. intros Hon. discriminate Hon.
    + apply planeReady_render. intros _.
      cbn [set_plane geom selectedPlane]. rewrite H3D, Hz.
      split; [reflexivity |]. split; [eauto | discriminate].
  - (* PlaneSlider *)
    apply on_state_coherent; [exact Hw | |].
    + apply keeps_render. repeat split; auto.
    + apply planeReady_render. intros Hon. cbn [set_plane planeFilterEnabled] in Hon.
      destruct (H3 Hon) as (P1 & P2 & P3). cbn [set_plane geom selectedPlane].
      split; [exact P1 |]. split; [eauto | exact P3].
  - (* FilterButton *)
    apply on_state_coherent; [exact Hw | |]; unfold filterButtonClick;
      destruct charts; cbn [fst]; try (first [apply keeps_refl | exact H3]).
    + apply keeps_render. repeat split; auto.
    + apply planeReady_render. exact H3.
  - (* TabSwitch *)
    apply on_state_coherent; [exact Hw | |]; unfold switchTab;
      destruct (String.eqb tabId "flowchartSpatial"); cbn [fst];
      first [apply keeps_refl | exact H3 | idtac].
    + apply keeps_render. repeat split; auto.
    + apply planeReady_render. exact H3.
  - (* LegendFilterInput *)
    apply on_state_coherent; [exact Hw | |]; cbn [fst];
      [repeat split; auto | exact H3].
Qed.

Lemma run_coherent (es : list (option (Q * Q) * event)) (w : World) :
  coherent w → coherent (fst (run hslToRgb w es)).
Proof.
  revert w. induction es as [| ce es IH]; intros w Hw; [exact Hw |].
  rewrite run_cons. apply IH, step_coherent, Hw.
Qed.

Lemma world0_coherent : coherent world0.
Proof.
  unfold coherent, planeReady, flagsCover. cbn.
  split; [reflexivity |]. split; [reflexivity |]. split; [discriminate |].
  split; [intros _ c [] |]. split; [intros _ H; contradiction |]. intros c [].
Qed.

(** X17. What holds of the viewer after any sequence of its handlers, for
    whatever the fetches return.  [numCells] is the number of loaded cells
    and [is3D] says that there is more than one plane.  The plane filter is
    on only for 3D data and with a plane selected, so it is in force
    exactly when it is switched on.  Whenever no load is waiting for the
    colour scheme, every class of the loaded cells has a visibility flag
    and a colour of its own (the grey default is not used), and, unless the
    last file had no cells, [cellClassCounts] holds for each class the
    number of its cells. *)
Theorem viewer_invariants (es : list (option (Q * Q) * event)) :
  let w := fst (run hslToRgb world0 es) in
  let s := st w in
  numCells s = length (cells s)
  ∧ is3D (geom s) = (1 <? length (zValues (geom s)))%nat
  ∧ (planeFilterEnabled s = true → is3D (geom s) = true ∧ is_Some (selectedPlane s))
  ∧ planeActive s = planeFilterEnabled s
  ∧ (awaiting w = [] →
     (∀ c, In c (cells s) →
        is_Some (cellClassVisible s !! class c)
        ∧ cellClassColors s !! class c = Some (getColorForClass s (class c)))
     ∧ (cells s ≠ [] →
        ∀ k, default 0%nat (cellClassCounts s !! k) = countOf k (cells s))).
Proof.
  intros w s.
  destruct (run_coherent es world0 world0_coherent) as (H1 & H2 & H3 & H4 & H5 & H6).
  fold w in H1, H2, H3, H4, H5, H6. fold s in H1, H2, H3, H4, H5, H6.
  split; [exact H1 |]. split; [exact H2 |].
  split; [intros Hon; destruct (H3 Hon) as (P1 & P2 & _); auto |].
  split.
  { unfold planeActive. destruct (planeFilterEnabled s) eqn:Hon; [| reflexivity].
    destruct (H3 Hon) as (P1 & P2 & _). rewrite P1.
    rewrite bool_decide_eq_true_2 by exact P2. reflexivity. }
  intros Ha. split; [| exact (H5 Ha)].
  intros c Hc. split; [exact (H4 Ha c Hc) |].
  destruct (H6 c Hc) as [[v Hv] | (names & Hn & _)].
  - unfold getColorForClass. rewrite Hv. reflexivity.
  - rewrite Ha in Hn. destruct Hn.
Qed.

End ViewerInvariants.

(** ** The plane filter *)

Section PlaneFilter.

Import SpatialViewer Legend.
#[local] Open Scope Q_scope.

Lemma filter_swap {A : Type} (p q : A → bool) (l : list A) :
  List.filter p (List.filter q l) = List.filter q (List.filter p l).
Proof.
  induction l as [| a l IH]; [reflexivity |]. cbn [List.filter].
  destruct (p a) eqn:Hp, (q a) eqn:Hq; cbn [List.filter];
    rewrite ?Hp, ?Hq, IH; reflexivity.
Qed.

Lemma foldQmin_in (zs : list Q) (z0 : Q) : In (fold_left Qmin zs z0) (z0 :: zs).
Proof.
  revert z0. induction zs as [| z zs IH]; intros z0; cbn [fold_left];
    [left; reflexivity |].
  destruct (IH (Qmin z0 z)) as [H | H]; [| right; right; exact H].
  rewrite <- H. unfold Qmin, GenericMinMax.gmin.
  destruct (z0 ?= z); cbn; auto.
Qed.

Lemma foldQmax_in (zs : list Q) (z0 : Q) : In (fold_left Qmax zs z0) (z0 :: zs).
Proof.
  revert z0. induction zs as [| z zs IH]; intros z0; cbn [fold_left];
    [left; reflexivity |].
  destruct (IH (Qmax z0 z)) as [H | H]; [| right; right; exact H].
  rewrite <- H. unfold Qmax, GenericMinMax.gmax.
  destruct (z0 ?= z); cbn; auto.
Qed.

(** X18. The plane toggle on 3D data.  Switching the filter on without
    a plane chosen before selects the floor of the mean of the least and
    the greatest plane of the run (both are planes of the run, and no plane
    is below the one or above the other), which is at most the greatest
    plane and more than the least plane minus one; the cells drawn are then
    those drawn before that lie on that plane.  Switching it off again forgets the
    plane and draws what was drawn at first. *)
Theorem planeToggleClick_cycle (container container' : option (Q * Q)) (s : state)
    (z0 : Q) (zs : list Q) :
  is3D (geom s) = true → zValues (geom s) = z0 :: zs →
  planeFilterEnabled s = false → selectedPlane s = None →
  let on := fst (planeToggleClick container s) in
  let off := fst (planeToggleClick container' on) in
  ∃ (p : Z) (lo hi : Q),
    In lo (z0 :: zs) ∧ In hi (z0 :: zs)
    ∧ (∀ v, In v (z0 :: zs) → lo <= v ∧ v <= hi)
    ∧ p = Qfloor ((lo + hi) / 2)
    ∧ lo <= hi
    ∧ inject_Z p <= (lo + hi) / 2 ∧ (lo + hi) / 2 < inject_Z p + 1
    ∧ lo - 1 < inject_Z p ∧ inject_Z p <= hi
    ∧ planeFilterEnabled on = true ∧ selectedPlane on = Some (inject_Z p)
    ∧ visibleCells on
      = List.filter (fun c => Qeq_bool (cellZ c) (inject_Z p)) (visibleCells s)
    ∧ planeFilterEnabled off = false ∧ selectedPlane off = None
    ∧ visibleCells off = visibleCells s.
Proof.
  intros H3D Hz Hen Hsel on off.
  set (lo := fold_left Qmin zs z0). set (hi := fold_left Qmax zs z0).
  set (p := Qfloor ((lo + hi) / 2)).
  set (s1 := set_plane true (Some (inject_Z p)) s).
  assert (Hon : on = fst (render container s1)).
  { subst on. unfold planeToggleClick, setPlaneFilter.
    rewrite H3D, Hz, Hen, Hsel. cbn [negb orb].
    rewrite bool_decide_eq_false_2 by discriminate. reflexivity. }
  assert (Hfields : planeFilterEnabled on = true ∧ selectedPlane on = Some (inject_Z p)
                    ∧ is3D (geom on) = true ∧ zValues (geom on) = z0 :: zs).
  { rewrite Hon. destruct (render_fields container s1) as [-> | ->];
      cbn; rewrite ?H3D, ?Hz; auto. }
  destruct Hfields as (Fe & Fs & F3 & Fz).
  set (s2 := set_plane false None on).
  assert (Hoff : off = fst (render container' s2)).
  { subst off. unfold planeToggleClick, setPlaneFilter.
    rewrite F3, Fz, Fe. cbn [negb orb].
    rewrite bool_decide_eq_false_2 by discriminate. reflexivity. }
  destruct (foldQmin_spec zs z0) as (Hlo0 & Hlo).
  destruct (foldQmax_spec zs z0) as (Hhi0 & Hhi).
  fold lo in Hlo0, Hlo. fold hi in Hhi0, Hhi.
  assert (Hfloor : inject_Z p <= (lo + hi) / 2) by apply Qfloor_le.
  assert (Hceil : (lo + hi) / 2 < inject_Z p + 1).
  { pose proof (Qlt_floor ((lo + hi) / 2)) as H. fold p in H.
    rewrite inject_Z_plus in H. exact H. }
  assert (Hlohi : lo <= hi) by (eapply Qle_trans; [exact Hlo0 | exact Hhi0]).
  assert (Hhalf : (lo + hi) / 2 == (lo + hi) * (1 # 2)) by (unfold Qdiv; reflexivity).
  exists p, lo, hi.
  split; [apply foldQmin_in |]. split; [apply foldQmax_in |].
  split; [intros v [<- | Hv]; auto |].
  split; [reflexivity |].
  split; [exact Hlohi |]. split; [exact Hfloor |]. split; [exact Hceil |].
  split; [rewrite Hhalf in Hceil; Lqa.lra |].
  split; [rewrite Hhalf in Hfloor; Lqa.lra |].
  split; [exact Fe |]. split; [exact Fs |].
  split.
  { rewrite Hon, (proj2 (legendCells_render container s1)).
    unfold visibleCells, planeActive.
    cbn [s1 set_plane planeFilterEnabled geom selectedPlane useGeneFilter cells].
    rewrite H3D, Hen. cbn [andb].
    rewrite bool_decide_eq_true_2 by eauto.
    assert (Hplane : ∀ l, List.filter (onPlane s1) l
                          = List.filter (fun c => Qeq_bool (cellZ c) (inject_Z p)) l)
      by (intros l; apply filter_ext; intros c; reflexivity).
    assert (Hvis : ∀ l, List.filter (isVisible s1) l = List.filter (isVisible s) l)
      by (intros l; apply filter_ext; intros c; reflexivity).
    assert (Hgene : ∀ l, List.filter (geneOk s1) l = List.filter (geneOk s) l)
      by (intros l; apply filter_ext; intros c; reflexivity).
    rewrite Hplane, Hvis, Hgene.
    destruct (useGeneFilter s); [apply filter_swap | reflexivity]. }
  rewrite Hoff.
  assert (Hfields2 : planeFilterEnabled (fst (render container' s2)) = false
                     ∧ selectedPlane (fst (render container' s2)) = None).
  { destruct (render_fields container' s2) as [-> | ->]; auto. }
  destruct Hfields2 as (G1 & G2).
  split; [exact G1 |]. split; [exact G2 |].
  rewrite (proj2 (legendCells_render container' s2)).
  apply visibleCells_ext; cbn [s2 set_plane cells planeFilterEnabled selectedPlane
                                useGeneFilter minGeneCount geom];
    rewrite ?Hon;
    destruct (render_fields container s1) as [Hr | Hr]; rewrite ?Hr; auto;
    intros c; unfold isVisible; cbn [s2 set_plane cellClassVisible];
    rewrite ?Hon, ?Hr; reflexivity.
Qed.

Lemma planeToggleClick_cycle_witness :
  ∃ p : Z,
    selectedPlane (fst (planeToggleClick None loadedPlaneState)) = Some (inject_Z p).
Proof.
  assert (H3D : is3D (geom loadedPlaneState) = true) by (vm_compute; reflexivity).
  assert (Hz : zValues (geom loadedPlaneState) = [1; 2]) by (vm_compute; reflexivity).
  assert (Hen : planeFilterEnabled loadedPlaneState = false)
    by (vm_compute; reflexivity).
  assert (Hsel : selectedPlane loadedPlaneState = None) by (vm_compute; reflexivity).
  destruct (planeToggleClick_cycle None None loadedPlaneState 1 [2] H3D Hz Hen Hsel)
    as (p & lo & hi & _ & _ & _ & _ & _ & _ & _ & _ & _ & _ & H & _).
  exists p. exact H.
Defined.

End PlaneFilter.

(** ** A file without cells *)

Section EmptyLoad.

Import SpatialViewer Legend.

Variable hslToRgb : Q -> Q -> Q -> Z * Z * Z.

(** X19. A cells file that arrives with no cells, once the colour scheme
    is loaded: the load reports success and the run becomes the current
    run with no cells, but nothing is drawn, so deck.gl keeps the layer of
    the run before; the counts, the visibility flags and the colours of
    that run stay in the state, while the legend, which counts the cells
    again, shows no chip. *)
Theorem loadRunData_without_cells (container : option (Q * Q)) (runId : string)
    (data : CellsFile) (sc : gmap string string) (w : World) :
  default [] (file_cells data) = [] →
  yaoColorScheme (st w) = Some sc →
  let outcome := loadRunData hslToRgb container runId (Fetched data) w in
  let s' := st (fst (fst outcome)) in
  snd outcome = true
  ∧ snd (fst outcome) = [Warn "render() skipped"]
  ∧ currentRun s' = Some runId ∧ cells s' = [] ∧ numCells s' = 0%nat
  ∧ cellClassCounts s' = cellClassCounts (st w)
  ∧ cellClassVisible s' = cellClassVisible (st w)
  ∧ cellClassColors s' = cellClassColors (st w)
  ∧ viewFitted s' = false
  ∧ updateLegend s' = [].
Proof.
  intros Hcells Hsc outcome s'. subst s' outcome.
  unfold loadRunData. cbn [loadJSON].
  assert (Hinst : cells (installRun runId data (st w)) = []) by exact Hcells.
  assert (Hscheme : yaoColorScheme (installRun runId data (st w)) = Some sc)
    by exact Hsc.
  rewrite Hscheme. unfold finishLoad. rewrite Hscheme, Hinst.
  cbn [classNamesOf map remove_dups fold_right assignColors imap fold_left
       paletteLogs flat_map app].
  unfold updateCellClassCounts. cbn [set_colors cells]. rewrite Hinst.
  unfold render, canRender. cbn [set_colors cells deckgl]. rewrite Hinst.
  rewrite bool_decide_eq_true_2 by reflexivity. rewrite andb_false_r.
  cbn [fst snd st]. cbn [set_colors installRun currentRun cells numCells
                        cellClassCounts cellClassVisible cellClassColors viewFitted].
  rewrite Hcells.
  repeat (split; [reflexivity |]).
  unfold updateLegend, legendEntries, getLegendFilteredCells.
  cbn [set_colors installRun cells planeFilterEnabled geom selectedPlane useGeneFilter
       planeActive andb]. rewrite Hcells.
  destruct (useGeneFilter (st w)); cbn [List.filter fold_left];
    destruct (String.eqb _ ""); reflexivity.
Qed.

End EmptyLoad.

Lemma loadRunData_without_cells_witness :
  snd (fst (SpatialViewer.loadRunData greyHsl None "run_1" (Fetched emptyFile)
              {| SpatialViewer.st := loadedPlaneState; SpatialViewer.awaiting := [] |}))
  = [SpatialViewer.Warn "render() skipped"].
Proof.
  assert (Hsc : SpatialViewer.yaoColorScheme loadedPlaneState = Some ∅)
    by (vm_compute; reflexivity).
  exact (proj1 (proj2 (loadRunData_without_cells greyHsl None "run_1" emptyFile ∅
                         {| SpatialViewer.st := loadedPlaneState;
                            SpatialViewer.awaiting := [] |} eq_refl Hsc))).
Defined.

(** ** The fitted view holds every cell *)

Section FitContainment.

Import SpatialViewer.

Lemma ln_2_pos : (0 < ln 2)%R.
Proof. rewrite <- ln_1. apply ln_increasing; lra. Qed.

Lemma Rpower_log2 (a : R) : (0 < a)%R → Rpower 2 (log2 a) = a.
Proof.
  intros Ha. unfold Rpower, log2. pose proof ln_2_pos as H2.
  replace (ln a / ln 2 * ln 2)%R with (ln a) by (field; lra).
  apply exp_ln, Ha.
Qed.

(** Two to the power of the zoom is the smaller of the two ratios. *)
Lemma scale_of_MinLog2 (a b : R) :
  (0 < a)%R → (0 < b)%R →
  let scale := Rpower 2 (Rmin (log2 a) (log2 b)) in
  (0 < scale)%R ∧ (scale <= a)%R ∧ (scale <= b)%R ∧ (scale = a ∨ scale = b).
Proof.
  intros Ha Hb scale. subst scale.
  split; [unfold Rpower; apply exp_pos |].
  unfold Rmin. destruct (Rle_dec (log2 a) (log2 b)) as [Hle | Hgt].
  - rewrite (Rpower_log2 a Ha). split; [lra |]. split; [| left; reflexivity].
    rewrite <- (Rpower_log2 a Ha), <- (Rpower_log2 b Hb).
    apply Rle_Rpower; [lra | exact Hle].
  - rewrite (Rpower_log2 b Hb). split; [| split; [lra | right; reflexivity]].
    rewrite <- (Rpower_log2 a Ha), <- (Rpower_log2 b Hb).
    apply Rle_Rpower; [lra | lra].
Qed.

Lemma Q2R_tenth_pad (lo hi : Q) :
  Q2R ((hi + (hi - lo) * (1 # 10)) - (lo - (hi - lo) * (1 # 10)))
  = (12 / 10 * (Q2R hi - Q2R lo))%R
  ∧ Q2R (((lo - (hi - lo) * (1 # 10)) + (hi + (hi - lo) * (1 # 10))) / 2)
    = ((Q2R lo + Q2R hi) / 2)%R.
Proof.
  assert (H10 : Q2R (1 # 10) = (1 / 10)%R) by (unfold Q2R; cbn; lra).
  split.
  - rewrite Q2R_minus, Q2R_plus, Q2R_minus, !Q2R_mult, !Q2R_minus, H10. lra.
  - unfold Qdiv. change (/ 2)%Q with (1 # 2)%Q.
    rewrite Q2R_mult, Q2R_plus, Q2R_minus, Q2R_plus, !Q2R_mult, !Q2R_minus, H10.
    assert (H2 : Q2R (1 # 2) = (1 / 2)%R) by (unfold Q2R; cbn; lra).
    rewrite H2. lra.
Qed.

(** In one dimension: a coordinate between the bounds is, at the scale of
    the zoom, within five twelfths of the container's extent from the
    target, and the bound itself is exactly that far when the scale is the
    ratio of this dimension. *)
Lemma within_margin (lo hi v size scale : R) :
  (lo < hi)%R → (lo <= v <= hi)%R → (0 < size)%R → (0 < scale)%R →
  (scale <= size / (12 / 10 * (hi - lo)))%R →
  (Rabs (v - (lo + hi) / 2) * scale <= 5 / 12 * size)%R.
Proof.
  intros Hlt Hv Hsize Hscale Hle.
  assert (Habs : (Rabs (v - (lo + hi) / 2) <= (hi - lo) / 2)%R)
    by (apply Rabs_le; lra).
  apply Rle_trans with ((hi - lo) / 2 * (size / (12 / 10 * (hi - lo))))%R.
  - apply Rmult_le_compat; [apply Rabs_pos | lra | exact Habs | exact Hle].
  - right. field. lra.
Qed.

Lemma at_margin (lo hi size : R) :
  (lo < hi)%R →
  (Rabs (hi - (lo + hi) / 2) * (size / (12 / 10 * (hi - lo))) = 5 / 12 * size)%R.
Proof.
  intros Hlt. rewrite Rabs_right by lra. field. lra.
Qed.

(** X20. The fitted view holds every cell.  When the container has a
    size and the cells do not all share one x or one y, the view handed to
    deck.gl is such that, at the scale of two to the power of its zoom,
    every cell of the run lies within five twelfths of the container's
    width and height from the target, that is inside the container with a
    margin of a twelfth of its size on each side; and the zoom is the
    greatest with this property, since in one of the two dimensions some
    cell is exactly that far. *)
Theorem autoFitView_contains_cells (s : state) (cw ch : Q) :
  (0 < cw)%Q → (0 < ch)%Q →
  (∃ a b, In a (cells s) ∧ In b (cells s) ∧ (x a < x b)%Q) →
  (∃ a b, In a (cells s) ∧ In b (cells s) ∧ (y a < y b)%Q) →
  ∃ tx ty zm,
    autoFitView s (Some (cw, ch))
    = [Log "Bounds:";
       SetView {| target := (tx, ty, 0%Q); zoom := zm; transitionDuration := 1000 |}]
    ∧ let scale := Rpower 2 (zoom_value zm) in
      (∀ c, In c (cells s) →
         (Rabs (Q2R (x c) - Q2R tx) * scale <= 5 / 12 * Q2R cw)%R
         ∧ (Rabs (Q2R (y c) - Q2R ty) * scale <= 5 / 12 * Q2R ch)%R)
      ∧ ((∃ c, In c (cells s)
               ∧ (Rabs (Q2R (x c) - Q2R tx) * scale = 5 / 12 * Q2R cw)%R)
         ∨ (∃ c, In c (cells s)
                 ∧ (Rabs (Q2R (y c) - Q2R ty) * scale = 5 / 12 * Q2R ch)%R)).
Proof.
  intros Hcw Hch (xa & xb & Hxa & Hxb & Hx) (ya & yb & Hya & Hyb & Hy).
  unfold autoFitView.
  destruct (cells s) as [| first rest] eqn:Hcells; [destruct Hxa |].
  destruct (boundsOf_box first rest)
    as (minX & maxX & minY & maxY & Hbounds & Hbox & HminX & HmaxX & HminY & HmaxY).
  rewrite Hbounds.
  assert (HW : (minX < maxX)%Q).
  { destruct (Hbox xa Hxa) as (H1 & _), (Hbox xb Hxb) as (_ & H2 & _).
    eapply Qle_lt_trans; [exact H1 |]. eapply Qlt_le_trans; [exact Hx | exact H2]. }
  assert (HH : (minY < maxY)%Q).
  { destruct (Hbox ya Hya) as (_ & _ & H1 & _), (Hbox yb Hyb) as (_ & _ & _ & H2).
    eapply Qle_lt_trans; [exact H1 |]. eapply Qlt_le_trans; [exact Hy | exact H2]. }
  set (dw := ((maxX + (maxX - minX) * (1 # 10)) - (minX - (maxX - minX) * (1 # 10)))%Q).
  set (dh := ((maxY + (maxY - minY) * (1 # 10)) - (minY - (maxY - minY) * (1 # 10)))%Q).
  assert (Hdw : (0 < dw)%Q) by (subst dw; Lqa.lra).
  assert (Hdh : (0 < dh)%Q) by (subst dh; Lqa.lra).
  unfold fitBounds. fold dw dh.
  rewrite (proj2 (positive_lt cw) Hcw), (proj2 (positive_lt ch) Hch),
    (proj2 (positive_lt dw) Hdw), (proj2 (positive_lt dh) Hdh).
  cbn [andb]. do 3 eexists. split; [reflexivity |].
  cbn [zoom_value].
  destruct (Q2R_tenth_pad minX maxX) as (Rdw & Rtx).
  destruct (Q2R_tenth_pad minY maxY) as (Rdh & Rty).
  fold dw in Rdw. fold dh in Rdh. rewrite Rtx, Rty.
  assert (Hne_w : ¬ (dw == 0)%Q) by (intros H; rewrite H in Hdw; discriminate Hdw).
  assert (Hne_h : ¬ (dh == 0)%Q) by (intros H; rewrite H in Hdh; discriminate Hdh).
  rewrite (Q2R_div cw dw Hne_w), (Q2R_div ch dh Hne_h), Rdw, Rdh.
  assert (RW : (Q2R minX < Q2R maxX)%R) by (apply Qlt_Rlt, HW).
  assert (RH : (Q2R minY < Q2R maxY)%R) by (apply Qlt_Rlt, HH).
  assert (Rcw : (0 < Q2R cw)%R) by (rewrite <- RMicromega.Q2R_0; apply Qlt_Rlt, Hcw).
  assert (Rch : (0 < Q2R ch)%R) by (rewrite <- RMicromega.Q2R_0; apply Qlt_Rlt, Hch).
  set (a := (Q2R cw / (12 / 10 * (Q2R maxX - Q2R minX)))%R).
  set (b := (Q2R ch / (12 / 10 * (Q2R maxY - Q2R minY)))%R).
  assert (Ha : (0 < a)%R) by (subst a; apply Rdiv_lt_0_compat; lra).
  assert (Hb : (0 < b)%R) by (subst b; apply Rdiv_lt_0_compat; lra).
  destruct (scale_of_MinLog2 a b Ha Hb) as (Hpos & Hle_a & Hle_b & Htight).
  cbv zeta in Hpos, Hle_a, Hle_b, Htight. cbv zeta.
  set (scale := Rpower 2 (Rmin (log2 a) (log2 b))) in *.
  split.
  - intros c Hc. destruct (Hbox c Hc) as (B1 & B2 & B3 & B4).
    apply Qle_Rle in B1, B2, B3, B4.
    split; apply within_margin; auto; lra.
  - destruct Htight as [Ht | Ht]; rewrite Ht.
    + left. destruct HmaxX as (c & Hc & Heq). exists c. split; [exact Hc |].
      rewrite (Qeq_eqR _ _ Heq). subst a. apply at_margin, RW.
    + right. destruct HmaxY as (c & Hc & Heq). exists c. split; [exact Hc |].
      rewrite (Qeq_eqR _ _ Heq). subst b. apply at_margin, RH.
Qed.

End FitContainment.

Lemma autoFitView_contains_cells_witness :
  ∃ tx ty zm,
    SpatialViewer.autoFitView boxState (Some (800, 400)%Q)
    = [SpatialViewer.Log "Bounds:";
       SpatialViewer.SetView
         {| SpatialViewer.target := (tx, ty, 0%Q); SpatialViewer.zoom := zm;
            SpatialViewer.transitionDuration := 1000 |}].
Proof.
  assert (Hcw : (0 < 800)%Q) by reflexivity.
  assert (Hch : (0 < 400)%Q) by reflexivity.
  assert (Hx : ∃ a b, In a (SpatialViewer.cells boxState)
                      ∧ In b (SpatialViewer.cells boxState)
                      ∧ (SpatialViewer.x a < SpatialViewer.x b)%Q).
  { exists (cornerCell 0 0), (cornerCell 100 50).
    split; [left; reflexivity |]. split; [right; left; reflexivity | reflexivity]. }
  assert (Hy : ∃ a b, In a (SpatialViewer.cells boxState)
                      ∧ In b (SpatialViewer.cells boxState)
                      ∧ (SpatialViewer.y a < SpatialViewer.y b)%Q).
  { exists (cornerCell 0 0), (cornerCell 100 50).
    split; [left; reflexivity |]. split; [right; left; reflexivity | reflexivity]. }
  destruct (autoFitView_contains_cells boxState 800 400 Hcw Hch Hx Hy)
    as (tx & ty & zm & H & _).
  exists tx, ty, zm. exact H.
Defined.

(** ** The gene filter buttons *)

Section GeneFilter.

Import SpatialViewer Legend.

Lemma geneOk_enoughGenes (b : bool) (t : Q) (s : state) (c : Cell) :
  geneOk (set_gene b t s) c = enoughGenes t c.
Proof.
  unfold geneOk, enoughGenes, thr. cbn [set_gene minGeneCount].
  destruct (gene_counts c) as [g |]; [| reflexivity].
  destruct (Qeq_bool t 0) eqn:Hz; [| reflexivity].
  apply Qle_bool_zero_left, Hz.
Qed.

Lemma cells_set_gene (b : bool) (t : Q) (s : state) :
  visibleCells (set_gene b t s)
  = (if b then List.filter (enoughGenes t) (visibleCells (set_gene false t s))
     else visibleCells (set_gene false t s))
  ∧ getLegendFilteredCells (set_gene b t s)
    = (if b then List.filter (enoughGenes t) (getLegendFilteredCells (set_gene false t s))
       else getLegendFilteredCells (set_gene false t s)).
Proof.
  unfold visibleCells, getLegendFilteredCells. cbn [set_gene useGeneFilter].
  destruct b; split; try reflexivity;
    apply filter_ext; intros c; apply geneOk_enoughGenes.
Qed.

(** X21. The filter buttons, as far as the viewer goes.  The listener
    reaches the viewer only when what it does first, the marking of the
    buttons and the update of all charts, does not raise: when that raises,
    the viewer keeps its gene filter and its threshold and nothing is
    drawn.  Otherwise the button "high_gene" switches the gene filter on,
    any other button switches it off; the threshold is the metadata's
    [min_gene_counts], or 40 when the metadata has none.  With "high_gene"
    the cells drawn, and the cells the legend counts, are those of the
    other setting that carry a gene count of at least the threshold: cells
    without a gene count are left out. *)
Theorem filterButtonClick_gene_filter (container container' : option (Q * Q))
    (selected : string) (min_gene_counts : option Q) (s : state) :
  let threshold := match min_gene_counts with Some t => t | None => 40%Q end in
  let all := fst (filterButtonClick container "all" min_gene_counts (Normal tt) s) in
  let picked :=
    fst (filterButtonClick container' selected min_gene_counts (Normal tt) s) in
  (∀ e, filterButtonClick container' selected min_gene_counts (Throw e) s = (s, []))
  ∧ minGeneCount picked = threshold
  ∧ useGeneFilter picked = String.eqb selected "high_gene"
  ∧ (canRender s = true →
     ∃ more, snd (filterButtonClick container' selected min_gene_counts (Normal tt) s)
             = SetLayers (visibleCells picked) :: more)
  ∧ (selected = "high_gene" →
     visibleCells picked = List.filter (enoughGenes threshold) (visibleCells all)
     ∧ getLegendFilteredCells picked
       = List.filter (enoughGenes threshold) (getLegendFilteredCells all)
     ∧ ∀ c, In c (visibleCells picked) →
         ∃ g, gene_counts c = Some g ∧ (threshold <= g)%Q)
  ∧ (selected ≠ "high_gene" →
     visibleCells picked = visibleCells all
     ∧ getLegendFilteredCells picked = getLegendFilteredCells all).
Proof.
  intros threshold all picked. subst all picked. unfold filterButtonClick.
  change (default 40%Q min_gene_counts) with threshold.
  cbn [String.eqb Ascii.eqb Bool.eqb].
  set (b := String.eqb selected "high_gene").
  split; [reflexivity |].
  destruct (legendCells_render container (set_gene false threshold s)) as [L0 V0].
  destruct (legendCells_render container' (set_gene b threshold s)) as [L1 V1].
  destruct (cells_set_gene b threshold s) as [Hv Hl].
  split; [destruct (render_fields container' (set_gene b threshold s)) as [-> | ->];
          reflexivity |].
  split; [destruct (render_fields container' (set_gene b threshold s)) as [-> | ->];
          reflexivity |].
  split.
  { intros Hcan. rewrite V1. unfold render.
    change (canRender (set_gene b threshold s)) with (canRender s). rewrite Hcan.
    destruct (viewFitted (set_gene b threshold s)); eexists; reflexivity. }
  rewrite L0, V0, L1, V1, Hv, Hl.
  split.
  - intros Hsel. assert (Hb : b = true) by (subst b; rewrite Hsel; reflexivity).
    rewrite Hb. split; [reflexivity |]. split; [reflexivity |].
    intros c Hc. apply List.filter_In in Hc. destruct Hc as [_ Hc].
    unfold enoughGenes in Hc. destruct (gene_counts c) as [g |]; [| discriminate].
    exists g. split; [reflexivity | apply Qle_bool_iff, Hc].
  - intros Hsel. assert (Hb : b = false) by (subst b; apply String.eqb_neq, Hsel).
    rewrite Hb. split; reflexivity.
Qed.

End GeneFilter.
